(** * Fine_Tuning_Deep_CNNs_with_GPU: the notebook's glue code, embedded

    The notebook sequences calls into Keras and the Python standard
    library.  The code written in the notebook itself (the dataset
    organizer, [preprocess_function], the validation loop and the freezing
    loop) is embedded below; Keras, numpy, [os] and [shutil] are modelled
    by the part of their documented behaviour that the notebook relies
    on.  The cells that only configure a Keras training run (the head and
    the fine-tuning run) pass constants to [compile], [fit] and
    [fit_generator] and have no code of their own to embed. *)

From Stdlib Require Import Ascii.
From stdpp Require Import gmap strings list fin_maps sorting pretty.
From Stdlib Require Import QArith Qround.

Close Scope Q_scope.

Set Warnings "-register-all".

(** ** Evaluator: the validation loop (notebook cell "validation score") *)

Module Evaluator.

Section Loop.

(** A decoded and preprocessed image; the notebook never inspects one. *)
Variable Image : Type.

(** [model.predict] on one image: the predicted probability of class 1.
    A finite float is a rational, and [0.5] is a float, so comparisons
    against [0.5] are exact on rationals. *)
Variable predict : Image → Q.

(** One file of the validation directory: with [class_mode='binary'] the
    label is the class index as a number. *)
Record sample := Sample { image : Image; label : Q }.

(** The state of a Keras directory iterator with [shuffle=False]: the
    files in their fixed order, the batch size and the running
    [batch_index]. *)
Record flow := Flow {
  samples : list sample;
  flow_batch_size : nat;
  batch_index : nat
}.

Definition flow_from_directory (dir : list sample) (batch_size : nat) : flow :=
  Flow dir batch_size 0.

(** [val_flow.n] *)
Definition n (f : flow) : nat := length (samples f).

(** [next(val_flow)], Keras' [Iterator._flow_index] without shuffling:
    the slice starting at [(batch_index * batch_size) % n]; a full batch
    when one more fits strictly before the end, else the remainder of the
    epoch and a reset.  [% n] raises on an empty directory. *)
Definition next (f : flow) : option (list sample * flow) :=
  if decide (n f = 0) then None
  else
    let current_index := (batch_index f * flow_batch_size f) `mod` n f in
    if decide (current_index + flow_batch_size f < n f) then
      Some (take (flow_batch_size f) (drop current_index (samples f)),
            Flow (samples f) (flow_batch_size f) (S (batch_index f)))
    else
      Some (drop current_index (samples f),
            Flow (samples f) (flow_batch_size f) 0).

(** [predictions > 0.5] on one probability *)
Definition above_half (p : Q) : bool :=
  if Qlt_le_dec (1 # 2)%Q p then true else false.

(** [(predictions > 0.5) == y] on one example: numpy compares the boolean
    as the number 1 or 0 with the label. *)
Definition correct_one (p y : Q) : bool :=
  Qeq_bool (if above_half p then 1%Q else 0%Q) y.

(** [correct = list((predictions > 0.5) == y)] for one batch [(X, y)] *)
Definition correct (batch : list sample) : list bool :=
  let X := image <$> batch in
  let y := label <$> batch in
  let predictions := predict <$> X in
  zip_with correct_one predictions y.

(** What the loop can end in: an accuracy, numpy's nan for the mean of
    an empty list, or a Python exception. *)
Inductive outcome :=
| Accuracy (a : Q)
| NaN
| Raised.

(** [np.mean(all_correct)]: nan for the empty list, else the number of
    [True] entries over the number of entries.  The quotient is kept as the
    exact rational; numpy returns the float64 nearest to it, which is the
    same number only when the quotient is a binary fraction. *)
Definition count_true (l : list bool) : nat := length (filter (λ b, b = true) l).

Definition np_mean (l : list bool) : outcome :=
  match l with
  | [] => NaN
  | _ => Accuracy (inject_Z (Z.of_nat (count_true l)) / inject_Z (Z.of_nat (length l)))%Q
  end.

(** [for i, (X, y) in zip(range(k), val_flow)]: [zip] asks [range] first,
    so the flow is advanced exactly [k] times. *)
Fixpoint loop (k : nat) (val_flow : flow) (all_correct : list bool)
  : option (list bool) :=
  match k with
  | O => Some all_correct
  | S k' =>
      match next val_flow with
      | None => None
      | Some (batch, val_flow') =>
          loop k' val_flow' (all_correct ++ correct batch)
      end
  end.

(** The whole cell.  [val_flow.n // batch_size] raises for a zero
    [batch_size]. *)
Definition validation_accuracy (validation_folder : list sample)
    (batch_size : nat) : outcome :=
  let val_flow := flow_from_directory validation_folder batch_size in
  if decide (batch_size = 0) then Raised
  else
    match loop (n val_flow `div` batch_size) val_flow [] with
    | None => Raised
    | Some all_correct => np_mean all_correct
    end.

(** The per-example correctness indicator of a labelled image. *)
Definition is_correct (s : sample) : bool :=
  correct_one (predict (image s)) (label s).

End Loop.

Arguments Sample {Image} _ _.
Arguments Flow {Image} _ _ _.
Arguments image {Image} _.
Arguments label {Image} _.
Arguments samples {Image} _.
Arguments flow_batch_size {Image} _.
Arguments batch_index {Image} _.
Arguments flow_from_directory {Image} _ _.
Arguments n {Image} _.
Arguments next {Image} _.
Arguments correct {Image} _ _.
Arguments loop {Image} _ _ _ _.
Arguments validation_accuracy {Image} _ _ _.
Arguments is_correct {Image} _ _.

(** The notebook's [batch_size = 50]. *)
Definition batch_size : nat := 50.

End Evaluator.

(** ** [preprocess_function] (notebook cell before the training flow) *)

Module Preprocessing.

(** A numpy array as far as the notebook looks at it: its shape and its
    elements in row-major order. *)
Record ndarray := NdArray { shape : list nat; data : list Q }.

(** [x.ndim] *)
Definition ndim (x : ndarray) : nat := length (shape x).

(** [x[np.newaxis, :, :, :]]: a new leading axis of length one over the
    same elements. *)
Definition newaxis (x : ndarray) : ndarray := NdArray (1 :: shape x) (data x).

Section PreprocessFunction.

(** Keras' [resnet50.preprocess_input], the channel-mean normalization. *)
Variable preprocess_input : ndarray → ndarray.

(** The value bound to [x] when the [return] statement is reached. *)
Definition x_at_return (x : ndarray) : ndarray :=
  if decide (ndim x = 3) then newaxis x else x.

Definition preprocess_function (x : ndarray) : ndarray :=
  let x := x_at_return x in
  preprocess_input x.

End PreprocessFunction.

End Preprocessing.

(** ** Fine tuning: the freezing loop *)

Module FineTuner.

(** The class of a Keras layer: the notebook only tests for [Add]. *)
Inductive layer_class :=
| Add
| OtherLayer (class_name : string).

Global Instance layer_class_eq_dec : EqDecision layer_class.
Proof. solve_decision. Defined.

Record layer := Layer {
  class : layer_class;
  output_shape : list nat;
  weights : list Q;
  trainable : bool
}.

(** [[(i, l.output_shape) for (i, l) in enumerate(model.layers)
      if isinstance(l, Add)]]: the residual blocks, listed for the reader. *)
Definition residual_blocks (layers : list layer) : list (nat * list nat) :=
  omap (λ il : nat * layer,
          if decide (class il.2 = Add) then Some (il.1, output_shape il.2) else None)
       (imap pair layers).

(** [for i, layer in enumerate(model.layers): layer.trainable = i >= 151] *)
Definition set_trainable (layers : list layer) : list layer :=
  imap (λ i l, Layer (class l) (output_shape l) (weights l) (bool_decide (151 ≤ i)))
       layers.

(** [model.trainable_weights], which [model.compile] (called after the
    loop) hands to the optimizer: the weights of the layers whose
    [trainable] flag is set, in layer order, each with the position of its
    layer. *)
Definition trainable_weights (layers : list layer) : list (nat * list Q) :=
  omap (λ il : nat * layer,
          if trainable il.2 then Some (il.1, weights il.2) else None)
       (imap pair layers).

(** The assignment of new values to the weights of one layer. *)
Definition assign (update : nat * list Q) (layers : list layer) : list layer :=
  alter (λ l, Layer (class l) (output_shape l) update.2 (trainable l)) update.1 layers.

Section TrainingStep.

(** The update rule of the compiled optimizer on one batch: from the
    values of the collected weights to their new values.  The gradients,
    the learning rate and the state of the optimizer are Keras'. *)
Variable optimizer : list (list Q) → list (list Q).

(** The gradient update of one training step ([train_on_batch], which
    [fit_generator] calls per batch), as Keras documents it; the notebook
    has no code for it.  The optimizer's new values are assigned to the
    collected weights, and to no other weight.  The running statistics of
    batch normalization are not weights the optimizer assigns; they are
    left out. *)
Definition train_on_batch (layers : list layer) : list layer :=
  let collected := trainable_weights layers in
  let updated := optimizer (snd <$> collected) in
  foldr assign layers (zip (fst <$> collected) updated).

End TrainingStep.

End FineTuner.

(** ** The cache of extracted features *)

Module FeatureCache.

Import Preprocessing.

(** The [.npy] files of the working directory, by name.  They outlive the
    Python process; the variables of a session do not. *)
Abbreviation npy_files := (gmap string ndarray).

(** [np.save(name, a)] *)
Definition np_save (name : string) (a : ndarray) (files : npy_files) : npy_files :=
  <[name := a]> files.

(** [np.load(name)]; [None] when the file is missing. *)
Definition np_load (name : string) (files : npy_files) : option ndarray :=
  files !! name.

(** The loading cell:
    [labels_train = np.load('labels_train.npy');
     features_train = np.load('features_train.npy')] *)
Definition load_precomputed (files : npy_files) : option (ndarray * ndarray) :=
  labels_train ← np_load "labels_train.npy" files;
  features_train ← np_load "features_train.npy" files;
  Some (labels_train, features_train).

(** [n_samples, n_features = features_train.shape]; [None] when the array
    is not 2-dimensional. *)
Definition samples_and_features (features_train : ndarray) : option (nat * nat) :=
  match shape features_train with
  | [n_samples; n_features] => Some (n_samples, n_features)
  | _ => None
  end.

(** [np.concatenate] of 1-dimensional arrays. *)
Definition is_1d (a : ndarray) : bool :=
  match shape a with
  | [_] => true
  | _ => false
  end.

Definition concatenate (arrays : list ndarray) : option ndarray :=
  match arrays with
  | [] => None
  | _ =>
      if forallb is_1d arrays
      then Some (NdArray [length (concat (data <$> arrays))] (concat (data <$> arrays)))
      else None
  end.

(** [np.vstack] of 2-dimensional arrays: the rows of all of them, when
    they agree on the width. *)
Definition rows (a : ndarray) : nat := default 0 (shape a !! 0).

Definition has_width (d : nat) (a : ndarray) : bool :=
  match shape a with
  | [_; d'] => bool_decide (d' = d)
  | _ => false
  end.

Definition vstack (arrays : list ndarray) : option ndarray :=
  match arrays with
  | [] => None
  | a :: _ =>
      match shape a with
      | [_; d] =>
          if forallb (has_width d) arrays
          then Some (NdArray [sum_list (rows <$> arrays); d] (concat (data <$> arrays)))
          else None
      | _ => None
      end
  end.

Section Extraction.

Variable Image : Type.

(** The backbone: the width of its output layer, and the activations of
    that layer for one image. *)
Variable feature_dim : nat.
Variable embedding : Image → list Q.

(** [base_model.predict(X)]: one row per image of the batch. *)
Definition predict (X : list Image) : ndarray :=
  NdArray [length X; feature_dim] (concat (embedding <$> X)).

(** Modelled from the spec: the feature extraction loop, which the notebook
    loads from [solutions/dogs_vs_cats_extract_features.py], a file that is
    not among the sources.  Following section 4.3 of the specification it
    runs the backbone over every batch [(X, y)] of the stream, accumulates
    the embeddings and the labels into two aligned arrays and persists
    them as the cache files the loading cell reads. *)
Definition extract_features (batches : list (list Image * list Q))
    (files : npy_files) : option npy_files :=
  let features := (λ Xy, predict Xy.1) <$> batches in
  let labels := (λ Xy : list Image * list Q, NdArray [length Xy.2] Xy.2) <$> batches in
  labels_train ← concatenate labels;
  features_train ← vstack features;
  Some (np_save "features_train.npy" features_train
         (np_save "labels_train.npy" labels_train files)).

End Extraction.

Arguments predict {Image} _ _ _.
Arguments extract_features {Image} _ _ _ _.

End FeatureCache.

(** ** The file system, [os], [os.path], [shutil] and [zipfile] *)

Module OS.

(** *** Strings *)

(** [s.endswith(suffix)] *)
Fixpoint endswith (suffix s : string) : bool :=
  if String.eqb s suffix then true
  else
    match s with
    | EmptyString => false
    | String _ s' => endswith suffix s'
    end.

(** [s.startswith(prefix)] *)
Fixpoint startswith (prefix s : string) : bool :=
  match prefix, s with
  | EmptyString, _ => true
  | String a prefix', String b s' => Ascii.eqb a b && startswith prefix' s'
  | String _ _, EmptyString => false
  end.

(** [s.split(sep)]: the pieces between the occurrences of [sep]. *)
Fixpoint split (sep : ascii) (s : string) : list string :=
  match s with
  | EmptyString => [EmptyString]
  | String a s' =>
      if Ascii.eqb a sep then EmptyString :: split sep s'
      else
        match split sep s' with
        | piece :: pieces => String a piece :: pieces
        | [] => [String a EmptyString]
        end
  end.

(** [head, tail = s.split(sep, 1)]: the text before and after the first
    [sep]; [None] when [sep] does not occur, where the unpacking into two
    names raises [ValueError]. *)
Fixpoint split_once (sep : ascii) (s : string) : option (string * string) :=
  match s with
  | EmptyString => None
  | String a s' =>
      if Ascii.eqb a sep then Some (EmptyString, s')
      else
        match split_once sep s' with
        | Some (head, tail) => Some (String a head, tail)
        | None => None
        end
  end.

(** [posixpath.join(a, b)] *)
Definition join (a b : string) : string :=
  if startswith "/" b then b
  else if bool_decide (a = "") || endswith "/" a then a +:+ b
  else a +:+ "/" +:+ b.

(** *** Paths and the directory tree *)

(** A file or a directory with its entries by name. *)
Inductive node :=
| File (data : string)
| Dir (entries : gmap string node).

(** A resolved path: the names from the root down. *)
Definition path := list string.

(** The names a directory entry can have. *)
Definition valid_name (s : string) : bool :=
  negb (String.eqb s "") && negb (String.eqb s ".") && negb (String.eqb s "..")
  && bool_decide (split "/"%char s = [s]).

(** The components of a path name: empty pieces (doubled or trailing
    slashes) and [.] stand for the directory itself.  (A trailing slash
    after the name of a regular file is not told apart from the name.) *)
Definition components (s : string) : list string :=
  filter (λ c, c ≠ "" ∧ c ≠ ".") (split "/"%char s).

(** Two paths diverge when they name entries of different subtrees. *)
Fixpoint diverge (p q : path) : bool :=
  match p, q with
  | a :: p', b :: q' => if decide (a = b) then diverge p' q' else true
  | _, _ => false
  end.

Fixpoint node_at (p : path) (t : node) : option node :=
  match p with
  | [] => Some t
  | c :: p' =>
      match t with
      | Dir es => es !! c ≫= node_at p'
      | File _ => None
      end
  end.

(** Replace, create or remove (result [None]) the entry that [p] names;
    [f] sees the present entry and may refuse.  All directories above the
    entry must exist. *)
Fixpoint update_entry (p : path) (f : option node → option (option node))
    (t : node) : option node :=
  match t with
  | File _ => None
  | Dir es =>
      match p with
      | [] => None
      | [name] =>
          o ← f (es !! name);
          Some (Dir (partial_alter (λ _, o) name es))
      | c :: p' =>
          m ← es !! c;
          m' ← update_entry p' f m;
          Some (Dir (<[c := m']> es))
      end
  end.

(** [os.makedirs]: create the directories of [p] that are missing. *)
Fixpoint makedirs_at (p : path) (t : node) : option node :=
  match t with
  | File _ => None
  | Dir es =>
      match p with
      | [] => Some t
      | c :: p' =>
          m' ← makedirs_at p' (default (Dir ∅) (es !! c));
          Some (Dir (<[c := m']> es))
      end
  end.

Definition mkdir_at (p : path) : node → option node :=
  update_entry p (λ present,
    match present with
    | None => Some (Some (Dir ∅))
    | Some _ => None
    end).

Definition detach (p : path) : node → option node :=
  update_entry p (λ present,
    match present with
    | Some _ => Some None
    | None => None
    end).

Definition attach (p : path) (nd : node) : node → option node :=
  update_entry p (λ _, Some (Some nd)).

(** [open(p, 'wb')] and writing [data]: creates or truncates a file,
    refuses a directory. *)
Definition write_at (p : path) (data : string) : node → option node :=
  update_entry p (λ present,
    match present with
    | Some (Dir _) => None
    | _ => Some (Some (File data))
    end).

(** POSIX [rename]: the source must exist and is not the root; a target
    that exists is replaced when it is a file and the source is one, or an
    empty directory and the source is a directory; nothing moves into
    itself. *)
Definition replaceable (source : node) (target : option node) : bool :=
  match target, source with
  | None, _ => true
  | Some (File _), File _ => true
  | Some (Dir es), Dir _ => bool_decide (es = ∅)
  | _, _ => false
  end.

Definition rename_at (src dst : path) (t : node) : option node :=
  nd ← node_at src t;
  if decide (src = []) then None
  else if decide (src = dst) then Some t
  else if decide (src `prefix_of` dst) then None
  else if negb (replaceable nd (node_at dst t)) then None
  else detach src t ≫= attach dst nd.

(** *** The process: its file system and what it has done so far *)

Inductive event :=
| Print (line : string)
| Mkdir (p : path)
| Rename (src dst : path)
| Extract (p : path).

Record world := World { root : node; log : list event }.

Inductive exception :=
| OSError
| BadZipFile
| ValueError.

(** A statement either completes with a value or raises; either way it
    leaves a world behind. *)
Inductive result (A : Type) :=
| Ok (a : A) (w : world)
| Raise (e : exception) (w : world).

Arguments Ok {A} _ _.
Arguments Raise {A} _ _.

Definition M (A : Type) : Type := world → result A.

Global Instance M_ret : MRet M := λ A a w, Ok a w.

Global Instance M_bind : MBind M := λ A B f m w,
  match m w with
  | Ok a w' => f a w'
  | Raise e w' => Raise e w'
  end.

Definition raise {A} (e : exception) : M A := λ w, Raise e w.

(** [for x in l: body] *)
Fixpoint for_each {A} (l : list A) (body : A → M unit) : M unit :=
  match l with
  | [] => mret ()
  | x :: l' => body x ;; for_each l' body
  end.

Definition print (line : string) : M unit := λ w,
  Ok () (World (root w) (log w ++ [Print line])).

Section Process.

(** The working directory, and the order in which the file system lists
    a directory: some order, the same whenever the names are the same. *)
Variable cwd : path.
Variable readdir_order : list string → list string.

(** From a path name to the path it denotes.  The empty name denotes
    nothing.  Two kinds of name are outside this model: a name with a
    [..] component denotes nothing here, although the kernel follows it
    to the parent directory; and a name with a NUL character, which
    Python refuses with [ValueError] before it asks the kernel, is treated
    as any other name.  What is proved of a path name therefore speaks of
    names without [..] and without NUL. *)
Definition resolve (s : string) : option path :=
  if bool_decide (s = "") then None
  else if bool_decide (".." ∈ components s) then None
  else Some ((if startswith "/" s then [] else cwd) ++ components s).

(** The directory below which [join a b] puts a relative [b]. *)
Definition join_base (a : string) : option path :=
  if bool_decide (a = "") then Some cwd else resolve a.

Definition stat (s : string) (t : node) : option node :=
  resolve s ≫= λ p, node_at p t.

(** [os.path.exists] and [os.path.isdir] *)
Definition exists_ (s : string) : M bool := λ w,
  Ok (bool_decide (is_Some (stat s (root w)))) w.

Definition is_dir (o : option node) : bool :=
  match o with
  | Some (Dir _) => true
  | _ => false
  end.

Definition isdir (s : string) : M bool := λ w,
  Ok (is_dir (stat s (root w))) w.

(** [os.listdir]: the names of the entries, in the file system's order. *)
Definition names (es : gmap string node) : list string :=
  readdir_order (filter (λ s, valid_name s = true) (map_to_list es).*1).

Definition listdir (s : string) : M (list string) := λ w,
  match stat s (root w) with
  | Some (Dir es) => Ok (names es) w
  | _ => Raise OSError w
  end.

(** Lift a change of the tree that can fail with [OSError]. *)
Definition syscall (ev : event) (change : node → option node) : M unit := λ w,
  match change (root w) with
  | Some t => Ok () (World t (log w ++ [ev]))
  | None => Raise OSError w
  end.

(** [os.mkdir] *)
Definition mkdir (s : string) : M unit := λ w,
  match resolve s with
  | Some p => syscall (Mkdir p) (mkdir_at p) w
  | None => Raise OSError w
  end.

(** [os.rename] *)
Definition rename (src dst : string) : M unit := λ w,
  match resolve src, resolve dst with
  | Some p, Some q => syscall (Rename p q) (rename_at p q) w
  | _, _ => Raise OSError w
  end.

(** [shutil._basename], which is [os.path.basename(path.rstrip('/'))]: the
    text after the last slash once the trailing slashes are taken off,
    that is the last piece between slashes that is not empty (the empty
    name when there is none). *)
Definition basename (s : string) : string :=
  default "" (last (filter (λ c, c ≠ "") (split "/"%char s))).

(** [os.path.samefile] as [shutil] uses it: [False] when one is missing. *)
Definition samefile (a b : string) : M bool := λ w,
  Ok (bool_decide (is_Some (stat a (root w)) ∧ is_Some (stat b (root w))
                   ∧ resolve a = resolve b)) w.

(** [shutil.move(src, dst)]: into [dst] when that is a directory,
    refusing to overwrite there; onto [dst] otherwise.  The move is the
    rename; the copy that [shutil] falls back on when the rename fails (it
    serves moves to another device) is left out, a failed rename raises. *)
Definition move (src dst : string) : M unit :=
  isdir dst ≫= λ dst_is_dir : bool,
  if dst_is_dir then
    samefile src dst ≫= λ same : bool,
    if same then rename src dst
    else
      let real_dst := join dst (basename src) in
      exists_ real_dst ≫= λ taken : bool,
      if taken then raise OSError
      else rename src real_dst
  else rename src dst.

(** The zip format: the members of an archive, by name, from its bytes. *)
Variable unzip : string → option (list (string * string)).

(** [ZipFile._extract_member]: the member's name, without empty, [.] and
    [..] pieces, below the target directory; missing directories above it
    are created; a name ending in a slash is a directory. *)
Definition extract_member (into : string) (member : string * string) : M unit :=
  match join_base into with
  | None => raise OSError
  | Some base =>
      let arcname := filter (λ c, c ∉ [""; "."; ".."]) (split "/"%char member.1) in
      let target := base ++ arcname in
      let upperdirs := removelast target in
      syscall (Extract target) (λ t : node,
        (if bool_decide (is_Some (node_at upperdirs t)) then Some t
         else makedirs_at upperdirs t) ≫= λ t' : node,
        if endswith "/" member.1 then
          if is_dir (node_at target t') then Some t' else mkdir_at target t'
        else write_at target member.2 t')
  end.

(** [ZipFile(archive).extractall(into)] *)
Definition extractall (archive into : string) : M unit := λ w,
  match stat archive (root w) with
  | Some (File data) =>
      match unzip data with
      | Some members => for_each members (extract_member into) w
      | None => Raise BadZipFile w
      end
  | _ => Raise OSError w
  end.

End Process.

End OS.

(** ** Dataset Organizer: the first three code cells of the notebook *)

Module Organizer.

Import OS.

(** [sorted(l)] on strings: ascending by code point. *)
Definition sorted (l : list string) : list string := merge_sort String.le l.

(** [l[-n:]]: the last [n] elements, all of [l] when it is shorter; and
    all of [l] for [n = 0], since [-0] is [0]. *)
Definition last_n {A} (n : nat) (l : list A) : list A :=
  if decide (n = 0) then l else drop (length l - n) l.

Definition n_validation : nat := 500.

Section Notebook.

Variable cwd : path.
Variable readdir_order : list string → list string.
Variable unzip : string → option (list (string * string)).

(** The cell that extracts the archive.  [data_folder] is the value of
    [op.expanduser('~/data/dogs-vs-cats')]. *)
Definition extract_train (data_folder : string) : M unit :=
  let train_folder := join data_folder "train" in
  exists_ cwd train_folder ≫= λ present : bool,
  if negb present then
    let train_zip := join data_folder "train.zip" in
    print ("Extracting " +:+ train_zip +:+ "...") ;;
    extractall cwd unzip train_zip data_folder
  else mret ().

(** The body of the loop of [rearrange_folders], for one
    [image_filename]. *)
Definition rearrange_one (folder image_filename : string) : M unit :=
  match split_once "." image_filename with
  | None => raise ValueError
  | Some (subfolder, _) =>
      let subfolder := join folder subfolder in
      exists_ cwd subfolder ≫= λ present : bool,
      (if negb present then mkdir cwd subfolder else mret ()) ;;
      move cwd image_filename subfolder
  end.

Definition rearrange_folders (folder : string) : M unit :=
  listdir cwd readdir_order folder ≫= λ listing : list string,
  let image_filenames :=
    join folder <$> filter (λ fn, endswith ".jpg" fn = true) listing in
  if decide (length image_filenames = 0) then mret ()
  else
    print ("Rearranging " +:+ pretty (length image_filenames) +:+ " images in "
           +:+ folder +:+ " into one subfolder per class...") ;;
    for_each image_filenames (rearrange_one folder).

(** The body of the loop over the classes in the validation cell. *)
Definition populate (train_folder validation_folder class_name : string) : M unit :=
  let train_subfolder := join train_folder class_name in
  let validation_subfolder := join validation_folder class_name in
  print ("Populating " +:+ validation_subfolder +:+ "...") ;;
  mkdir cwd validation_subfolder ;;
  listdir cwd readdir_order train_subfolder ≫= λ listing : list string,
  let images_filenames := sorted listing in
  for_each (last_n n_validation images_filenames) (λ image_filename,
    move cwd (join train_subfolder image_filename) validation_subfolder) ;;
  listdir cwd readdir_order validation_subfolder ≫= λ moved : list string,
  print ("Moved " +:+ pretty (length moved) +:+ " images").

(** The cell that builds the validation set. *)
Definition build_validation (data_folder : string) : M unit :=
  let train_folder := join data_folder "train" in
  let validation_folder := join data_folder "validation" in
  exists_ cwd validation_folder ≫= λ present : bool,
  if negb present then
    mkdir cwd validation_folder ;;
    for_each ["dog"; "cat"] (populate train_folder validation_folder)
  else mret ().

(** The three cells, one after the other; an exception stops the run. *)
Definition organize (data_folder : string) : M unit :=
  extract_train data_folder ;;
  rearrange_folders (join data_folder "train") ;;
  build_validation data_folder.

(** A data directory is organized when the three guards of the cells
    hold: the train directory exists, it lists no [.jpg] name, and the
    validation directory exists. *)
Definition organized (data_folder : string) (w : world) : Prop :=
  exists_ cwd (join data_folder "train") w = Ok true w
  ∧ (∃ listing,
       listdir cwd readdir_order (join data_folder "train") w = Ok listing w
       ∧ Forall (λ fn, endswith ".jpg" fn = false) listing)
  ∧ exists_ cwd (join data_folder "validation") w = Ok true w.

(** The class of a flat file name: the text before its first dot. *)
Definition class_of (fn : string) : option string :=
  fst <$> split_once "." fn.

(** The entries [now] of a train folder that had the entries [es], after
    the images [done] have been moved: a moved image is gone, the class of
    a moved image is a directory that holds the moved images of that
    class, and every other entry is as it was. *)
Definition holds_moved (es : gmap string node) (done : list string)
    (class_name : string) (m : gmap string node) : Prop :=
  ∀ fn, (fn ∈ done → class_of fn = Some class_name → m !! fn = es !! fn)
        ∧ (¬ (fn ∈ done ∧ class_of fn = Some class_name) → m !! fn = None).

Definition rearranged (es : gmap string node) (done : list string)
    (now : gmap string node) : Prop :=
  (∀ k, k ∈ done → now !! k = None)
  ∧ (∀ k, k ∉ done → Some k ∈ class_of <$> done →
          ∃ m, now !! k = Some (Dir m) ∧ holds_moved es done k m)
  ∧ (∀ k, k ∉ done → Some k ∉ class_of <$> done → now !! k = es !! k).

(** The two states in which the cells can find the images of a train
    folder: [Flat], as the archive leaves them, every image a file
    [class.N.jpg] of the folder itself, below an absolute data folder
    without a dot in its name; and [Arranged], one folder per class and
    no [.jpg] name left in the train folder itself. *)
Inductive layout : Set := Flat | Arranged.

Definition in_layout (l : layout) (data_folder : string) (listing : list string) : Prop :=
  match l with
  | Flat =>
      startswith "/" data_folder = true
      ∧ split_once "." data_folder = None
      ∧ Forall (λ fn, endswith ".jpg" fn = true ∧ startswith "." fn = false) listing
  | Arranged => Forall (λ fn, endswith ".jpg" fn = false) listing
  end.

(** The names of the images of a class, and the path of one of them. *)
Definition images_of (l : layout) (train_folder class_name : string) : M (list string) :=
  match l with
  | Flat =>
      listdir cwd readdir_order train_folder ≫= λ listing : list string,
      mret (filter (λ fn, class_of fn = Some class_name) listing)
  | Arranged => listdir cwd readdir_order (join train_folder class_name)
  end.

Definition image_path (l : layout) (train_folder class_name fn : string) : string :=
  match l with
  | Flat => join train_folder fn
  | Arranged => join (join train_folder class_name) fn
  end.

End Notebook.

End Organizer.

(** * Concrete inputs used by the examples below *)

(** A validation directory of five labelled images, four of which the
    model classifies correctly (the image is its own index). *)
Definition five_images : list (Evaluator.sample nat) :=
  [ Evaluator.Sample 0 0%Q; Evaluator.Sample 1 0%Q; Evaluator.Sample 2 1%Q;
    Evaluator.Sample 3 1%Q; Evaluator.Sample 4 1%Q ].

Definition five_predictions (i : nat) : Q :=
  match i with
  | 0 => (1 # 10)%Q
  | 1 => (2 # 10)%Q
  | 2 => (9 # 10)%Q
  | 3 => (8 # 10)%Q
  | _ => (3 # 10)%Q
  end.


(** A 2 x 2 RGB image and a stand-in for the channel-mean normalization. *)
Definition tiny_image : Preprocessing.ndarray :=
  Preprocessing.NdArray [2; 2; 3]
    [10; 20; 30; 40; 50; 60; 70; 80; 90; 100; 110; 120]%Q.

Definition subtract_100 (x : Preprocessing.ndarray) : Preprocessing.ndarray :=
  Preprocessing.NdArray (Preprocessing.shape x)
    ((λ v, v - 100)%Q <$> Preprocessing.data x).




(** A toy backbone with two output units and two batches of two images. *)
Definition toy_embedding (img : nat) : list Q :=
  [inject_Z (Z.of_nat img); inject_Z (Z.of_nat (img + 1))].

Definition toy_batches : list (list nat * list Q) :=
  [ ([0; 1], [0; 1]%Q); ([2; 3], [1; 0]%Q) ].

(** The names [class.0.jpg], [class.1.jpg], ... of the images of a class,
    and a folder that holds them; files hold their own name. *)
Definition image_names (class_name : string) (count : nat) : list string :=
  (λ i : nat, class_name +:+ "." +:+ pretty i +:+ ".jpg") <$> seq 0 count.

Definition class_folder (class_name : string) (count : nat) : OS.node :=
  OS.Dir (list_to_map ((λ name, (name, OS.File name)) <$> image_names class_name count)).

(** A data directory [/data] as the archive leaves it: 502 dog images and
    501 cat images directly in the train directory, and no validation
    directory. *)
Definition extracted_images : gmap string OS.node :=
  list_to_map ((λ name, (name, OS.File name))
                 <$> image_names "dog" 502 ++ image_names "cat" 501).

Definition extracted_world : OS.world :=
  OS.World
    (OS.Dir {[ "data" := OS.Dir {[ "train" := OS.Dir extracted_images ]} ]})
    [].

(** The listing order and the zip decoder of the examples. *)
Definition in_stored_order (l : list string) : list string := l.

Definition no_archive (data : string) : option (list (string * string)) := None.

(** Two home directories with the same flat train folder of one cat and
    one dog image: one home has a dot in its name, the other has not. *)
Definition flat_train : OS.node :=
  OS.Dir (<[ "cat.0.jpg" := OS.File "c0" ]> {[ "dog.0.jpg" := OS.File "d0" ]}).

Definition home_with (user : string) : OS.world :=
  OS.World
    (OS.Dir {[ "home" :=
       OS.Dir {[ user :=
         OS.Dir {[ "data" :=
           OS.Dir {[ "dogs-vs-cats" := OS.Dir {[ "train" := flat_train ]} ]} ]} ]} ]})
    [].

(** The home [/home/u] with the flat train folder, a file of the user
    and a file beside the train folder. *)
Definition home_with_notes : OS.world :=
  OS.World
    (OS.Dir {[ "home" :=
       OS.Dir {[ "u" :=
         OS.Dir (<[ "notes.txt" := OS.File "todo" ]>
                   {[ "data" :=
                      OS.Dir {[ "dogs-vs-cats" :=
                        OS.Dir (<[ "README" := OS.File "kaggle" ]>
                                  {[ "train" := flat_train ]}) ]} ]}) ]} ]})
    [].

(** The arranged data directory with an empty validation directory. *)
Definition with_empty_validation : OS.world :=
  OS.World
    (OS.Dir {[ "data" :=
       OS.Dir (<[ "validation" := OS.Dir ∅ ]>
                 {[ "train" :=
                    OS.Dir (<[ "dog" := class_folder "dog" 502 ]>
                              {[ "cat" := class_folder "cat" 501 ]}) ]}) ]})
    [].

(** A train folder [/data/train] whose only image is a hidden file. *)
Definition with_hidden_image : OS.world :=
  OS.World
    (OS.Dir {[ "data" :=
       OS.Dir {[ "train" := OS.Dir {[ ".dog.0.jpg" := OS.File "d0" ]} ]} ]})
    [].

(** A process in [/home/u] with the flat train folder at the relative
    path [data/train]. *)
Definition relative_home : OS.world :=
  OS.World
    (OS.Dir {[ "home" :=
       OS.Dir {[ "u" := OS.Dir {[ "data" := OS.Dir {[ "train" := flat_train ]} ]} ]} ]})
    [].

(** An arranged data directory [/data] with three dog images and two cat
    images, and no validation directory. *)
Definition few_images : OS.world :=
  OS.World
    (OS.Dir {[ "data" :=
       OS.Dir {[ "train" :=
         OS.Dir (<[ "dog" := class_folder "dog" 3 ]>
                   {[ "cat" := class_folder "cat" 2 ]}) ]} ]})
    [].

(** The same with one image of a third class in train, and a file beside
    the train directory. *)
Definition three_classes : OS.world :=
  OS.World
    (OS.Dir {[ "data" :=
       OS.Dir (<[ "notes.txt" := OS.File "todo" ]>
                 {[ "train" :=
                    OS.Dir (<[ "dog" := class_folder "dog" 3 ]>
                              (<[ "cat" := class_folder "cat" 2 ]>
                                 {[ "bird" := class_folder "bird" 1 ]})) ]}) ]})
    [].

(** A data directory [/data] whose train directory has no class folder. *)
Definition empty_train : OS.world :=
  OS.World (OS.Dir {[ "data" := OS.Dir {[ "train" := OS.Dir ∅ ]} ]}) [].



(** A fresh data directory [/data]: only the archive, whose members are
    the images [train/dog.0.jpg] ... [train/dog.501.jpg] and
    [train/cat.0.jpg] ... [train/cat.500.jpg]; an image holds its name. *)
Definition archived_images : list (string * string) :=
  (λ name, (name, name)) <$> image_names "dog" 502 ++ image_names "cat" 501.

Definition image_archive (data : string) : option (list (string * string)) :=
  if String.eqb data "PK"
  then Some ((λ image : string * string, ("train/" +:+ image.1, image.2)) <$> archived_images)
  else None.

Definition fresh_world : OS.world :=
  OS.World (OS.Dir {[ "data" := OS.Dir {[ "train.zip" := OS.File "PK" ]} ]}) [].

(** The same with an archive of three images. *)
Definition three_images : list (string * string) :=
  [ ("dog.0.jpg", "d0"); ("dog.1.jpg", "d1"); ("cat.0.jpg", "c0") ].

Definition small_archive (data : string) : option (list (string * string)) :=
  if String.eqb data "PK"
  then Some ((λ image : string * string, ("train/" +:+ image.1, image.2)) <$> three_images)
  else None.

(** * Part II: properties of the embedded code *)

(** ** Evaluator *)

Section EvaluatorFacts.

Import Evaluator.

Context {Image : Type} (predict : Image → Q).

Lemma correct_is_correct (batch : list (sample Image)) :
  correct predict batch = is_correct predict <$> batch.
Proof.
  unfold correct. induction batch as [|s batch IH]; simpl; [done|].
  f_equal. apply IH.
Qed.

(** One call of [next] while a whole batch still fits: the batch is the
    next [B] files, in order. *)
Lemma next_full (f : flow Image) (i : nat) :
  batch_index f = i →
  0 < flow_batch_size f →
  (i + 1) * flow_batch_size f ≤ n f →
  ∃ f', next f =
          Some (take (flow_batch_size f) (drop (i * flow_batch_size f) (samples f)), f')
        ∧ samples f' = samples f
        ∧ flow_batch_size f' = flow_batch_size f
        ∧ ((i + 1) * flow_batch_size f < n f → batch_index f' = S i).
Proof.
  intros Hi HB Hfit. unfold next.
  destruct (decide (n f = 0)) as [Hz|Hz]; [lia|].
  rewrite Hi.
  assert (Hlt : i * flow_batch_size f < n f) by lia.
  rewrite (Nat.mod_small _ _ Hlt).
  destruct (decide (i * flow_batch_size f + flow_batch_size f < n f)) as [Hd|Hd].
  - eexists. split; [done|]. simpl. by repeat split.
  - eexists. split.
    + f_equal. f_equal. symmetry. apply take_ge.
      rewrite length_drop. unfold n in *. lia.
    + simpl. repeat split; try done. lia.
Qed.

Lemma loop_batches (k : nat) : ∀ (f : flow Image) (i : nat) (acc : list bool),
  batch_index f = i →
  0 < flow_batch_size f →
  (i + k) * flow_batch_size f ≤ n f →
  loop predict k f acc =
    Some (acc ++ (is_correct predict <$>
                    take (k * flow_batch_size f) (drop (i * flow_batch_size f) (samples f)))).
Proof.
  induction k as [|k IH]; intros f i acc Hi HB Hfit.
  - simpl. by rewrite app_nil_r.
  - simpl.
    destruct (next_full f i Hi HB) as (f' & Hn & Hs & Hb & Hidx); [lia|].
    rewrite Hn.
    destruct k as [|k'].
    + simpl. rewrite correct_is_correct. do 4 f_equal. lia.
    + rewrite (IH f' (S i)); [|apply Hidx; lia|lia|rewrite Hb; unfold n in *; rewrite Hs; lia].
      rewrite correct_is_correct, Hb, Hs, <- app_assoc, <- fmap_app.
      do 3 f_equal.
      set (B := flow_batch_size f).
      replace (S (S k') * B) with (B + S k' * B) by lia.
      replace (S i * B) with (i * B + B) by lia.
      rewrite <- drop_drop. apply take_take_drop.
Qed.

(** The loop sees the first [n // batch_size] whole batches and nothing
    else: the files after the last whole batch are never predicted. *)
Lemma validation_accuracy_whole_batches (dir : list (sample Image)) (B : nat) :
  B ≠ 0 →
  validation_accuracy predict dir B =
    np_mean (is_correct predict <$> take (length dir `div` B * B) dir).
Proof.
  intros HB. unfold validation_accuracy.
  destruct (decide (B = 0)) as [|_]; [done|].
  rewrite (loop_batches _ _ 0); simpl; try done; try lia.
  unfold n. simpl. rewrite Nat.mul_comm. apply Nat.Div0.mul_div_le.
Qed.

(** When the batch size divides the number of files (1000 and 50 in the
    notebook) the reported accuracy is the mean over every file. *)
Lemma validation_accuracy_divisible (dir : list (sample Image)) (B : nat) :
  B ≠ 0 →
  length dir `mod` B = 0 →
  validation_accuracy predict dir B = np_mean (is_correct predict <$> dir).
Proof.
  intros HB Hdiv. rewrite validation_accuracy_whole_batches by done.
  rewrite take_ge; [done|].
  pose proof (Nat.div_mod_eq (length dir) B). lia.
Qed.

End EvaluatorFacts.

(** C1: the validation loop does not reach the whole validation split when
    the batch size does not divide the number of files.  On five labelled
    images, four of them classified correctly, with the notebook's batch
    size of 50 the loop runs [5 // 50 = 0] times, [all_correct] stays empty
    and the reported mean is nan, while the mean of the five correctness
    indicators is 4/5. *)
Theorem validation_accuracy_five_images :
  Evaluator.validation_accuracy five_predictions five_images Evaluator.batch_size
    = Evaluator.NaN
  ∧ Evaluator.np_mean (Evaluator.is_correct five_predictions <$> five_images)
    = Evaluator.Accuracy (4 # 5)%Q.
Proof. split; reflexivity. Qed.

Section ThresholdFacts.

Import Evaluator.

(** [(p > 0.5) == y] holds in two cases: the probability is strictly above
    one half and the label is 1, or it is at most one half and the label
    is 0. *)
Lemma correct_one_cases (p y : Q) :
  correct_one p y = true
  ↔ ((1 # 2 < p)%Q ∧ (y == 1)%Q) ∨ ((p <= 1 # 2)%Q ∧ (y == 0)%Q).
Proof.
  unfold correct_one, above_half.
  destruct (Qlt_le_dec (1 # 2) p) as [Hlt|Hle]; rewrite Qeq_bool_iff; split.
  - intros H. left. split; [done|by symmetry].
  - intros [[_ H]|[Hle _]]; [by symmetry|].
    exfalso. apply (Qlt_not_le _ _ Hlt Hle).
  - intros H. right. split; [done|by symmetry].
  - intros [[Hlt _]|[_ H]]; [|by symmetry].
    exfalso. apply (Qlt_not_le _ _ Hlt Hle).
Qed.

Lemma Qeq_bool_comm (x y : Q) : Qeq_bool x y = Qeq_bool y x.
Proof.
  destruct (Qeq_bool x y) eqn:Hxy, (Qeq_bool y x) eqn:Hyx; try done.
  - apply Qeq_bool_iff in Hxy. symmetry in Hxy. apply Qeq_bool_iff in Hxy. congruence.
  - apply Qeq_bool_iff in Hyx. symmetry in Hyx. apply Qeq_bool_iff in Hyx. congruence.
Qed.

(** At exactly one half the comparison is false, and correctness is the
    test of the label against 0. *)
Lemma correct_one_half (p y : Q) :
  (p == 1 # 2)%Q → correct_one p y = Qeq_bool y 0.
Proof.
  intros Hp. unfold correct_one, above_half.
  destruct (Qlt_le_dec (1 # 2) p) as [Hlt|Hle].
  - exfalso. rewrite Hp in Hlt. by apply Qlt_irrefl in Hlt.
  - apply Qeq_bool_comm.
Qed.

End ThresholdFacts.

(** C10: the threshold is strict.  Correctness of one example is
    [(p > 0.5) == y]: the example is counted correct when its probability
    is strictly above one half and its label is 1, or when the probability
    is at most one half and the label is 0.  [correct] holds one such
    indicator per example of the batch, so an example predicted at exactly
    0.5 is classified negative and is counted correct exactly when its
    label is 0; and a validation directory (of whole batches) whose
    predictions are all exactly 0.5 is scored by the loop as the mean of
    the tests [label == 0]. *)
Theorem threshold_is_strict {Image : Type} (predict : Image → Q)
    (dir : list (Evaluator.sample Image)) (B : nat) :
  (∀ p y : Q,
      Evaluator.correct_one p y = true
      ↔ ((1 # 2 < p)%Q ∧ (y == 1)%Q) ∨ ((p <= 1 # 2)%Q ∧ (y == 0)%Q))
  ∧ (∀ batch, length (Evaluator.correct predict batch) = length batch)
  ∧ (∀ batch i s,
      batch !! i = Some s →
      Evaluator.correct predict batch !! i
      = Some (Evaluator.correct_one (predict (Evaluator.image s)) (Evaluator.label s)))
  ∧ (∀ batch i s,
      batch !! i = Some s →
      (predict (Evaluator.image s) == 1 # 2)%Q →
      ∃ c, Evaluator.correct predict batch !! i = Some c
           ∧ (c = true ↔ (Evaluator.label s == 0)%Q))
  ∧ (B ≠ 0 →
     length dir `mod` B = 0 →
     (∀ s, s ∈ dir → (predict (Evaluator.image s) == 1 # 2)%Q) →
     Evaluator.validation_accuracy predict dir B
     = Evaluator.np_mean ((λ s, Qeq_bool (Evaluator.label s) 0) <$> dir)).
Proof.
  split; [apply correct_one_cases|].
  split; [intros batch; by rewrite correct_is_correct, length_fmap|].
  assert (Hentry : ∀ batch i s,
             batch !! i = Some s →
             Evaluator.correct predict batch !! i
             = Some (Evaluator.correct_one (predict (Evaluator.image s))
                       (Evaluator.label s))).
  { intros batch i s Hs. rewrite correct_is_correct, list_lookup_fmap, Hs. done. }
  split; [exact Hentry|]. split.
  - intros batch i s Hs Hp. eexists. split; [by apply Hentry|].
    rewrite (correct_one_half _ _ Hp). apply Qeq_bool_iff.
  - intros HB Hdiv Hhalf. rewrite validation_accuracy_divisible by done.
    f_equal. apply list_fmap_ext. intros i s Hs.
    apply correct_one_half, Hhalf. by eapply list_elem_of_lookup_2.
Qed.

(** Three images predicted at exactly 0.5, with the labels 0, 1 and 0, in
    batches of three: the two images of label 0 are counted correct. *)
Example threshold_at_one_half :
  Evaluator.correct (λ _ : nat, (1 # 2)%Q)
    [Evaluator.Sample 0 0%Q; Evaluator.Sample 1 1%Q; Evaluator.Sample 2 0%Q]
  = [true; false; true]
  ∧ Evaluator.validation_accuracy (λ _ : nat, (1 # 2)%Q)
      [Evaluator.Sample 0 0%Q; Evaluator.Sample 1 1%Q; Evaluator.Sample 2 0%Q] 3
    = Evaluator.np_mean [true; false; true].
Proof. split; reflexivity. Qed.

(** ** [preprocess_function] *)

(** C9: a single image (3 dimensions, of shape [(h, w, c)]) is given a
    batch axis in front before the normalization is applied: the array
    handed to [preprocess_input] has the shape [(1, h, w, c)] and the
    elements of the image, unchanged and in the same order.  So
    [preprocess_function x] is [preprocess_function] of [x[np.newaxis]].
    A batch (4 dimensions) is passed on as it is; either way the
    normalization receives a 4-dimensional array, whatever the
    normalization is. *)
Theorem preprocess_function_adds_batch_axis
    (preprocess_input : Preprocessing.ndarray → Preprocessing.ndarray)
    (x : Preprocessing.ndarray) :
  Preprocessing.ndim x = 3 →
  Preprocessing.preprocess_function preprocess_input x
    = Preprocessing.preprocess_function preprocess_input (Preprocessing.newaxis x)
  ∧ Preprocessing.preprocess_function preprocess_input x
    = preprocess_input (Preprocessing.x_at_return x)
  ∧ Preprocessing.shape (Preprocessing.x_at_return x) = 1 :: Preprocessing.shape x
  ∧ Preprocessing.data (Preprocessing.x_at_return x) = Preprocessing.data x
  ∧ (∃ h w c, Preprocessing.shape x = [h; w; c]
              ∧ Preprocessing.x_at_return x
                = Preprocessing.NdArray [1; h; w; c] (Preprocessing.data x))
  ∧ Preprocessing.ndim (Preprocessing.x_at_return x) = 4
  ∧ (∀ batch, Preprocessing.ndim batch = 4 →
       Preprocessing.x_at_return batch = batch
       ∧ Preprocessing.preprocess_function preprocess_input batch
         = preprocess_input batch)
  ∧ (∀ y, Preprocessing.ndim y = 3 ∨ Preprocessing.ndim y = 4 →
       Preprocessing.ndim (Preprocessing.x_at_return y) = 4
       ∧ Preprocessing.data (Preprocessing.x_at_return y) = Preprocessing.data y).
Proof.
  intros H3.
  assert (Hx : Preprocessing.x_at_return x = Preprocessing.newaxis x).
  { unfold Preprocessing.x_at_return. by rewrite decide_True. }
  assert (H4 : ∀ batch, Preprocessing.ndim batch = 4 →
                 Preprocessing.x_at_return batch = batch).
  { intros batch Hb. unfold Preprocessing.x_at_return.
    rewrite decide_False; [done|]. rewrite Hb. discriminate. }
  assert (Hn : Preprocessing.ndim (Preprocessing.newaxis x) = 4).
  { unfold Preprocessing.ndim in *. simpl. by rewrite H3. }
  unfold Preprocessing.preprocess_function.
  rewrite (H4 _ Hn), Hx.
  split; [done|]. split; [done|]. split; [done|]. split; [done|]. split.
  { unfold Preprocessing.ndim in H3.
    destruct x as [[|h [|w [|c [|? ?]]]] d]; simplify_eq/=.
    by exists h, w, c. }
  split; [done|]. split.
  { intros batch Hb. by rewrite (H4 _ Hb). }
  intros y [Hy|Hy].
  - unfold Preprocessing.x_at_return. rewrite decide_True by done.
    unfold Preprocessing.ndim in *. simpl. by rewrite Hy.
  - by rewrite (H4 _ Hy).
Qed.

Lemma preprocess_function_adds_batch_axis_witness :
  Preprocessing.ndim tiny_image = 3
  ∧ Preprocessing.shape (Preprocessing.x_at_return tiny_image) = [1; 2; 2; 3]
  ∧ Preprocessing.data (Preprocessing.x_at_return tiny_image)
    = Preprocessing.data tiny_image
  ∧ Preprocessing.preprocess_function subtract_100 tiny_image
    = Preprocessing.preprocess_function subtract_100 (Preprocessing.newaxis tiny_image).
Proof.
  split; [reflexivity|].
  destruct (preprocess_function_adds_batch_axis subtract_100 tiny_image eq_refl)
    as (Hsame & _ & Hshape & Hdata & _).
  split; [exact Hshape|]. split; [exact Hdata|]. exact Hsame.
Defined.

(** ** The freezing loop *)

Section FreezingFacts.

Import FineTuner.

Context (optimizer : list (list Q) → list (list Q)).


Lemma assign_length (updates : list (nat * list Q)) (layers : list layer) :
  length (foldr assign layers updates) = length layers.
Proof.
  induction updates as [|u updates IH]; [done|].
  simpl. unfold assign at 1. by rewrite length_alter.
Qed.



Lemma train_on_batch_length (layers : list layer) :
  length (train_on_batch optimizer layers) = length layers.
Proof. apply assign_length. Qed.





End FreezingFacts.




(** ** The feature cache *)

Section CacheFacts.

Import Preprocessing FeatureCache.

Context {Image : Type} (feature_dim : nat) (embedding : Image → list Q).

Lemma forallb_has_width (batches : list (list Image * list Q)) :
  forallb (has_width feature_dim)
    ((λ Xy, predict feature_dim embedding Xy.1) <$> batches) = true.
Proof.
  induction batches as [|b bs IH]; [done|].
  rewrite fmap_cons. cbn [forallb]. rewrite IH, andb_true_r.
  unfold has_width, predict. cbn [shape]. by rewrite bool_decide_eq_true_2.
Qed.

Lemma forallb_is_1d (batches : list (list Image * list Q)) :
  forallb is_1d
    ((λ Xy : list Image * list Q, NdArray [length Xy.2] Xy.2) <$> batches) = true.
Proof.
  induction batches as [|b bs IH]; [done|].
  rewrite fmap_cons. cbn [forallb]. by rewrite IH.
Qed.

Lemma rows_predict (batches : list (list Image * list Q)) :
  sum_list (rows <$> ((λ Xy, predict feature_dim embedding Xy.1) <$> batches))
    = length (concat (fst <$> batches)).
Proof.
  induction batches as [|b bs IH]; [done|].
  rewrite !fmap_cons. cbn [sum_list_with concat]. by rewrite length_app, <- IH.
Qed.

Lemma data_predict (batches : list (list Image * list Q)) :
  concat (data <$> ((λ Xy, predict feature_dim embedding Xy.1) <$> batches))
    = concat (embedding <$> concat (fst <$> batches)).
Proof.
  induction batches as [|b bs IH]; [done|].
  rewrite !fmap_cons. cbn [concat]. by rewrite fmap_app, concat_app, <- IH.
Qed.

Lemma data_labels (batches : list (list Image * list Q)) :
  concat (data <$> ((λ Xy : list Image * list Q, NdArray [length Xy.2] Xy.2) <$> batches))
    = concat (snd <$> batches).
Proof.
  induction batches as [|b bs IH]; [done|].
  rewrite !fmap_cons. cbn [concat]. by rewrite IH.
Qed.

Lemma length_concat_labels (batches : list (list Image * list Q)) :
  Forall (λ Xy, length Xy.1 = length Xy.2) batches →
  length (concat (snd <$> batches)) = length (concat (fst <$> batches)).
Proof.
  induction 1 as [|b bs Hb _ IH]; [done|].
  rewrite !fmap_cons. cbn [concat]. rewrite !length_app. congruence.
Qed.

Lemma length_concat_embedding (imgs : list Image) :
  (∀ img, length (embedding img) = feature_dim) →
  length (concat (embedding <$> imgs)) = length imgs * feature_dim.
Proof.
  intros Hw. induction imgs as [|i imgs IH]; [done|].
  rewrite fmap_cons. cbn [concat]. rewrite length_app, IH, Hw. done.
Qed.

End CacheFacts.

Section CachedArrays.
Import Preprocessing FeatureCache.
Context {Image : Type} (feature_dim : nat) (embedding : Image → list Q).

Lemma vstack_predict (batches : list (list Image * list Q)) :
  batches ≠ [] →
  vstack ((λ Xy, predict feature_dim embedding Xy.1) <$> batches)
    = Some (NdArray [length (concat (fst <$> batches)); feature_dim]
                    (concat (embedding <$> concat (fst <$> batches)))).
Proof.
  intros Hne. unfold vstack.
  pose proof (forallb_has_width feature_dim embedding batches) as Hfw.
  pose proof (rows_predict feature_dim embedding batches) as Hrows.
  pose proof (data_predict feature_dim embedding batches) as Hdata.
  destruct batches as [|b bs]; [done|].
  rewrite fmap_cons in *. cbn [predict shape].
  change (NdArray [length b.1; feature_dim] (concat (embedding <$> b.1)))
    with (predict feature_dim embedding b.1).
  by rewrite Hfw, Hrows, Hdata.
Qed.

Lemma concatenate_labels (batches : list (list Image * list Q)) :
  batches ≠ [] →
  concatenate ((λ Xy : list Image * list Q, NdArray [length Xy.2] Xy.2) <$> batches)
    = Some (NdArray [length (concat (snd <$> batches))] (concat (snd <$> batches))).
Proof.
  intros Hne. unfold concatenate.
  rewrite forallb_is_1d, data_labels.
  by destruct batches.
Qed.
End CachedArrays.


(** C8: the extraction persists the embeddings as [features_train.npy] and
    [labels_train.npy]; the loading cell, which reads nothing but these two
    files, gets back two aligned arrays of shape [(N, feature_dim)] and
    [(N,)], where [feature_dim] is the width of the backbone's output and
    [N] the number of images processed (2048 and 5000 in the notebook):
    row [i] is the embedding of image [i] and entry [i] its label. *)
Theorem cached_features_shape {Image : Type} (feature_dim : nat)
    (embedding : Image → list Q) (batches : list (list Image * list Q))
    (files : gmap string Preprocessing.ndarray) (N : nat) :
  (∀ img, length (embedding img) = feature_dim) →
  batches ≠ [] →
  Forall (λ Xy, length Xy.1 = length Xy.2) batches →
  N = length (concat (fst <$> batches)) →
  ∃ files' labels_train features_train,
    FeatureCache.extract_features feature_dim embedding batches files = Some files'
    ∧ FeatureCache.load_precomputed files' = Some (labels_train, features_train)
    ∧ Preprocessing.shape features_train = [N; feature_dim]
    ∧ Preprocessing.shape labels_train = [N]
    ∧ FeatureCache.samples_and_features features_train = Some (N, feature_dim)
    ∧ Preprocessing.data features_train
      = concat (embedding <$> concat (fst <$> batches))
    ∧ Preprocessing.data labels_train = concat (snd <$> batches)
    ∧ length (Preprocessing.data features_train) = N * feature_dim
    ∧ length (Preprocessing.data labels_train) = N.
Proof.
  intros Hw Hne Hlen ->.
  unfold FeatureCache.extract_features.
  rewrite concatenate_labels, vstack_predict by done.
  cbn [mbind option_bind].
  rewrite (length_concat_labels _ Hlen).
  eexists _, _, _. split; [reflexivity|].
  unfold FeatureCache.load_precomputed, FeatureCache.np_load, FeatureCache.np_save.
  assert (Hnames : "features_train.npy" ≠ "labels_train.npy") by discriminate.
  rewrite (lookup_insert_ne _ _ _ _ Hnames), !lookup_insert_eq.
  cbn [mbind option_bind]. split; [reflexivity|].
  cbn [Preprocessing.shape Preprocessing.data].
  rewrite (length_concat_labels _ Hlen).
  rewrite (length_concat_embedding feature_dim embedding _ Hw).
  repeat split; done.
Qed.

Lemma cached_features_shape_witness :
  ∃ files' labels_train features_train,
    FeatureCache.extract_features 2 toy_embedding toy_batches ∅ = Some files'
    ∧ FeatureCache.load_precomputed files' = Some (labels_train, features_train)
    ∧ Preprocessing.shape features_train = [4; 2]
    ∧ Preprocessing.shape labels_train = [4].
Proof.
  destruct (cached_features_shape 2 toy_embedding toy_batches ∅ 4)
    as (files' & l & f & H1 & H2 & H3 & H4 & _).
  - intros img. reflexivity.
  - discriminate.
  - repeat constructor.
  - reflexivity.
  - exists files', l, f. auto.
Defined.

(** ** Path names *)

Section PathFacts.

Import OS.

Lemma split_nonempty (sep : ascii) (s : string) : split sep s ≠ [].
Proof.
  destruct s as [|a s]; simpl; [done|].
  destruct (Ascii.eqb a sep); [done|]. by destruct (split sep s).
Qed.

Lemma split_app_sep (sep : ascii) (a b : string) :
  split sep (a +:+ String sep b) = split sep a ++ split sep b.
Proof.
  induction a as [|c a IH]; simpl.
  - by rewrite Ascii.eqb_refl.
  - destruct (Ascii.eqb c sep); [by rewrite IH|].
    rewrite IH. pose proof (split_nonempty sep a).
    by destruct (split sep a).
Qed.

Lemma components_app_sep (a b : string) :
  components (a +:+ "/" +:+ b) = components a ++ components b.
Proof.
  unfold components. change (a +:+ "/" +:+ b) with (a +:+ String "/" b).
  by rewrite split_app_sep, filter_app.
Qed.

Lemma string_app_cons (x : ascii) (a b : string) :
  String x a +:+ b = String x (a +:+ b).
Proof. reflexivity. Qed.

Lemma string_app_assoc (a b c : string) : (a +:+ b) +:+ c = a +:+ (b +:+ c).
Proof. induction a as [|x a IH]; [done|]. by rewrite !string_app_cons, IH. Qed.

Lemma string_app_nil_r (a : string) : a +:+ "" = a.
Proof. induction a as [|x a IH]; [done|]. by rewrite string_app_cons, IH. Qed.

Lemma endswith_spec (suffix s : string) :
  endswith suffix s = true ↔ ∃ front, s = front +:+ suffix.
Proof.
  induction s as [|c s IH]; cbn [endswith].
  - destruct (String.eqb_spec "" suffix) as [<-|Hne].
    + split; [by exists ""|done].
    + split; [done|]. intros [front Hf].
      destruct front; destruct suffix; done.
  - destruct (String.eqb_spec (String c s) suffix) as [<-|Hne].
    + split; [by exists ""|done].
    + rewrite IH. split.
      * intros [front ->]. by exists (String c front).
      * intros [front Hf]. destruct front as [|c' front]; [done|].
        rewrite string_app_cons in Hf. injection Hf as -> ->. by exists front.
Qed.


Lemma startswith_slash_cons (a : ascii) (s : string) :
  startswith "/" (String a s) = bool_decide (a = "/"%char).
Proof.
  cbn [startswith]. rewrite andb_true_r.
  destruct (Ascii.eqb_spec "/" a) as [<-|Hne].
  - by rewrite bool_decide_eq_true_2.
  - rewrite bool_decide_eq_false_2; [done|]. by intros ->.
Qed.

Lemma startswith_slash_app (a b : string) :
  a ≠ "" → startswith "/" (a +:+ b) = startswith "/" a.
Proof.
  destruct a as [|x a]; [done|]. intros _.
  by rewrite string_app_cons, !startswith_slash_cons.
Qed.

Lemma join_absolute (a b : string) : startswith "/" b = true → join a b = b.
Proof. unfold join. by intros ->. Qed.

Lemma components_join (a b : string) :
  startswith "/" b = false →
  components (join a b) = components a ++ components b.
Proof.
  intros Hb. unfold join. rewrite Hb.
  destruct (bool_decide_reflect (a = "")) as [->|Hne]; [done|].
  cbn [orb]. destruct (endswith "/" a) eqn:He.
  - apply endswith_spec in He as [front ->].
    rewrite string_app_assoc, components_app_sep.
    change (front +:+ "/") with (front +:+ "/" +:+ "").
    rewrite components_app_sep.
    change (components "") with (@nil string). by rewrite app_nil_r.
  - apply components_app_sep.
Qed.

Lemma startswith_join (a b : string) :
  a ≠ "" → startswith "/" b = false →
  startswith "/" (join a b) = startswith "/" a.
Proof.
  intros Ha Hb. unfold join. rewrite Hb.
  rewrite bool_decide_eq_false_2 by done. cbn [orb].
  destruct (endswith "/" a); by rewrite startswith_slash_app.
Qed.

Lemma join_empty_l (b : string) : join "" b = b.
Proof. unfold join. by destruct (startswith "/" b). Qed.

Lemma join_nonempty (a b : string) : a ≠ "" → join a b ≠ "".
Proof.
  unfold join. intros Ha.
  destruct (startswith "/" b) eqn:Hb.
  - intros ->. done.
  - rewrite bool_decide_eq_false_2 by done. cbn [orb].
    destruct (endswith "/" a); destruct a; done.
Qed.

(** A valid name is a single component and is not absolute. *)
Lemma valid_name_spec (b : string) :
  valid_name b = true →
  b ≠ "" ∧ b ≠ "." ∧ b ≠ ".." ∧ split "/" b = [b].
Proof.
  unfold valid_name. rewrite !andb_true_iff, !negb_true_iff.
  intros [[[H1 H2] H3] H4].
  apply String.eqb_neq in H1, H2, H3. by apply bool_decide_eq_true in H4.
Qed.

Lemma valid_name_components (b : string) :
  valid_name b = true → components b = [b].
Proof.
  intros (H1 & H2 & _ & H4)%valid_name_spec. unfold components. rewrite H4.
  rewrite filter_cons_True by done. done.
Qed.

Lemma valid_name_relative (b : string) :
  valid_name b = true → startswith "/" b = false.
Proof.
  intros (H1 & _ & _ & H4)%valid_name_spec.
  destruct b as [|a b]; [done|]. rewrite startswith_slash_cons.
  apply bool_decide_eq_false. intros ->. discriminate H4.
Qed.

End PathFacts.

(** ** The directory tree *)

Section TreeFacts.

Import OS.

Lemma diverge_app (l p q : path) : diverge (l ++ p) (l ++ q) = diverge p q.
Proof. induction l as [|a l IH]; [done|]. simpl. by rewrite decide_True. Qed.

Lemma diverge_sym (p q : path) : diverge p q = diverge q p.
Proof.
  revert q. induction p as [|a p IH]; intros [|b q]; simpl; try done.
  destruct (decide (a = b)) as [->|Hne].
  - by rewrite decide_True.
  - by rewrite decide_False.
Qed.

Lemma diverge_app_r (p q r : path) : diverge p q = true → diverge p (q ++ r) = true.
Proof.
  revert q. induction p as [|a p IH]; intros [|b q]; simpl; try done.
  destruct (decide (a = b)); auto.
Qed.

Lemma path_trichotomy (p q : path) :
  diverge p q = true ∨ p `prefix_of` q ∨ q `prefix_of` p.
Proof.
  revert q. induction p as [|a p IH]; intros q.
  - right. left. apply prefix_nil.
  - destruct q as [|b q].
    + right. right. apply prefix_nil.
    + simpl. destruct (decide (a = b)) as [->|Hne]; [|by left].
      destruct (IH q) as [H|[H|H]]; [by left|right; left|right; right];
        by apply prefix_cons.
Qed.

Lemma diverge_not_prefix (p q : path) : diverge p q = true → ¬ p `prefix_of` q.
Proof.
  revert q. induction p as [|a p IH]; intros [|b q]; simpl; try done.
  destruct (decide (a = b)) as [->|Hne].
  - intros Hd Hp. apply (IH q); [done|]. by apply prefix_cons_inv_2 in Hp.
  - intros _ Hp. by apply prefix_cons_inv_1 in Hp.
Qed.

Lemma node_at_app (p q : path) (t : node) :
  node_at (p ++ q) t = node_at p t ≫= node_at q.
Proof.
  revert t. induction p as [|c p IH]; intros t; [done|].
  simpl. destruct t as [|es]; [done|].
  destruct (es !! c) as [m|]; simpl; [apply IH|done].
Qed.

Lemma node_at_prefix (p q : path) (t : node) :
  p `prefix_of` q → is_Some (node_at q t) → ∃ nd, node_at p t = Some nd.
Proof.
  intros [r ->]. rewrite node_at_app. intros [x Hx].
  destruct (node_at p t) as [nd|]; [by exists nd|done].
Qed.

Lemma node_at_strict_prefix_dir (p : path) (c : string) (r : path) (t : node) :
  is_Some (node_at (p ++ c :: r) t) → is_dir (node_at p t) = true.
Proof.
  rewrite node_at_app. intros [x Hx].
  destruct (node_at p t) as [[|es]|]; done.
Qed.

Lemma update_entry_single (name : string) f (es : gmap string node) :
  update_entry [name] f (Dir es)
  = f (es !! name) ≫= λ o, Some (Dir (partial_alter (λ _, o) name es)).
Proof. reflexivity. Qed.

Lemma update_entry_cons (c c' : string) (q : path) f (es : gmap string node) :
  update_entry (c :: c' :: q) f (Dir es)
  = es !! c ≫= λ m, update_entry (c' :: q) f m ≫= λ m', Some (Dir (<[c := m']> es)).
Proof. reflexivity. Qed.

(** The entry that was updated holds what [f] made of it. *)
Lemma update_entry_at (q : path) f (t t' : node) :
  update_entry q f t = Some t' →
  f (node_at q t) = Some (node_at q t').
Proof.
  revert t t'. induction q as [|c q IH]; intros [|es] t'; try done.
  destruct q as [|c' q].
  - rewrite update_entry_single.
    destruct (f (es !! c)) as [o|] eqn:Hf; [|done].
    intros [= <-]. cbn [node_at]. rewrite lookup_partial_alter_eq.
    destruct (es !! c), o; simpl; by rewrite ?Hf.
  - rewrite update_entry_cons.
    destruct (es !! c) as [m|] eqn:Hm; [|done]. cbn [mbind option_bind].
    destruct (update_entry (c' :: q) f m) as [m'|] eqn:Hu; [|done].
    intros [= <-]. cbn [node_at]. rewrite Hm, lookup_insert_eq.
    cbn [mbind option_bind]. by apply IH.
Qed.

(** What an update at [q] leaves of a directory [T] that is not at or
    below the updated entry: the directory is still there; entries off the
    way to [q] are untouched, the entry [q] itself (if it is one of [T])
    holds what [f] made of it, and an entry on the way to [q] is still an
    entry. *)
Lemma dir_after_update (T q : path) f (t t' : node) (es : gmap string node) :
  update_entry q f t = Some t' →
  node_at T t = Some (Dir es) →
  ¬ q `prefix_of` T →
  ∃ es', node_at T t' = Some (Dir es')
    ∧ (∀ k, ¬ (T ++ [k]) `prefix_of` q → es' !! k = es !! k)
    ∧ (∀ k, q = T ++ [k] → f (es !! k) = Some (es' !! k))
    ∧ (∀ k, (T ++ [k]) `prefix_of` q → q ≠ T ++ [k] →
         is_Some (es !! k) ∧ is_Some (es' !! k)).
Proof.
  revert q t t'. induction T as [|a T IH]; intros q t t' Hu Ht Hnp.
  - simpl in Ht. injection Ht as ->.
    destruct q as [|c [|c' q]].
    + destruct Hnp. apply prefix_nil.
    + rewrite update_entry_single in Hu.
      destruct (f (es !! c)) as [o|] eqn:Hf; [|done]. injection Hu as <-.
      eexists. split; [done|]. split; [|split].
      * intros k Hk. apply lookup_partial_alter_ne. intros ->. by destruct Hk.
      * intros k [= ->]. by rewrite lookup_partial_alter_eq.
      * intros k Hk Hne. apply prefix_cons_inv_1 in Hk as ->. by destruct Hne.
    + rewrite update_entry_cons in Hu.
      destruct (es !! c) as [m|] eqn:Hm; [|done]. cbn [mbind option_bind] in Hu.
      destruct (update_entry (c' :: q) f m) as [m'|] eqn:Hu'; [|done].
      injection Hu as <-.
      eexists. split; [done|]. split; [|split].
      * intros k Hk. apply lookup_insert_ne. intros ->.
        destruct Hk. apply prefix_cons, prefix_nil.
      * intros k [=].
      * intros k Hk _. apply prefix_cons_inv_1 in Hk as ->.
        rewrite Hm, lookup_insert_eq. eauto.
  - destruct t as [|es0]; [done|]. cbn [node_at] in Ht.
    destruct (es0 !! a) as [n1|] eqn:Ha; [|done]. cbn [mbind option_bind] in Ht.
    destruct q as [|c [|c' q]]; [done| |].
    + rewrite update_entry_single in Hu.
      destruct (f (es0 !! c)) as [o|] eqn:Hf; [|done]. injection Hu as <-.
      assert (c ≠ a) as Hca.
      { intros ->. destruct Hnp. apply prefix_cons, prefix_nil. }
      exists es. split; [|split; [|split]].
      * cbn [node_at]. rewrite lookup_partial_alter_ne by done.
        by rewrite Ha.
      * done.
      * intros k [= _ Hk]. by destruct T.
      * intros k Hk. apply prefix_cons_inv_2 in Hk.
        apply prefix_nil_inv in Hk. by destruct T.
    + rewrite update_entry_cons in Hu.
      destruct (es0 !! c) as [m|] eqn:Hm; [|done]. cbn [mbind option_bind] in Hu.
      destruct (update_entry (c' :: q) f m) as [m'|] eqn:Hu'; [|done].
      injection Hu as <-.
      destruct (decide (c = a)) as [->|Hca].
      * assert (m = n1) as -> by congruence.
        destruct (IH (c' :: q) n1 m' Hu' Ht) as (es' & Hes' & Hoff & Hat & Hon).
        { intros Hp. destruct Hnp. by apply prefix_cons. }
        exists es'. split; [|split; [|split]].
        -- cbn [node_at]. by rewrite lookup_insert_eq.
        -- intros k Hk. apply Hoff. intros Hp. destruct Hk.
           by apply (prefix_cons a) in Hp.
        -- intros k [= Hk]. by apply Hat.
        -- intros k Hk Hne. apply prefix_cons_inv_2 in Hk.
           apply Hon; [done|]. intros Hq. destruct Hne. simpl. by f_equal.
      * exists es. split; [|split; [|split]].
        -- cbn [node_at]. rewrite lookup_insert_ne by done. by rewrite Ha.
        -- done.
        -- intros k [= -> _]. done.
        -- intros k Hk. by apply prefix_cons_inv_1 in Hk.
Qed.

(** An update succeeds when the directory above the entry exists and [f]
    accepts the present entry. *)
Lemma update_entry_success (d : path) (name : string) f (t : node)
    (es : gmap string node) (o : option node) :
  node_at d t = Some (Dir es) →
  f (es !! name) = Some o →
  ∃ t', update_entry (d ++ [name]) f t = Some t'.
Proof.
  revert t. induction d as [|c d IH]; intros t Ht Hf.
  - simpl in Ht. injection Ht as ->. cbn [app]. rewrite update_entry_single, Hf.
    by eexists.
  - destruct t as [|es0]; [done|]. cbn [node_at] in Ht.
    destruct (es0 !! c) as [m|] eqn:Hc; [|done]. cbn [mbind option_bind] in Ht.
    destruct (IH m Ht Hf) as [m' Hm'].
    assert (∃ c' q, d ++ [name] = c' :: q) as (c' & q & Heq).
    { destruct d; simpl; eauto. }
    cbn [app]. rewrite Heq, update_entry_cons, Hc. cbn [mbind option_bind].
    rewrite <- Heq, Hm'. by eexists.
Qed.

End TreeFacts.

(** ** Dataset Organizer *)

Section OrganizerFacts.

Import OS Organizer.

Context (cwd : path) (readdir_order : list string → list string).
Context (unzip : string → option (list (string * string))).

Lemma filter_none {A} (P : A → Prop) `{∀ x, Decision (P x)} (l : list A) :
  Forall (λ x, ¬ P x) l → filter P l = [].
Proof.
  induction 1 as [|x l Hx _ IH]; [done|].
  by rewrite filter_cons_False.
Qed.

(** On an organized data directory every cell takes its guard and does
    nothing: no statement raises, the file system is unchanged and nothing
    is logged (no print, no mkdir, no move). *)
Lemma organize_organized (data_folder : string) (w : world) :
  organized cwd readdir_order data_folder w →
  organize cwd readdir_order unzip data_folder w = Ok () w.
Proof.
  intros (Htrain & (listing & Hlist & Hjpg) & Hval).
  unfold organize, extract_train, rearrange_folders, build_validation.
  unfold mbind, M_bind. rewrite Htrain. cbn [negb]. unfold mret, M_ret.
  rewrite Hlist.
  rewrite (filter_none _ listing).
  2:{ eapply Forall_impl; [exact Hjpg|]. intros x Hx. by rewrite Hx. }
  cbn [fmap list_fmap length]. rewrite decide_True by done.
  rewrite Hval. done.
Qed.

End OrganizerFacts.

Section TreeUpdates.

Import OS.

Lemma update_entry_diverge (R q : path) f (t t' : node) :
  diverge R q = true →
  update_entry q f t = Some t' →
  node_at R t' = node_at R t.
Proof.
  revert q t t'. induction R as [|a R IH]; intros q t t' Hd Hu; [done|].
  destruct q as [|c [|c' q]]; [done| |]; destruct t as [|es]; try done.
  - rewrite update_entry_single in Hu.
    destruct (f (es !! c)) as [o|]; [|done]. injection Hu as <-.
    simpl in Hd. destruct (decide (a = c)) as [->|Hne]; [by destruct R|].
    cbn [node_at]. by rewrite lookup_partial_alter_ne.
  - rewrite update_entry_cons in Hu.
    destruct (es !! c) as [m|] eqn:Hm; [|done]. cbn [mbind option_bind] in Hu.
    destruct (update_entry (c' :: q) f m) as [m'|] eqn:Hu'; [|done].
    injection Hu as <-. cbn [node_at].
    simpl in Hd. destruct (decide (a = c)) as [->|Hne].
    + rewrite lookup_insert_eq, Hm. cbn [mbind option_bind]. by eapply IH.
    + by rewrite lookup_insert_ne.
Qed.

Lemma update_entry_dir (d : path) (name : string) f (t : node)
    (es : gmap string node) (o : option node) :
  node_at d t = Some (Dir es) →
  f (es !! name) = Some o →
  ∃ t', update_entry (d ++ [name]) f t = Some t'
        ∧ node_at d t' = Some (Dir (partial_alter (λ _, o) name es)).
Proof.
  intros Hd Hf.
  destruct (update_entry_success d name f t es o Hd Hf) as [t' Ht'].
  exists t'. split; [done|].
  destruct (dir_after_update d _ f t t' es Ht' Hd) as (es' & Hes' & Hoff & Hat & _).
  { apply prefix_snoc_not. }
  rewrite Hes'. do 2 f_equal. apply map_eq. intros k.
  destruct (decide (k = name)) as [->|Hne].
  - rewrite lookup_partial_alter_eq.
    specialize (Hat name eq_refl). rewrite Hf in Hat. by injection Hat as <-.
  - rewrite lookup_partial_alter_ne by done. apply Hoff.
    intros Hp. apply prefix_app_inv, prefix_cons_inv_1 in Hp. done.
Qed.

Lemma mkdir_at_dir (d : path) (name : string) (t : node) (es : gmap string node) :
  node_at d t = Some (Dir es) →
  es !! name = None →
  ∃ t', mkdir_at (d ++ [name]) t = Some t'
        ∧ node_at d t' = Some (Dir (<[name := Dir ∅]> es)).
Proof.
  intros Hd Hn. unfold mkdir_at.
  apply (update_entry_dir d name _ t es (Some (Dir ∅)) Hd). by rewrite Hn.
Qed.

Lemma detach_dir (d : path) (name : string) (t : node) (es : gmap string node) :
  node_at d t = Some (Dir es) →
  is_Some (es !! name) →
  ∃ t', detach (d ++ [name]) t = Some t'
        ∧ node_at d t' = Some (Dir (delete name es)).
Proof.
  intros Hd [nd Hn]. unfold detach.
  apply (update_entry_dir d name _ t es None Hd). by rewrite Hn.
Qed.

Lemma attach_dir (d : path) (name : string) (nd t : node) (es : gmap string node) :
  node_at d t = Some (Dir es) →
  ∃ t', attach (d ++ [name]) nd t = Some t'
        ∧ node_at d t' = Some (Dir (<[name := nd]> es)).
Proof.
  intros Hd. unfold attach.
  by apply (update_entry_dir d name _ t es (Some nd) Hd).
Qed.

Lemma diverge_snoc (P Q : path) (x y : string) :
  diverge P Q = true → diverge (P ++ [x]) (Q ++ [y]) = true.
Proof.
  intros H. apply diverge_app_r. rewrite diverge_sym.
  apply diverge_app_r. by rewrite diverge_sym.
Qed.

(** Moving the entry [x] of directory [P] into directory [Q], which has
    no entry of that name. *)
Lemma rename_at_between (P Q : path) (x : string) (t : node)
    (eP eQ : gmap string node) (nd : node) :
  node_at P t = Some (Dir eP) → eP !! x = Some nd →
  node_at Q t = Some (Dir eQ) → eQ !! x = None →
  diverge P Q = true →
  ∃ t', rename_at (P ++ [x]) (Q ++ [x]) t = Some t'
        ∧ node_at P t' = Some (Dir (delete x eP))
        ∧ node_at Q t' = Some (Dir (<[x := nd]> eQ))
        ∧ ∀ R, diverge R (P ++ [x]) = true → diverge R (Q ++ [x]) = true →
               node_at R t' = node_at R t.
Proof.
  intros HP Hx HQ HQx Hd. unfold rename_at.
  pose proof (diverge_snoc P Q x x Hd) as Hd'.
  assert (node_at (P ++ [x]) t = Some nd) as ->.
  { rewrite node_at_app, HP. cbn [mbind option_bind node_at]. by rewrite Hx. }
  assert (node_at (Q ++ [x]) t = None) as ->.
  { rewrite node_at_app, HQ. cbn [mbind option_bind node_at]. by rewrite HQx. }
  cbn [mbind option_bind].
  rewrite decide_False by (by destruct P).
  rewrite decide_False.
  2:{ intros Heq. apply (diverge_not_prefix _ _ Hd'). by rewrite Heq. }
  rewrite decide_False by (by apply diverge_not_prefix).
  cbn [replaceable negb].
  destruct (detach_dir P x t eP HP) as (t1 & Ht1 & HP1); [by eexists|].
  rewrite Ht1. cbn [mbind option_bind].
  assert (node_at Q t1 = Some (Dir eQ)) as HQ1.
  { rewrite <- HQ. eapply update_entry_diverge; [|exact Ht1].
    apply diverge_app_r. by rewrite diverge_sym. }
  destruct (attach_dir Q x nd t1 eQ HQ1) as (t' & Ht' & HQ').
  exists t'. split; [done|]. split; [|split; [done|]].
  - rewrite <- HP1. eapply update_entry_diverge; [|exact Ht'].
    by apply diverge_app_r.
  - intros R HR1 HR2.
    rewrite (update_entry_diverge R _ _ t1 t' HR2 Ht').
    by rewrite (update_entry_diverge R _ _ t t1 HR1 Ht1).
Qed.

End TreeUpdates.

Section ProcessFacts.

Import OS.

Context (cwd : path) (readdir_order : list string → list string).

Lemma resolve_nonempty (s : string) (p : path) : resolve cwd s = Some p → s ≠ "".
Proof. unfold resolve. intros H ->. done. Qed.

Lemma join_base_resolve (a : string) (p : path) :
  resolve cwd a = Some p → join_base cwd a = Some p.
Proof.
  intros H. unfold join_base.
  rewrite bool_decide_eq_false_2; [done|]. by eapply resolve_nonempty.
Qed.

(** A valid name joined to a directory name denotes the entry of that
    name in the directory. *)
Lemma resolve_join_valid (a b : string) :
  valid_name b = true →
  resolve cwd (join a b) = (λ base, base ++ [b]) <$> join_base cwd a.
Proof.
  intros Hb.
  pose proof (valid_name_components b Hb) as Hc.
  pose proof (valid_name_relative b Hb) as Hr.
  destruct (valid_name_spec b Hb) as (Hb1 & _ & Hb3 & _).
  unfold join_base. destruct (bool_decide_reflect (a = "")) as [->|Ha].
  - rewrite join_empty_l. unfold resolve.
    rewrite bool_decide_eq_false_2 by done. rewrite Hc.
    rewrite bool_decide_eq_false_2 by (intros Heq%list_elem_of_singleton; congruence).
    by rewrite Hr.
  - unfold resolve.
    rewrite (bool_decide_eq_false_2 (join a b = "")) by (by apply join_nonempty).
    rewrite (bool_decide_eq_false_2 (a = "")) by done.
    rewrite components_join, startswith_join, Hc by done.
    destruct (bool_decide_reflect (".." ∈ components a)) as [Hdd|Hdd].
    + rewrite bool_decide_eq_true_2; [done|]. apply elem_of_app. by left.
    + rewrite bool_decide_eq_false_2.
      * simpl. by rewrite app_assoc.
      * intros [?|Heq%list_elem_of_singleton]%elem_of_app; [done|congruence].
Qed.

Lemma basename_join_valid (a b : string) :
  valid_name b = true → basename (join a b) = b.
Proof.
  intros Hb.
  destruct (valid_name_spec b Hb) as (Hb1 & _ & _ & Hb4).
  assert (Hsep : ∀ front, basename (front +:+ "/" +:+ b) = b).
  { intros front. unfold basename.
    change (front +:+ "/" +:+ b) with (front +:+ String "/" b).
    rewrite split_app_sep, filter_app, Hb4.
    rewrite (filter_cons_True _ b []) by done.
    change (filter _ []) with (@nil string). by rewrite last_snoc. }
  unfold join. rewrite (valid_name_relative b Hb).
  destruct (bool_decide_reflect (a = "")) as [->|Hne].
  - cbn [orb]. change ("" +:+ b) with b. unfold basename. rewrite Hb4.
    by rewrite filter_cons_True by done.
  - cbn [orb]. destruct (endswith "/" a) eqn:He; [|apply Hsep].
    apply endswith_spec in He as [front ->].
    rewrite string_app_assoc. apply Hsep.
Qed.

Section Listing.

Hypothesis readdir_order_perm : ∀ l, readdir_order l ≡ₚ l.

Lemma elem_of_names (es : gmap string node) (x : string) :
  x ∈ names readdir_order es ↔ valid_name x = true ∧ is_Some (es !! x).
Proof.
  unfold names. rewrite readdir_order_perm, list_elem_of_filter.
  rewrite list_elem_of_fmap. split.
  - intros [Hv ([k nd] & -> & Hin%elem_of_map_to_list)]. eauto.
  - intros [Hv [nd Hnd]]. split; [done|]. exists (x, nd). split; [done|].
    by apply elem_of_map_to_list.
Qed.

Lemma NoDup_names (es : gmap string node) : NoDup (names readdir_order es).
Proof.
  unfold names. rewrite readdir_order_perm.
  apply NoDup_filter, NoDup_fst_map_to_list.
Qed.

End Listing.


Lemma mkdir_entry (s : string) (d : path) (name : string) (w : world)
    (es : gmap string node) :
  resolve cwd s = Some (d ++ [name]) →
  node_at d (root w) = Some (Dir es) →
  es !! name = None →
  ∃ t', mkdir cwd s w = Ok () (World t' (log w ++ [Mkdir (d ++ [name])]))
        ∧ node_at d t' = Some (Dir (<[name := Dir ∅]> es))
        ∧ ∀ R, diverge R (d ++ [name]) = true → node_at R t' = node_at R (root w).
Proof.
  intros Hs Hd Hn. unfold mkdir, syscall. rewrite Hs.
  destruct (mkdir_at_dir d name (root w) es Hd Hn) as (t' & Ht' & Hd').
  rewrite Ht'. exists t'. split; [done|]. split; [done|].
  intros R HR. by eapply update_entry_diverge.
Qed.

(** [shutil.move] of the entry [x] of directory [P] into another
    directory [Q] that has no entry of that name. *)
Lemma move_between (src dst : string) (P Q : path) (x : string) (w : world)
    (eP eQ : gmap string node) (nd : node) :
  resolve cwd src = Some (P ++ [x]) →
  basename src = x →
  valid_name x = true →
  resolve cwd dst = Some Q →
  node_at P (root w) = Some (Dir eP) → eP !! x = Some nd →
  node_at Q (root w) = Some (Dir eQ) → eQ !! x = None →
  diverge P Q = true →
  ∃ t', move cwd src dst w
        = Ok () (World t' (log w ++ [Rename (P ++ [x]) (Q ++ [x])]))
        ∧ node_at P t' = Some (Dir (delete x eP))
        ∧ node_at Q t' = Some (Dir (<[x := nd]> eQ))
        ∧ ∀ R, diverge R (P ++ [x]) = true → diverge R (Q ++ [x]) = true →
               node_at R t' = node_at R (root w).
Proof.
  intros Hsrc Hbase Hx Hdst HP HPx HQ HQx Hd.
  destruct (rename_at_between P Q x (root w) eP eQ nd HP HPx HQ HQx Hd)
    as (t' & Ht' & HP' & HQ' & Hframe).
  exists t'. split; [|done].
  assert (resolve cwd (join dst x) = Some (Q ++ [x])) as Hreal.
  { rewrite resolve_join_valid by done. by rewrite (join_base_resolve _ _ Hdst). }
  unfold move, isdir, samefile, exists_, rename, syscall, raise, mbind, M_bind, stat.
  rewrite Hdst, Hsrc, Hbase, Hreal. cbn [mbind option_bind]. rewrite HQ.
  cbn [is_dir].
  rewrite bool_decide_eq_false_2.
  2:{ intros (_ & _ & [= Heq]). apply (diverge_not_prefix _ _ Hd).
      rewrite <- Heq. by apply prefix_app_r. }
  rewrite bool_decide_eq_false_2.
  2:{ rewrite node_at_app, HQ. cbn [mbind option_bind node_at]. rewrite HQx.
      by intros [? ?]. }
  by rewrite Ht'.
Qed.

(** Moving the entries [L] of [P], one after the other, into [Q]. *)
Lemma move_all_between (srcdir dstdir : string) (P Q : path) (L : list string) :
  resolve cwd srcdir = Some P →
  resolve cwd dstdir = Some Q →
  diverge P Q = true →
  NoDup L →
  ∀ (w : world) (eP eQ : gmap string node),
  node_at P (root w) = Some (Dir eP) →
  node_at Q (root w) = Some (Dir eQ) →
  (∀ x, x ∈ L → valid_name x = true ∧ is_Some (eP !! x) ∧ eQ !! x = None) →
  ∃ t' eP' eQ',
    for_each L (λ image_filename, move cwd (join srcdir image_filename) dstdir) w
      = Ok () (World t' (log w ++ ((λ x, Rename (P ++ [x]) (Q ++ [x])) <$> L)))
    ∧ node_at P t' = Some (Dir eP')
    ∧ node_at Q t' = Some (Dir eQ')
    ∧ (∀ k, eP' !! k = if decide (k ∈ L) then None else eP !! k)
    ∧ (∀ k, eQ' !! k = if decide (k ∈ L) then eP !! k else eQ !! k)
    ∧ ∀ R, diverge R P = true → diverge R Q = true →
           node_at R t' = node_at R (root w).
Proof.
  intros Hsrc Hdst Hd. induction L as [|x L IH]; intros Hnd w eP eQ HP HQ HL.
  - exists (root w), eP, eQ. cbn [for_each fmap list_fmap]. rewrite app_nil_r.
    destruct w. repeat split; try done.
  - apply NoDup_cons in Hnd as [Hx HndL].
    destruct (HL x) as (Hvx & [nd Hnd] & HQx); [by left|].
    destruct (move_between (join srcdir x) dstdir P Q x w eP eQ nd)
      as (t1 & Hmove & HP1 & HQ1 & Hframe1); try done.
    { rewrite resolve_join_valid by done. by rewrite (join_base_resolve _ _ Hsrc). }
    { by apply basename_join_valid. }
    set (w1 := World t1 (log w ++ [Rename (P ++ [x]) (Q ++ [x])])) in *.
    destruct (IH HndL w1 (delete x eP) (<[x := nd]> eQ) HP1 HQ1)
      as (t' & eP' & eQ' & Hrest & HP' & HQ' & HeP' & HeQ' & Hframe).
    { intros y Hy. destruct (HL y) as (Hvy & Hy1 & Hy2); [by right|].
      assert (y ≠ x) by (by intros ->).
      rewrite lookup_delete_ne, lookup_insert_ne by done. done. }
    exists t', eP', eQ'. split; [|split; [done|split; [done|split; [|split]]]].
    + cbn [for_each]. unfold mbind at 1, M_bind at 1. rewrite Hmove.
      rewrite Hrest. subst w1. cbn [log]. by rewrite <- app_assoc.
    + intros k. rewrite HeP'. destruct (decide (k = x)) as [->|Hkx].
      * rewrite decide_False by done. rewrite lookup_delete_eq.
        by rewrite decide_True by (by left).
      * rewrite lookup_delete_ne by done.
        destruct (decide (k ∈ L)).
        -- by rewrite decide_True by (by right).
        -- rewrite decide_False; [done|]. by intros [?|?]%elem_of_cons.
    + intros k. rewrite HeQ'. destruct (decide (k = x)) as [->|Hkx].
      * rewrite decide_False by done. rewrite lookup_insert_eq.
        by rewrite decide_True by (by left).
      * rewrite lookup_insert_ne, lookup_delete_ne by done.
        destruct (decide (k ∈ L)).
        -- by rewrite decide_True by (by right).
        -- rewrite decide_False; [done|]. by intros [?|?]%elem_of_cons.
    + intros R HR1 HR2. rewrite (Hframe R HR1 HR2). subst w1. cbn [root].
      apply Hframe1; by apply diverge_app_r.
Qed.

End ProcessFacts.

Section ValidationSplit.

Import OS Organizer.

Context (cwd : path) (readdir_order : list string → list string).
Hypothesis readdir_order_perm : ∀ l, readdir_order l ≡ₚ l.

Lemma stat_dir (s : string) (p : path) (t : node) :
  resolve cwd s = Some p → stat cwd s t = node_at p t.
Proof. intros H. unfold stat. by rewrite H. Qed.

Lemma last_n_drop {A} (n : nat) (l : list A) :
  0 < n → last_n n l = drop (length l - n) l.
Proof. intros Hn. unfold last_n. rewrite decide_False; [done|lia]. Qed.

Lemma last_n_split {A} (n : nat) (l : list A) :
  ∃ front, l = front ++ last_n n l.
Proof.
  unfold last_n. destruct (decide (n = 0)).
  - by exists [].
  - exists (take (length l - n) l). by rewrite take_drop.
Qed.

Lemma elem_of_last_n {A} (n : nat) (l : list A) (x : A) :
  x ∈ last_n n l → x ∈ l.
Proof.
  destruct (last_n_split n l) as [front Hl]. intros Hx.
  rewrite Hl. apply elem_of_app. by right.
Qed.

Lemma NoDup_last_n {A} (n : nat) (l : list A) : NoDup l → NoDup (last_n n l).
Proof.
  destruct (last_n_split n l) as [front Hl]. rewrite Hl at 1.
  by intros (_ & _ & ?)%NoDup_app.
Qed.

Lemma sorted_perm (l : list string) : sorted l ≡ₚ l.
Proof. apply merge_sort_Permutation. Qed.

(** One class of the validation cell: the last [n_validation] names of the
    class, in sorted order, leave its train directory for its new
    validation directory; what is off these two directories stays. *)
Lemma populate_class (train_folder validation_folder class_name : string)
    (T V : path) (w : world) (es : gmap string node) :
  resolve cwd train_folder = Some T →
  resolve cwd validation_folder = Some V →
  diverge T V = true →
  valid_name class_name = true →
  is_dir (node_at V (root w)) = true →
  node_at (V ++ [class_name]) (root w) = None →
  node_at (T ++ [class_name]) (root w) = Some (Dir es) →
  let L := last_n n_validation (sorted (names readdir_order es)) in
  ∃ w' es' eV,
    populate cwd readdir_order train_folder validation_folder class_name w = Ok () w'
    ∧ node_at (T ++ [class_name]) (root w') = Some (Dir es')
    ∧ node_at (V ++ [class_name]) (root w') = Some (Dir eV)
    ∧ (∀ k, es' !! k = if decide (k ∈ L) then None else es !! k)
    ∧ (∀ k, eV !! k = if decide (k ∈ L) then es !! k else None)
    ∧ ∀ R, diverge R (T ++ [class_name]) = true →
           diverge R (V ++ [class_name]) = true →
           node_at R (root w') = node_at R (root w).
Proof.
  intros HT HV Hd Hc HVdir HVc HTc L.
  assert (resolve cwd (join train_folder class_name) = Some (T ++ [class_name])) as HTs.
  { rewrite resolve_join_valid by done. by rewrite (join_base_resolve _ _ _ HT). }
  assert (resolve cwd (join validation_folder class_name) = Some (V ++ [class_name])) as HVs.
  { rewrite resolve_join_valid by done. by rewrite (join_base_resolve _ _ _ HV). }
  assert (diverge (T ++ [class_name]) (V ++ [class_name]) = true) as Hd'
    by (by apply diverge_snoc).
  destruct (node_at V (root w)) as [[|eV0]|] eqn:HV0; try done.
  assert (eV0 !! class_name = None) as HeV0.
  { rewrite node_at_app, HV0 in HVc. cbn [mbind option_bind node_at] in HVc.
    by destruct (eV0 !! class_name). }
  unfold populate. unfold mbind at 1, M_bind at 1. unfold print at 1.
  set (w0 := World _ _).
  destruct (mkdir_entry cwd _ V class_name w0 eV0 HVs HV0 HeV0)
    as (t1 & Hmk & HV1 & Hframe1).
  unfold mbind at 1, M_bind at 1. rewrite Hmk.
  set (w1 := World t1 _).
  assert (node_at (T ++ [class_name]) (root w1) = Some (Dir es)) as HT1.
  { subst w1. cbn [root]. rewrite Hframe1; [done|]. by rewrite diverge_sym in Hd' |- *. }
  assert (node_at (V ++ [class_name]) (root w1) = Some (Dir ∅)) as HVc1.
  { subst w1. cbn [root]. rewrite node_at_app, HV1.
    cbn [mbind option_bind node_at]. by rewrite lookup_insert_eq. }
  unfold mbind at 1, M_bind at 1. unfold listdir at 1.
  rewrite (stat_dir _ _ _ HTs), HT1.
  fold L.
  destruct (move_all_between cwd (join train_folder class_name)
              (join validation_folder class_name) _ _ L HTs HVs Hd')
    with (w := w1) (eP := es) (eQ := (∅ : gmap string node))
    as (t2 & es' & eV & Hmoves & HT2 & HV2 & Hes' & HeV & Hframe2); try done.
  { subst L. apply NoDup_last_n. rewrite sorted_perm.
    apply (NoDup_names _ readdir_order_perm). }
  { intros x Hx. apply elem_of_last_n in Hx. rewrite sorted_perm in Hx.
    apply (elem_of_names _ readdir_order_perm) in Hx as [? ?]. done. }
  unfold mbind at 1, M_bind at 1. rewrite Hmoves.
  unfold mbind at 1, M_bind at 1. unfold listdir at 1.
  rewrite (stat_dir _ _ _ HVs). cbn [root]. rewrite HV2.
  unfold print. eexists _, es', eV. split; [done|]. cbn [root].
  split; [done|]. split; [done|]. split; [done|]. split.
  - intros k. rewrite HeV. by destruct (decide (k ∈ L)).
  - intros R HR1 HR2. rewrite (Hframe2 R HR1 HR2). subst w1. cbn [root].
    by rewrite Hframe1.
Qed.


(** From the entries after the moves to the listings: the validation
    directory lists exactly the last [n_validation] sorted names (all of
    them when there are fewer), the train directory the others, and every
    name left in train sorts before every name in validation. *)
Lemma class_listings_any (es es' eV : gmap string node) :
  let before := names readdir_order es in
  let L := last_n n_validation (sorted before) in
  (∀ k, es' !! k = if decide (k ∈ L) then None else es !! k) →
  (∀ k, eV !! k = if decide (k ∈ L) then es !! k else None) →
  names readdir_order eV ≡ₚ L
  ∧ length (names readdir_order eV) = n_validation `min` length before
  ∧ (∀ x, x ∈ names readdir_order eV → x ∉ names readdir_order es')
  ∧ names readdir_order es' ++ names readdir_order eV ≡ₚ before
  ∧ (∀ x y, x ∈ names readdir_order es' → y ∈ names readdir_order eV →
       String.le x y ∧ x ≠ y).
Proof.
  intros before L Hes' HeV.
  pose proof (elem_of_names _ readdir_order_perm) as Hin.
  pose proof (NoDup_names _ readdir_order_perm) as Hnd.
  assert (∀ x, x ∈ L → x ∈ before) as HL.
  { intros x Hx%elem_of_last_n. by rewrite sorted_perm in Hx. }
  assert (NoDup L) as HndL.
  { apply NoDup_last_n. rewrite sorted_perm. apply Hnd. }
  assert (∀ x, x ∈ names readdir_order eV ↔ x ∈ L) as HinV.
  { intros x. rewrite Hin, HeV. destruct (decide (x ∈ L)) as [Hx|Hx].
    - split; [done|]. intros _. by apply Hin, HL.
    - split; [by intros [_ [? ?]]|done]. }
  assert (∀ x, x ∈ names readdir_order es' ↔ x ∈ before ∧ x ∉ L) as HinT.
  { intros x. unfold before. rewrite !Hin, Hes'.
    destruct (decide (x ∈ L)) as [Hx|Hx].
    - split; [by intros [_ [? ?]]|by intros [_ ?]].
    - split; [done|by intros [? _]]. }
  assert (names readdir_order eV ≡ₚ L) as HpermV.
  { apply NoDup_Permutation; [apply Hnd|done|done]. }
  split; [done|]. split; [|split; [|split]].
  - rewrite HpermV. subst L. rewrite last_n_drop by (unfold n_validation; lia).
    rewrite length_drop.
    assert (length (sorted before) = length before) as -> by (by rewrite sorted_perm).
    lia.
  - intros x Hx%HinV [_ Hx']%HinT. done.
  - apply NoDup_Permutation; [|apply Hnd|].
    + apply NoDup_app. split; [apply Hnd|]. split; [|apply Hnd].
      intros x [_ Hx]%HinT Hx'%HinV. done.
    + intros x. rewrite elem_of_app, HinT, HinV.
      destruct (decide (x ∈ L)) as [Hx|Hx].
      * split; [intros _; by apply HL|by right].
      * split; [by intros [[? _]|?]|by left].
  - intros x y [Hx HxL]%HinT Hy%HinV.
    split; [|by intros ->].
    destruct (last_n_split n_validation (sorted before)) as [front Hsplit].
    fold L in Hsplit.
    assert (StronglySorted String.le (front ++ L)) as Hsorted.
    { rewrite <- Hsplit. apply StronglySorted_merge_sort; apply _. }
    eapply StronglySorted_app_1_elem_of; [exact Hsorted| |done].
    rewrite <- (sorted_perm before), Hsplit in Hx.
    apply elem_of_app in Hx as [?|?]; done.
Qed.


Lemma class_listings (es es' eV : gmap string node) :
  let before := names readdir_order es in
  let L := last_n n_validation (sorted before) in
  n_validation ≤ length before →
  (∀ k, es' !! k = if decide (k ∈ L) then None else es !! k) →
  (∀ k, eV !! k = if decide (k ∈ L) then es !! k else None) →
  names readdir_order eV ≡ₚ L
  ∧ length (names readdir_order eV) = n_validation
  ∧ (∀ x, x ∈ names readdir_order eV → x ∉ names readdir_order es')
  ∧ names readdir_order es' ++ names readdir_order eV ≡ₚ before
  ∧ (∀ x y, x ∈ names readdir_order es' → y ∈ names readdir_order eV →
       String.le x y ∧ x ≠ y).
Proof.
  intros before L Hlen Hes' HeV.
  destruct (class_listings_any es es' eV Hes' HeV) as (H1 & H2 & H3 & H4 & H5).
  split; [done|]. split; [|done].
  rewrite H2. fold before. lia.
Qed.

Ltac solve_diverge :=
  rewrite <- ?app_assoc; cbn [app]; rewrite ?diverge_app; reflexivity.

(** The validation cell on a data directory without a validation
    directory, whose train directory has the two class directories; what
    is off the two class directories and the validation directory stays. *)
Lemma build_validation_fresh_frame (data_folder : string) (D : path) (w : world)
    (es_dog es_cat : gmap string node) :
  join_base cwd data_folder = Some D →
  node_at (D ++ ["validation"]) (root w) = None →
  node_at (D ++ ["train"; "dog"]) (root w) = Some (Dir es_dog) →
  node_at (D ++ ["train"; "cat"]) (root w) = Some (Dir es_cat) →
  ∃ w', build_validation cwd readdir_order data_folder w = Ok () w'
    ∧ (∀ c es, (c, es) ∈ [("dog", es_dog); ("cat", es_cat)] →
        let L := last_n n_validation (sorted (names readdir_order es)) in
        ∃ es' eV,
          node_at (D ++ ["train"; c]) (root w') = Some (Dir es')
          ∧ node_at (D ++ ["validation"; c]) (root w') = Some (Dir eV)
          ∧ (∀ k, es' !! k = if decide (k ∈ L) then None else es !! k)
          ∧ (∀ k, eV !! k = if decide (k ∈ L) then es !! k else None))
    ∧ ∀ R, diverge R (D ++ ["validation"]) = true →
           diverge R (D ++ ["train"; "dog"]) = true →
           diverge R (D ++ ["train"; "cat"]) = true →
           node_at R (root w') = node_at R (root w).
Proof.
  intros HD HV Hdog Hcat.
  assert (resolve cwd (join data_folder "train") = Some (D ++ ["train"])) as HTs.
  { rewrite resolve_join_valid by done. by rewrite HD. }
  assert (resolve cwd (join data_folder "validation") = Some (D ++ ["validation"])) as HVs.
  { rewrite resolve_join_valid by done. by rewrite HD. }
  assert (is_dir (node_at D (root w)) = true) as HDdir.
  { apply (node_at_strict_prefix_dir D "train" ["dog"]). by rewrite Hdog. }
  destruct (node_at D (root w)) as [[|eD]|] eqn:HD0; try done.
  assert (eD !! "validation" = None) as HeD.
  { rewrite node_at_app, HD0 in HV. cbn [mbind option_bind node_at] in HV.
    by destruct (eD !! "validation"). }
  unfold build_validation. unfold mbind at 1, M_bind at 1. unfold exists_ at 1.
  rewrite (stat_dir _ _ _ HVs), HV.
  rewrite bool_decide_eq_false_2 by (by intros [? ?]). cbn [negb].
  destruct (mkdir_entry cwd _ D "validation" w eD HVs HD0 HeD)
    as (t1 & Hmk & HD1 & Hframe1).
  unfold mbind at 1, M_bind at 1. rewrite Hmk. set (w1 := World t1 _).
  assert (node_at (D ++ ["validation"]) (root w1) = Some (Dir ∅)) as HV1.
  { subst w1. cbn [root]. rewrite node_at_app, HD1.
    cbn [mbind option_bind node_at]. by rewrite lookup_insert_eq. }
  cbn [for_each].
  (* dog *)
  destruct (populate_class (join data_folder "train") (join data_folder "validation")
              "dog" _ _ w1 es_dog HTs HVs)
    as (w2 & es_dog' & eV_dog & Hpop2 & HT2 & HV2 & Hes2 & HeV2 & Hframe2); try done.
  { solve_diverge. }
  { by rewrite HV1. }
  { rewrite node_at_app, HV1. done. }
  { subst w1. cbn [root]. rewrite Hframe1 by solve_diverge.
    by rewrite <- app_assoc. }
  unfold mbind at 1, M_bind at 1. rewrite Hpop2.
  (* cat *)
  destruct (populate_class (join data_folder "train") (join data_folder "validation")
              "cat" _ _ w2 es_cat HTs HVs)
    as (w3 & es_cat' & eV_cat & Hpop3 & HT3 & HV3 & Hes3 & HeV3 & Hframe3); try done.
  { solve_diverge. }
  { apply (node_at_strict_prefix_dir _ "dog" []). by rewrite HV2. }
  { rewrite Hframe2 by solve_diverge. rewrite node_at_app, HV1. done. }
  { rewrite Hframe2 by solve_diverge. subst w1. cbn [root].
    rewrite Hframe1 by solve_diverge. by rewrite <- app_assoc. }
  unfold mbind at 1, M_bind at 1. rewrite Hpop3. unfold mret, M_ret.
  exists w3. split; [done|]. split.
  - intros c es Hin.
    apply elem_of_cons in Hin as [[= -> ->]|Hin].
    2: apply elem_of_cons in Hin as [[= -> ->]|Hin%elem_of_nil]; [|done].
    + exists es_dog', eV_dog. rewrite !(cons_middle "train"), !(cons_middle "validation").
      rewrite !app_assoc.
      rewrite !Hframe3 by solve_diverge. done.
    + exists es_cat', eV_cat. rewrite !(cons_middle "train"), !(cons_middle "validation").
      rewrite !app_assoc. done.
  - intros R HRV HRdog HRcat.
    rewrite !(cons_middle "train") in HRdog, HRcat. rewrite !app_assoc in HRdog, HRcat.
    rewrite Hframe3 by (done || by apply diverge_app_r).
    rewrite Hframe2 by (done || by apply diverge_app_r).
    subst w1. cbn [root]. by apply Hframe1.
Qed.

Lemma build_validation_fresh (data_folder : string) (D : path) (w : world)
    (es_dog es_cat : gmap string node) :
  join_base cwd data_folder = Some D →
  node_at (D ++ ["validation"]) (root w) = None →
  node_at (D ++ ["train"; "dog"]) (root w) = Some (Dir es_dog) →
  node_at (D ++ ["train"; "cat"]) (root w) = Some (Dir es_cat) →
  ∃ w', build_validation cwd readdir_order data_folder w = Ok () w'
    ∧ ∀ c es, (c, es) ∈ [("dog", es_dog); ("cat", es_cat)] →
        let L := last_n n_validation (sorted (names readdir_order es)) in
        ∃ es' eV,
          node_at (D ++ ["train"; c]) (root w') = Some (Dir es')
          ∧ node_at (D ++ ["validation"; c]) (root w') = Some (Dir eV)
          ∧ (∀ k, es' !! k = if decide (k ∈ L) then None else es !! k)
          ∧ (∀ k, eV !! k = if decide (k ∈ L) then es !! k else None).
Proof.
  intros HD HV Hdog Hcat.
  destruct (build_validation_fresh_frame data_folder D w es_dog es_cat HD HV Hdog Hcat)
    as (w' & Hrun & Hclasses & _).
  by exists w'.
Qed.


End ValidationSplit.

Section ListingFacts.

Import OS Organizer.

Context (cwd : path) (readdir_order : list string → list string).
Context (unzip : string → option (list (string * string))).

Lemma listdir_inv (s : string) (w w' : world) (l : list string) :
  listdir cwd readdir_order s w = Ok l w' →
  w' = w ∧ ∃ p es, resolve cwd s = Some p
                   ∧ node_at p (root w) = Some (Dir es)
                   ∧ l = names readdir_order es.
Proof.
  unfold listdir, stat. destruct (resolve cwd s) as [p|]; [|done].
  cbn [mbind option_bind]. destruct (node_at p (root w)) as [[|es]|] eqn:Hp; try done.
  intros [= <- <-]. split; [done|]. by exists p, es.
Qed.

Lemma listdir_dir (s : string) (p : path) (w : world) (es : gmap string node) :
  resolve cwd s = Some p →
  node_at p (root w) = Some (Dir es) →
  listdir cwd readdir_order s w = Ok (names readdir_order es) w.
Proof. intros Hs Hp. unfold listdir, stat. rewrite Hs. cbn. by rewrite Hp. Qed.

Lemma resolve_join2 (a b c : string) :
  valid_name b = true → valid_name c = true →
  resolve cwd (join (join a b) c) = (λ base, base ++ [b; c]) <$> join_base cwd a.
Proof.
  intros Hb Hc. rewrite resolve_join_valid by done.
  unfold join_base at 1.
  rewrite bool_decide_eq_false_2.
  2:{ destruct (bool_decide_reflect (a = "")) as [->|Ha].
      - rewrite join_empty_l. by intros ->.
      - by apply join_nonempty. }
  rewrite resolve_join_valid by done.
  destruct (join_base cwd a) as [D|]; [|done]. simpl. by rewrite <- app_assoc.
Qed.

Lemma resolve_join3 (a b c d : string) :
  valid_name b = true → valid_name c = true → valid_name d = true →
  resolve cwd (join (join (join a b) c) d)
    = (λ base, base ++ [b; c; d]) <$> join_base cwd a.
Proof.
  intros Hb Hc Hd. rewrite resolve_join_valid by done.
  unfold join_base at 1.
  rewrite bool_decide_eq_false_2.
  2:{ apply join_nonempty. destruct (bool_decide_reflect (a = "")) as [->|Ha].
      - rewrite join_empty_l. by intros ->.
      - by apply join_nonempty. }
  rewrite resolve_join2 by done.
  destruct (join_base cwd a) as [D|]; [|done]. simpl. by rewrite <- app_assoc.
Qed.


Lemma node_at_snoc (p : path) (x : string) (t : node) (es : gmap string node) :
  node_at p t = Some (Dir es) → node_at (p ++ [x]) t = es !! x.
Proof.
  intros Hp. rewrite node_at_app, Hp. cbn [mbind option_bind node_at].
  by destruct (es !! x).
Qed.

End ListingFacts.

Section KeysAfterUpdates.

Import OS.

Lemma prefix_of_dir (T q : path) (t : node) (es : gmap string node) :
  node_at T t = Some (Dir es) → q `prefix_of` T → is_dir (node_at q t) = true.
Proof.
  intros HT [r ->]. destruct r as [|c r].
  - rewrite app_nil_r in HT. by rewrite HT.
  - apply (node_at_strict_prefix_dir q c r). by rewrite HT.
Qed.

(** The names of a directory [T] after [mkdir]: the old ones, and the new
    directory if it is an entry of [T]. *)
Lemma mkdir_at_dir_keys (T q : path) (t t' : node) (es : gmap string node) :
  mkdir_at q t = Some t' →
  node_at T t = Some (Dir es) →
  ∃ es', node_at T t' = Some (Dir es')
    ∧ ∀ k, is_Some (es' !! k) → is_Some (es !! k) ∨ q = T ++ [k].
Proof.
  intros Hmk HT. unfold mkdir_at in Hmk.
  assert (node_at q t = None) as Hq.
  { apply update_entry_at in Hmk. by destruct (node_at q t). }
  destruct (dir_after_update T q _ t t' es Hmk HT) as (es' & HT' & Hoff & Hat & Hon).
  { intros Hp. apply (prefix_of_dir _ _ _ _ HT) in Hp. by rewrite Hq in Hp. }
  exists es'. split; [done|]. intros k Hk.
  destruct (decide (T ++ [k] `prefix_of` q)) as [Hp|Hp].
  - destruct (decide (q = T ++ [k])) as [|Hne]; [by right|].
    left. by apply (Hon k Hp Hne).
  - left. by rewrite <- (Hoff k Hp).
Qed.

(** The names of a directory [T] after a rename of [p], which is not [T]
    or above it, to [q], which is not an existing directory: the entry
    [p] is gone from [T], and the only new name is [q] if it is an entry
    of [T]. *)
Lemma rename_at_dir_keys (T p q : path) (t t' : node) (es : gmap string node) :
  rename_at p q t = Some t' →
  node_at T t = Some (Dir es) →
  ¬ p `prefix_of` T →
  p ≠ q →
  is_dir (node_at q t) = false →
  ∃ es', node_at T t' = Some (Dir es')
    ∧ ∀ k, is_Some (es' !! k) →
           (is_Some (es !! k) ∧ p ≠ T ++ [k]) ∨ q = T ++ [k].
Proof.
  intros Hren HT Hp Hpq Hq. unfold rename_at in Hren.
  destruct (node_at p t) as [nd|] eqn:Hnd; [|done]. cbn [mbind option_bind] in Hren.
  destruct (decide (p = [])); [done|].
  rewrite decide_False in Hren by done.
  destruct (decide (p `prefix_of` q)); [done|].
  destruct (negb (replaceable nd (node_at q t))); [done|].
  destruct (detach p t) as [t1|] eqn:Hdet; [|done]. cbn [mbind option_bind] in Hren.
  unfold detach in Hdet.
  destruct (dir_after_update T p _ t t1 es Hdet HT Hp) as (es1 & HT1 & Hoff1 & Hat1 & Hon1).
  assert (∀ k, is_Some (es1 !! k) → is_Some (es !! k) ∧ p ≠ T ++ [k]) as Hes1.
  { intros k Hk. destruct (decide (T ++ [k] `prefix_of` p)) as [Hpk|Hpk].
    - destruct (decide (p = T ++ [k])) as [Heq|Hne].
      + specialize (Hat1 k Heq). destruct (es !! k); [|done].
        injection Hat1 as Hat1. rewrite <- Hat1 in Hk. by destruct Hk.
      + split; [|done]. by apply (Hon1 k Hpk Hne).
    - split; [by rewrite <- (Hoff1 k Hpk)|].
      intros ->. by destruct Hpk. }
  unfold attach in Hren.
  destruct (dir_after_update T q _ t1 t' es1 Hren HT1) as (es' & HT' & Hoff & Hat & Hon).
  { intros Hpre. apply (prefix_of_dir _ _ _ _ HT) in Hpre. by rewrite Hq in Hpre. }
  exists es'. split; [done|]. intros k Hk.
  destruct (decide (T ++ [k] `prefix_of` q)) as [Hqk|Hqk].
  - destruct (decide (q = T ++ [k])) as [|Hne]; [by right|].
    left. by apply Hes1, (Hon k Hqk Hne).
  - left. apply Hes1. by rewrite <- (Hoff k Hqk).
Qed.

End KeysAfterUpdates.

Section DotFacts.

Import OS.

(** The text before the first dot has no dot. *)
Lemma split_once_head (sep : ascii) (s head tail : string) :
  split_once sep s = Some (head, tail) →
  split_once sep head = None ∧ s = head +:+ String sep tail.
Proof.
  revert head. induction s as [|a s IH]; intros head; [done|].
  cbn [split_once]. destruct (Ascii.eqb_spec a sep) as [->|Hne].
  - intros [= <- <-]. done.
  - destruct (split_once sep s) as [[h t]|]; [|done].
    intros [= <- <-]. destruct (IH h eq_refl) as [Hh ->].
    cbn [split_once]. rewrite (proj2 (Ascii.eqb_neq a sep)) by done.
    by rewrite Hh.
Qed.

Lemma split_once_app (sep : ascii) (front rest : string) :
  is_Some (split_once sep (front +:+ String sep rest)).
Proof.
  induction front as [|a front IH].
  - change ("" +:+ String sep rest) with (String sep rest).
    cbn [split_once]. rewrite Ascii.eqb_refl. by eexists.
  - rewrite string_app_cons. cbn [split_once].
    destruct (Ascii.eqb a sep); [by eexists|].
    destruct IH as [[h t] ->]. by eexists.
Qed.

Lemma endswith_jpg_has_dot (fn : string) :
  endswith ".jpg" fn = true → is_Some (split_once "." fn).
Proof. intros [front ->]%endswith_spec. apply split_once_app. Qed.

(** The pieces of a text without dots have no dots. *)
Lemma split_dotless (sep : ascii) (s c : string) :
  split_once "." s = None → c ∈ split sep s → split_once "." c = None.
Proof.
  revert c. induction s as [|a s IH]; intros c.
  - intros _ ->%list_elem_of_singleton. done.
  - cbn [split_once split]. destruct (Ascii.eqb a ".") eqn:Ha; [done|].
    destruct (split_once "." s) as [[h t]|] eqn:Hs; [done|]. intros _.
    destruct (Ascii.eqb a sep).
    + intros [->|Hc]%elem_of_cons; [done|]. by apply IH.
    + pose proof (split_nonempty sep s) as Hne.
      destruct (split sep s) as [|piece pieces]; [done|].
      intros [->|Hc]%elem_of_cons.
      * cbn [split_once]. rewrite Ha.
        rewrite (IH piece eq_refl); [done|]. by left.
      * apply IH; [done|]. by right.
Qed.

Lemma components_dotless (s c : string) :
  split_once "." s = None → c ∈ components s → split_once "." c = None.
Proof.
  intros Hs [_ Hc]%list_elem_of_filter. by eapply split_dotless.
Qed.

End DotFacts.

Section Inversions.

Import OS.

Context (cwd : path).

Lemma mkdir_inv (s : string) (w w' : world) :
  mkdir cwd s w = Ok () w' →
  ∃ q, resolve cwd s = Some q ∧ mkdir_at q (root w) = Some (root w').
Proof.
  unfold mkdir, syscall. destruct (resolve cwd s) as [q|]; [|done].
  destruct (mkdir_at q (root w)) as [t|] eqn:Ht; [|done].
  intros [= <-]. by exists q.
Qed.

Lemma rename_inv (a b : string) (w w' : world) :
  rename cwd a b w = Ok () w' →
  ∃ p q, resolve cwd a = Some p ∧ resolve cwd b = Some q
         ∧ rename_at p q (root w) = Some (root w').
Proof.
  unfold rename, syscall.
  destruct (resolve cwd a) as [p|]; [|done].
  destruct (resolve cwd b) as [q|]; [|done].
  destruct (rename_at p q (root w)) as [t|] eqn:Ht; [|done].
  intros [= <-]. by exists p, q.
Qed.

(** What a successful [shutil.move] did: a rename of the source onto the
    target, which is not a directory (or is the source itself), or into the
    target directory under a name that was free. *)
Lemma move_inv (src dst : string) (w w' : world) :
  move cwd src dst w = Ok () w' →
  ∃ p q, resolve cwd src = Some p
    ∧ rename_at p q (root w) = Some (root w')
    ∧ ((resolve cwd dst = Some q
        ∧ (is_dir (stat cwd dst (root w)) = false ∨ p = q))
       ∨ (is_Some (resolve cwd dst)
          ∧ resolve cwd (join dst (basename src)) = Some q
          ∧ stat cwd (join dst (basename src)) (root w) = None)).
Proof.
  unfold move, isdir, samefile, exists_, raise, mbind, M_bind.
  destruct (is_dir (stat cwd dst (root w))) eqn:Hdir.
  - destruct (bool_decide_reflect
      (is_Some (stat cwd src (root w)) ∧ is_Some (stat cwd dst (root w))
       ∧ resolve cwd src = resolve cwd dst)) as [(_ & _ & Hsame)|_].
    + intros (p & q & Hp & Hq & Hren)%rename_inv.
      exists p, q. split; [done|]. split; [done|]. left. split; [done|].
      right. congruence.
    + destruct (bool_decide_reflect
        (is_Some (stat cwd (join dst (basename src)) (root w)))) as [|Hfree]; [done|].
      intros (p & q & Hp & Hq & Hren)%rename_inv.
      exists p, q. split; [done|]. split; [done|]. right.
      split; [|split; [done|]].
      * unfold stat in Hdir. by destruct (resolve cwd dst).
      * destruct (stat cwd (join dst (basename src)) (root w)); [|done].
        by destruct Hfree.
  - intros (p & q & Hp & Hq & Hren)%rename_inv.
    exists p, q. split; [done|]. split; [done|]. left. split; [done|]. by left.
Qed.

(** The last component of [join folder pre], when that is an entry of
    [folder], is a component of [pre]. *)
Lemma resolve_join_last (folder pre : string) (T : path) (k : string) :
  resolve cwd folder = Some T →
  resolve cwd (join folder pre) = Some (T ++ [k]) →
  k ∈ components pre.
Proof.
  intros HT. pose proof (resolve_nonempty _ _ _ HT) as Hne.
  destruct (startswith "/" pre) eqn:Hpre.
  - rewrite join_absolute by done. unfold resolve.
    destruct (bool_decide (pre = "")); [done|].
    destruct (bool_decide (".." ∈ components pre)); [done|].
    rewrite Hpre. intros [= Heq]. rewrite Heq. apply elem_of_app. right. by left.
  - unfold resolve in *.
    rewrite (bool_decide_eq_false_2 (join folder pre = "")) by (by apply join_nonempty).
    rewrite bool_decide_eq_false_2 in HT by done.
    rewrite components_join, startswith_join by done.
    destruct (bool_decide (".." ∈ components folder)); [done|].
    destruct (bool_decide (".." ∈ components folder ++ components pre)); [done|].
    injection HT as <-. rewrite app_assoc. intros [= Heq%app_inv_head].
    rewrite Heq. by left.
Qed.

End Inversions.

Section Idempotence.

Import OS Organizer.

Context (cwd : path) (readdir_order : list string → list string).
Context (unzip : string → option (list (string * string))).
Hypothesis readdir_order_perm : ∀ l, readdir_order l ≡ₚ l.

(** One turn of the loop of [rearrange_folders] that does not raise: the
    image is no longer an entry of [folder], and an entry that was not
    there before has no dot in its name. *)
Lemma rearrange_one_keys (folder fn : string) (T : path) (w w' : world)
    (es : gmap string node) :
  rearrange_one cwd folder (join folder fn) w = Ok () w' →
  resolve cwd folder = Some T →
  node_at T (root w) = Some (Dir es) →
  valid_name fn = true →
  endswith ".jpg" fn = true →
  ∃ es', node_at T (root w') = Some (Dir es')
    ∧ ∀ k, is_Some (es' !! k) →
           (is_Some (es !! k) ∧ k ≠ fn) ∨ split_once "." k = None.
Proof.
  intros Hrun HT Hes Hfn Hjpg.
  assert (resolve cwd (join folder fn) = Some (T ++ [fn])) as Hsrc.
  { rewrite resolve_join_valid by done. by rewrite (join_base_resolve _ _ _ HT). }
  assert (∀ k, split_once "." k = None → k ≠ fn) as Hdot.
  { intros k Hk ->. apply endswith_jpg_has_dot in Hjpg. rewrite Hk in Hjpg.
    by destruct Hjpg. }
  unfold rearrange_one in Hrun.
  destruct (split_once "." (join folder fn)) as [[pre rest]|] eqn:Hsplit; [|done].
  apply split_once_head in Hsplit as [Hpre _].
  assert (∀ Q k, resolve cwd (join folder pre) = Some Q → Q = T ++ [k] →
                 split_once "." k = None) as Hnew.
  { intros Q k HQ ->. eapply components_dotless; [exact Hpre|].
    exact (resolve_join_last cwd folder pre T k HT HQ). }
  unfold mbind, M_bind, exists_ in Hrun.
  (* the optional mkdir *)
  assert (∃ w1 es1, move cwd (join folder fn) (join folder pre) w1 = Ok () w'
            ∧ node_at T (root w1) = Some (Dir es1)
            ∧ ∀ k, is_Some (es1 !! k) →
                   is_Some (es !! k) ∨ split_once "." k = None)
    as (w1 & es1 & Hmove & Hes1 & Hkeys1).
  { destruct (bool_decide (is_Some (stat cwd (join folder pre) (root w)))).
    - exists w, es. cbn [negb] in Hrun. unfold mret, M_ret in Hrun. eauto.
    - cbn [negb] in Hrun.
      destruct (mkdir cwd (join folder pre) w) as [[] w1|] eqn:Hmk; [|done].
      apply mkdir_inv in Hmk as (Q & HQ & Hmk).
      destruct (mkdir_at_dir_keys T Q _ _ es Hmk Hes) as (es1 & Hes1 & Hkeys1).
      exists w1, es1. split; [done|]. split; [done|].
      intros k Hk. destruct (Hkeys1 k Hk) as [?|HQk]; [by left|].
      right. by eapply Hnew. }
  apply move_inv in Hmove as (p & q & Hp & Hren & Hcases).
  rewrite Hsrc in Hp. injection Hp as <-.
  assert (is_Some (node_at (T ++ [fn]) (root w1))) as Hsrc1.
  { unfold rename_at in Hren. destruct (node_at (T ++ [fn]) (root w1)); [done|].
    done. }
  assert (T ++ [fn] ≠ q ∧ is_dir (node_at q (root w1)) = false
          ∧ ∀ k, q = T ++ [k] → split_once "." k = None) as (Hpq & Hqdir & Hqnew).
  { destruct Hcases as [[HQ Hcase]|(HQ & Hreal & Hfree)].
    - assert (T ++ [fn] ≠ q) as Hpq.
      { intros <-. by apply (Hdot fn (Hnew _ fn HQ eq_refl)). }
      split; [done|]. split.
      + destruct Hcase as [Hnd|]; [|done]. by rewrite (stat_dir _ _ _ _ HQ) in Hnd.
      + intros k ->. by eapply Hnew.
    - rewrite (stat_dir _ _ _ _ Hreal) in Hfree.
      split; [|split].
      + intros <-. rewrite Hfree in Hsrc1. by destruct Hsrc1.
      + by rewrite Hfree.
      + intros k ->. destruct HQ as [Q HQ].
        rewrite basename_join_valid in Hreal by done.
        rewrite resolve_join_valid in Hreal by done.
        rewrite (join_base_resolve _ _ _ HQ) in Hreal.
        injection Hreal as [-> ->]%app_inj_tail.
        rewrite Hfree in Hsrc1. by destruct Hsrc1. }
  destruct (rename_at_dir_keys T _ q _ _ es1 Hren Hes1) as (es' & Hes' & Hkeys');
    [apply prefix_snoc_not|done|done|].
  exists es'. split; [done|]. intros k Hk.
  destruct (Hkeys' k Hk) as [[Hk1 Hne]|Hq].
  - destruct (Hkeys1 k Hk1) as [?|?]; [|by right].
    left. split; [done|]. by intros ->.
  - right. by apply Hqnew.
Qed.


Lemma bind_inv {A B} (m : M A) (f : A → M B) (w w' : world) (b : B) :
  (m ≫= f) w = Ok b w' → ∃ a w1, m w = Ok a w1 ∧ f a w1 = Ok b w'.
Proof.
  unfold mbind, M_bind. destruct (m w) as [a w1|]; [|done]. eauto.
Qed.

(** A property kept by every turn that does not raise is kept by a loop
    that does not raise. *)
Lemma for_each_invariant {A} (I : world → Prop) (l : list A) (body : A → M unit) :
  (∀ x w w', x ∈ l → body x w = Ok () w' → I w → I w') →
  ∀ w w', for_each l body w = Ok () w' → I w → I w'.
Proof.
  induction l as [|x l IH]; intros Hbody w w'.
  - by intros [= <-].
  - cbn [for_each]. intros ([] & w1 & Hx & Hrest)%bind_inv HI.
    eapply IH; [|exact Hrest|].
    + intros y v v' Hy. apply Hbody. by right.
    + eapply Hbody; [by left|exact Hx|exact HI].
Qed.

Lemma rearrange_loop_keys (folder : string) (T : path) (fns : list string) :
  resolve cwd folder = Some T →
  (∀ fn, fn ∈ fns → valid_name fn = true ∧ endswith ".jpg" fn = true) →
  ∀ (w w' : world) (es : gmap string node),
  for_each (join folder <$> fns) (rearrange_one cwd folder) w = Ok () w' →
  node_at T (root w) = Some (Dir es) →
  ∃ es', node_at T (root w') = Some (Dir es')
    ∧ ∀ k, is_Some (es' !! k) →
           (is_Some (es !! k) ∧ k ∉ fns) ∨ split_once "." k = None.
Proof.
  intros HT. induction fns as [|fn fns IH]; intros Hfns w w' es Hrun Hes.
  - injection Hrun as <-. exists es. split; [done|]. intros k Hk. left.
    split; [done|]. apply not_elem_of_nil.
  - rewrite fmap_cons in Hrun. cbn [for_each] in Hrun.
    apply bind_inv in Hrun as ([] & w1 & Hone & Hrest).
    destruct (Hfns fn) as [Hv Hjpg]; [by left|].
    destruct (rearrange_one_keys folder fn T w w1 es Hone HT Hes Hv Hjpg)
      as (es1 & Hes1 & Hkeys1).
    destruct (IH (λ f Hf, Hfns f (list_elem_of_further _ _ _ Hf)) w1 w' es1 Hrest Hes1)
      as (es' & Hes' & Hkeys').
    exists es'. split; [done|]. intros k Hk.
    destruct (Hkeys' k Hk) as [[Hk1 Hnotin]|?]; [|by right].
    destruct (Hkeys1 k Hk1) as [[Hk0 Hne]|?]; [|by right].
    left. split; [done|]. by intros [?|?]%elem_of_cons.
Qed.

(** After [rearrange_folders] without an exception, the folder lists no
    [.jpg] name. *)
Lemma rearrange_folders_no_jpg (folder : string) (w w' : world) :
  rearrange_folders cwd readdir_order folder w = Ok () w' →
  ∃ T es', resolve cwd folder = Some T
    ∧ node_at T (root w') = Some (Dir es')
    ∧ ∀ k, k ∈ names readdir_order es' → endswith ".jpg" k = false.
Proof.
  unfold rearrange_folders.
  intros (listing & w0 & Hlist & Hrun)%bind_inv.
  apply listdir_inv in Hlist as (-> & T & es & HT & Hes & ->).
  pose proof (elem_of_names _ readdir_order_perm) as Hin.
  exists T.
  set (fns := filter (λ fn, endswith ".jpg" fn = true) (names readdir_order es)) in *.
  assert (∀ fn, fn ∈ fns → valid_name fn = true ∧ endswith ".jpg" fn = true) as Hfns.
  { intros fn [Hjpg [Hv _]%Hin]%list_elem_of_filter. done. }
  assert (∀ k, k ∈ names readdir_order es → k ∉ fns → endswith ".jpg" k = false) as Hold.
  { intros k Hk Hnot. destruct (endswith ".jpg" k) eqn:Hjpg; [|done].
    destruct Hnot. by apply list_elem_of_filter. }
  destruct (decide (length (join folder <$> fns) = 0)) as [Hzero|_].
  - injection Hrun as <-. exists es. split; [done|]. split; [done|].
    intros k Hk. apply Hold; [done|].
    rewrite length_fmap in Hzero. apply nil_length_inv in Hzero. rewrite Hzero.
    apply not_elem_of_nil.
  - apply bind_inv in Hrun as ([] & w1 & Hprint & Hloop).
    injection Hprint as <-.
    destruct (rearrange_loop_keys folder T fns HT Hfns _ _ es Hloop Hes)
      as (es' & Hes' & Hkeys).
    exists es'. split; [done|]. split; [done|].
    intros k [Hv Hk]%Hin. destruct (Hkeys k Hk) as [[Hk0 Hnot]|Hdot].
    + apply Hold; [|done]. by apply Hin.
    + destruct (endswith ".jpg" k) eqn:Hjpg; [|done].
      apply endswith_jpg_has_dot in Hjpg. rewrite Hdot in Hjpg. by destruct Hjpg.
Qed.


Ltac path_absurd :=
  let H := fresh in
  intros H; rewrite <- ?app_assoc in H; cbn [app] in H;
  apply app_inv_head in H; discriminate H.

(** The validation cell, when it does not raise, leaves the train folder
    a directory with no new names, and the validation folder exists
    afterwards. *)
Lemma build_validation_keeps (data_folder : string) (T : path) (w w' : world)
    (es : gmap string node) :
  build_validation cwd readdir_order data_folder w = Ok () w' →
  resolve cwd (join data_folder "train") = Some T →
  node_at T (root w) = Some (Dir es) →
  (∃ es', node_at T (root w') = Some (Dir es')
          ∧ ∀ k, is_Some (es' !! k) → is_Some (es !! k))
  ∧ is_Some (stat cwd (join data_folder "validation") (root w')).
Proof.
  intros Hrun HT Hes. unfold build_validation in Hrun.
  apply bind_inv in Hrun as (present & w0 & Hex & Hrun).
  unfold exists_ in Hex. injection Hex as <- <-.
  destruct (bool_decide_reflect
    (is_Some (stat cwd (join data_folder "validation") (root w)))) as [Hpresent|_].
  { injection Hrun as <-. split; [|done]. by exists es. }
  cbn [negb] in Hrun.
  rewrite resolve_join_valid in HT by done.
  destruct (join_base cwd data_folder) as [D|] eqn:HD; [|done].
  injection HT as <-.
  assert (resolve cwd (join data_folder "validation") = Some (D ++ ["validation"])) as HVs.
  { rewrite resolve_join_valid by done. by rewrite HD. }
  rewrite (stat_dir _ _ _ _ HVs).
  set (T := D ++ ["train"]) in *. set (V := D ++ ["validation"]) in *.
  set (I := λ v : world,
    (∃ es', node_at T (root v) = Some (Dir es')
            ∧ ∀ k, is_Some (es' !! k) → is_Some (es !! k))
    ∧ is_dir (node_at V (root v)) = true).
  assert (∀ q v v', mkdir_at q (root v) = Some (root v') →
            (∀ k, q ≠ T ++ [k]) → (q = V ∨ I v) →
            (∃ es', node_at T (root v) = Some (Dir es')
                    ∧ ∀ k, is_Some (es' !! k) → is_Some (es !! k)) →
            (q = V ∨ V `prefix_of` q) → I v') as Hmkdir.
  { intros q v v' Hmk HqT HqV (es0 & Hes0 & Hsub) Hqpre. split.
    - destruct (mkdir_at_dir_keys T q _ _ es0 Hmk Hes0) as (es1 & Hes1 & Hkeys).
      exists es1. split; [done|]. intros k Hk.
      destruct (Hkeys k Hk) as [?|?]; [by apply Hsub|]. by destruct (HqT k).
    - destruct HqV as [->|[_ HV]].
      + unfold mkdir_at in Hmk. apply update_entry_at in Hmk.
        destruct (node_at V (root v)); [done|]. injection Hmk as <-. done.
      + destruct (node_at V (root v)) as [[|eV]|] eqn:HeV; try done.
        destruct (mkdir_at_dir_keys V q _ _ eV Hmk HeV) as (eV1 & -> & _). done. }
  apply bind_inv in Hrun as ([] & w1 & Hmk & Hrun).
  apply mkdir_inv in Hmk as (q & Hq & Hmk). rewrite HVs in Hq. injection Hq as <-.
  assert (I w1) as HI1.
  { apply (Hmkdir V w w1 Hmk); [|by left|by exists es|by left].
    intros k. subst T V. path_absurd. }
  assert (I w') as [HT' HV'].
  { revert HI1. eapply for_each_invariant; [|exact Hrun].
    intros c v v' Hc Hpop HI.
    assert (valid_name c = true) as Hvc.
    { apply elem_of_cons in Hc as [->|Hc]; [done|].
      apply elem_of_cons in Hc as [->|Hc%elem_of_nil]; done. }
    assert (resolve cwd (join (join data_folder "train") c) = Some (T ++ [c])) as HTc.
    { rewrite resolve_join2 by done. rewrite HD. simpl. subst T. by rewrite <- app_assoc. }
    assert (resolve cwd (join (join data_folder "validation") c) = Some (V ++ [c])) as HVc.
    { rewrite resolve_join2 by done. rewrite HD. simpl. subst V. by rewrite <- app_assoc. }
    unfold populate in Hpop.
    apply bind_inv in Hpop as ([] & v0 & Hprint & Hpop). injection Hprint as <-.
    apply bind_inv in Hpop as ([] & v1 & Hmkc & Hpop).
    apply mkdir_inv in Hmkc as (q & Hq & Hmkc). rewrite HVc in Hq. injection Hq as <-.
    assert (I v1) as HIv1.
    { apply (Hmkdir (V ++ [c]) (World (root v) _) v1 Hmkc).
      - intros k. subst T V. path_absurd.
      - by right.
      - apply HI.
      - right. by apply prefix_app_r. }
    apply bind_inv in Hpop as (listing & v2 & Hlist & Hpop).
    apply listdir_inv in Hlist as (-> & pc & esc & Hpc & Hesc & ->).
    apply bind_inv in Hpop as ([] & v3 & Hmoves & Hpop).
    assert (I v3) as HIv3.
    { revert HIv1. eapply for_each_invariant; [|exact Hmoves].
      intros x u u' Hx Hmove [(es0 & Hes0 & Hsub) HVu].
      assert (valid_name x = true) as Hvx.
      { apply elem_of_last_n in Hx. unfold sorted in Hx.
        rewrite merge_sort_Permutation in Hx.
        by apply (elem_of_names _ readdir_order_perm) in Hx as [? _]. }
      apply move_inv in Hmove as (p & q & Hp & Hren & Hcases).
      rewrite resolve_join3 in Hp by done. rewrite HD in Hp. injection Hp as <-.
      assert (D ++ ["train"; c; x] ≠ q ∧ is_dir (node_at q (root u)) = false
              ∧ (∀ k, q ≠ T ++ [k])) as (Hpq & Hqdir & HqT).
      { destruct Hcases as [[HQ Hcase]|(_ & Hreal & Hfree)].
        - rewrite HVc in HQ. injection HQ as <-.
          assert (D ++ ["train"; c; x] ≠ V ++ [c]) as Hne by (subst V; path_absurd).
          split; [done|]. split.
          + destruct Hcase as [Hnd|]; [|done]. by rewrite (stat_dir _ _ _ _ HVc) in Hnd.
          + intros k. subst T V. path_absurd.
        - rewrite basename_join_valid in Hreal, Hfree by done.
          rewrite (stat_dir _ (join _ x) (D ++ ["validation"; c; x])) in Hfree.
          2:{ rewrite resolve_join3 by done. by rewrite HD. }
          rewrite resolve_join3 in Hreal by done. rewrite HD in Hreal.
          injection Hreal as <-.
          split; [path_absurd|]. split; [by rewrite Hfree|].
          intros k. subst T. path_absurd. }
      destruct (node_at V (root u)) as [[|eV]|] eqn:HeV; try done.
      split.
      - destruct (rename_at_dir_keys T _ q _ _ es0 Hren Hes0) as (es1 & Hes1 & Hkeys);
          [|done|done|].
        { subst T. intros [r Hr]. rewrite <- !app_assoc in Hr.
          apply app_inv_head in Hr. discriminate Hr. }
        exists es1. split; [done|]. intros k Hk.
        destruct (Hkeys k Hk) as [[? _]|?]; [by apply Hsub|]. by destruct (HqT k).
      - destruct (rename_at_dir_keys V _ q _ _ eV Hren HeV) as (eV1 & -> & _);
          [|done|done|done].
        subst V. intros [r Hr]. rewrite <- !app_assoc in Hr.
        apply app_inv_head in Hr. discriminate Hr. }
    apply bind_inv in Hpop as (moved & v4 & Hlist2 & Hprint).
    apply listdir_inv in Hlist2 as (-> & _). injection Hprint as <-. exact HIv3. }
  split; [done|]. by destruct (node_at V (root w')) as [[|?]|].
Qed.

End Idempotence.

(** C3: a run of the organizer that does not raise leaves the data
    directory organized, and on an organized data directory the organizer
    is a no-op: the extraction is skipped because the train directory
    exists, [rearrange_folders] returns at once because the folder lists no
    [.jpg] name, the validation cell is skipped because the validation
    directory exists; nothing raises, nothing is printed, created or
    moved, and the world after the second run is the world after the
    first. *)
Theorem organize_idempotent (cwd : OS.path)
    (readdir_order : list string → list string)
    (unzip : string → option (list (string * string)))
    (data_folder : string) (w w' : OS.world) :
  (∀ l, readdir_order l ≡ₚ l) →
  Organizer.organize cwd readdir_order unzip data_folder w = OS.Ok () w' →
  Organizer.organized cwd readdir_order data_folder w'
  ∧ Organizer.organize cwd readdir_order unzip data_folder w' = OS.Ok () w'.
Proof.
  intros Hperm Hrun.
  assert (Organizer.organized cwd readdir_order data_folder w') as Horg.
  { unfold Organizer.organize in Hrun.
    apply bind_inv in Hrun as ([] & w1 & _ & Hrun).
    apply bind_inv in Hrun as ([] & w2 & Hrearrange & Hbuild).
    apply (rearrange_folders_no_jpg cwd readdir_order Hperm) in Hrearrange
      as (T & es & HT & Hes & Hjpg).
    destruct (build_validation_keeps cwd readdir_order Hperm data_folder T w2 w' es
                Hbuild HT Hes) as [(es' & Hes' & Hsub) Hval].
    unfold Organizer.organized, OS.exists_.
    rewrite (stat_dir _ _ _ _ HT), Hes'.
    split; [by rewrite bool_decide_eq_true_2|].
    split; [|by rewrite bool_decide_eq_true_2].
    exists (OS.names readdir_order es'). split.
    - by apply (listdir_dir _ _ _ T).
    - apply Forall_forall. intros k [Hv Hk]%(elem_of_names _ Hperm).
      apply Hjpg. apply (elem_of_names _ Hperm). split; [done|]. by apply Hsub. }
  split; [done|]. by apply organize_organized.
Qed.

(** ** Where [rearrange_folders] puts an image *)

Section Subfolder.

Import OS.

Lemma split_once_app_dotless (front s head tail : string) :
  split_once "." front = None →
  split_once "." s = Some (head, tail) →
  split_once "." (front +:+ s) = Some (front +:+ head, tail).
Proof.
  intros Hfront Hs. induction front as [|a front IH]; [done|].
  rewrite !string_app_cons. cbn [split_once] in *.
  destruct (Ascii.eqb a "."); [done|].
  destruct (split_once "." front) as [[? ?]|]; [done|].
  by rewrite IH.
Qed.

Lemma split_once_slash_dotless (front : string) :
  split_once "." front = None → split_once "." (front +:+ "/") = None.
Proof.
  intros Hfront. induction front as [|a front IH]; [done|].
  rewrite string_app_cons. cbn [split_once] in *.
  destruct (Ascii.eqb a "."); [done|].
  destruct (split_once "." front) as [[? ?]|]; [done|].
  by rewrite IH.
Qed.

(** When the folder is absolute and has no dot in its path, the text
    before the first dot of the joined path is the folder joined with the
    class prefix of the file name, and joining the folder in front of it
    once more changes nothing: the image goes to the class subfolder. *)
Lemma subfolder_of_dotless_folder (folder fn class_name rest : string) :
  startswith "/" folder = true →
  split_once "." folder = None →
  valid_name fn = true →
  split_once "." fn = Some (class_name, rest) →
  split_once "." (join folder fn) = Some (join folder class_name, rest)
  ∧ join folder (join folder class_name) = join folder class_name.
Proof.
  intros Habs Hdot Hfn Hsplit.
  assert (folder ≠ "") as Hne by (by intros ->).
  assert (startswith "/" class_name = false) as Hrel.
  { pose proof (valid_name_relative fn Hfn) as Hr.
    destruct fn as [|a fn]; [done|].
    cbn [split_once] in Hsplit. destruct (Ascii.eqb a ".") eqn:Ha.
    - by injection Hsplit as <- <-.
    - destruct (split_once "." fn) as [[h t]|]; [|done].
      injection Hsplit as <- <-. by rewrite startswith_slash_cons in *. }
  split.
  - unfold join. rewrite (valid_name_relative fn Hfn), Hrel.
    rewrite bool_decide_eq_false_2 by done. cbn [orb].
    destruct (endswith "/" folder).
    + by apply split_once_app_dotless.
    + rewrite <- !string_app_assoc.
      apply split_once_app_dotless; [|done]. by apply split_once_slash_dotless.
  - apply join_absolute. by rewrite startswith_join.
Qed.

End Subfolder.

(** C4: the class subfolder is computed from the joined path, not from the
    file name.  With the data directory below [/home/john.doe], the flat
    file [cat.0.jpg] of the train folder is moved to [/home/john], a
    directory the function creates next to the home directory; no
    [train/cat] folder appears.  Below [/home/u] the same file goes to
    [train/cat]: where the image ends up depends on the path of the data
    directory. *)
Theorem rearrange_folders_dotted_home :
  (∃ w', Organizer.rearrange_folders [] in_stored_order
           "/home/john.doe/data/dogs-vs-cats/train" (home_with "john.doe")
         = OS.Ok () w'
      ∧ OS.stat [] "/home/john/cat.0.jpg" (OS.root w') = Some (OS.File "c0")
      ∧ OS.stat [] "/home/john.doe/data/dogs-vs-cats/train/cat" (OS.root w') = None
      ∧ OS.stat [] "/home/john.doe/data/dogs-vs-cats/train/cat/cat.0.jpg" (OS.root w')
        = None
      ∧ OS.Mkdir ["home"; "john"] ∈ OS.log w')
  ∧ (∃ w', Organizer.rearrange_folders [] in_stored_order
             "/home/u/data/dogs-vs-cats/train" (home_with "u")
           = OS.Ok () w'
      ∧ OS.stat [] "/home/u/data/dogs-vs-cats/train/cat/cat.0.jpg" (OS.root w')
        = Some (OS.File "c0")).
Proof.
  split.
  - eexists. split; [vm_compute; reflexivity|].
    repeat split; try (vm_compute; reflexivity).
    vm_compute. apply list_elem_of_In. simpl. tauto.
  - eexists. split; vm_compute; reflexivity.
Qed.

(** ** From the flat layout to the class folders *)

Section FlatLayout.

Import OS Organizer.

Context (cwd : path) (readdir_order : list string → list string).
Hypothesis readdir_order_perm : ∀ l, readdir_order l ≡ₚ l.

(** Moving the entry [fn] of directory [T] into its subdirectory [c],
    which has no entry of that name. *)
Lemma rename_at_into_child (T : path) (fn c : string) (t : node)
    (es ec : gmap string node) (nd : node) :
  node_at T t = Some (Dir es) →
  es !! fn = Some nd →
  es !! c = Some (Dir ec) →
  ec !! fn = None →
  fn ≠ c →
  ∃ t', rename_at (T ++ [fn]) ((T ++ [c]) ++ [fn]) t = Some t'
        ∧ node_at T t' = Some (Dir (<[c := Dir (<[fn := nd]> ec)]> (delete fn es)))
        ∧ ∀ R, diverge R T = true → node_at R t' = node_at R t.
Proof.
  intros HT Hfn Hc Hfree Hne. unfold rename_at.
  rewrite (node_at_snoc _ _ _ _ HT), Hfn. cbn [mbind option_bind].
  rewrite decide_False by (by destruct T).
  rewrite decide_False.
  2:{ rewrite <- app_assoc. intros Heq%app_inv_head. discriminate Heq. }
  rewrite decide_False.
  2:{ rewrite <- app_assoc. intros Hp%prefix_app_inv.
      apply prefix_cons_inv_1 in Hp. done. }
  assert (node_at (T ++ [c]) t = Some (Dir ec)) as HTc.
  { by rewrite (node_at_snoc _ _ _ _ HT). }
  rewrite (node_at_snoc _ _ _ _ HTc), Hfree. cbn [replaceable negb].
  destruct (detach_dir T fn t es HT) as (t1 & Ht1 & HT1); [by eexists|].
  rewrite Ht1. cbn [mbind option_bind].
  assert (node_at (T ++ [c]) t1 = Some (Dir ec)) as HTc1.
  { rewrite (node_at_snoc _ _ _ _ HT1). by rewrite lookup_delete_ne. }
  destruct (attach_dir (T ++ [c]) fn nd t1 ec HTc1) as (t' & Ht' & HTc').
  exists t'. split; [done|]. split.
  - unfold attach in Ht'.
    destruct (dir_after_update T _ _ t1 t' _ Ht' HT1) as (es' & HT' & Hoff & _ & _).
    { rewrite <- app_assoc. intros Hp.
      apply (prefix_snoc_not T c). eapply prefix_app_l.
      replace ((T ++ [c]) ++ [fn]) with (T ++ [c; fn]) by (by rewrite <- app_assoc).
      exact Hp. }
    rewrite HT'. do 2 f_equal. apply map_eq. intros k.
    destruct (decide (k = c)) as [->|Hkc].
    + rewrite lookup_insert_eq.
      rewrite (node_at_snoc _ c _ _ HT') in HTc'. done.
    + rewrite lookup_insert_ne by done. apply Hoff.
      rewrite <- app_assoc. intros Hp%prefix_app_inv.
      apply prefix_cons_inv_1 in Hp. done.
  - intros R HR. unfold attach in Ht'. unfold detach in Ht1.
    rewrite (update_entry_diverge R _ _ t1 t' (diverge_app_r _ _ _ (diverge_app_r _ _ _ HR)) Ht').
    by rewrite (update_entry_diverge R _ _ t t1 (diverge_app_r _ _ _ HR) Ht1).
Qed.

(** [shutil.move] into an existing directory that has no entry of the
    source's name is the rename to that entry. *)
Lemma move_into_dir (src dst : string) (P Q : path) (x : string) (w : world) :
  resolve cwd src = Some (P ++ [x]) →
  basename src = x →
  valid_name x = true →
  resolve cwd dst = Some Q →
  is_dir (node_at Q (root w)) = true →
  P ++ [x] ≠ Q →
  node_at (Q ++ [x]) (root w) = None →
  move cwd src dst w
  = match rename_at (P ++ [x]) (Q ++ [x]) (root w) with
    | Some t' => Ok () (World t' (log w ++ [Rename (P ++ [x]) (Q ++ [x])]))
    | None => Raise OSError w
    end.
Proof.
  intros Hsrc Hbase Hx Hdst HQ Hne Hfree.
  assert (resolve cwd (join dst x) = Some (Q ++ [x])) as Hreal.
  { rewrite resolve_join_valid by done. by rewrite (join_base_resolve _ _ _ Hdst). }
  unfold move, isdir, samefile, exists_, rename, syscall, raise, mbind, M_bind, stat.
  rewrite Hdst, Hsrc, Hbase, Hreal. cbn [mbind option_bind]. rewrite HQ.
  rewrite bool_decide_eq_false_2.
  2:{ intros (_ & _ & [= Heq]). done. }
  rewrite bool_decide_eq_false_2.
  2:{ rewrite Hfree. by intros [? ?]. }
  done.
Qed.

End FlatLayout.

Section FlatLoop.

Import OS Organizer.

Context (cwd : path) (readdir_order : list string → list string).
Hypothesis readdir_order_perm : ∀ l, readdir_order l ≡ₚ l.

Lemma class_of_dotless (fn c : string) :
  class_of fn = Some c → split_once "." c = None.
Proof.
  unfold class_of. destruct (split_once "." fn) as [[h t]|] eqn:Hs; [|done].
  intros [= <-]. by apply split_once_head in Hs as [? _].
Qed.

Lemma split_app_single (sep : ascii) (a b : string) :
  split sep (a +:+ b) = [a +:+ b] → split sep a = [a].
Proof.
  induction a as [|x a IH]; [done|].
  rewrite string_app_cons. cbn [split].
  destruct (Ascii.eqb x sep); [done|].
  pose proof (split_nonempty sep (a +:+ b)) as Hne1.
  pose proof (split_nonempty sep a) as Hne2.
  destruct (split sep (a +:+ b)) as [|p1 ps1] eqn:H1; [done|].
  intros [= Hp ->]. rewrite Hp in IH. rewrite IH by done. done.
Qed.

(** The class of a valid file name that does not start with a dot is a
    valid name. *)
Lemma class_of_valid (fn c : string) :
  valid_name fn = true → class_of fn = Some c → startswith "." fn = false →
  valid_name c = true.
Proof.
  intros (_ & _ & _ & Hsplit)%valid_name_spec Hc Hhidden.
  pose proof (class_of_dotless _ _ Hc) as Hdot.
  unfold class_of in Hc.
  destruct (split_once "." fn) as [[h t]|] eqn:Hs; [|done]. injection Hc as ->.
  apply split_once_head in Hs as [_ ->].
  unfold valid_name. rewrite !andb_true_iff, !negb_true_iff. repeat split.
  - destruct c; [|done]. by vm_compute in Hhidden.
  - apply String.eqb_neq. intros ->. by vm_compute in Hdot.
  - apply String.eqb_neq. intros ->. by vm_compute in Hdot.
  - apply bool_decide_eq_true. by eapply split_app_single.
Qed.

End FlatLoop.

Section FlatStep.

Import OS Organizer.

Context (cwd : path) (readdir_order : list string → list string).
Hypothesis readdir_order_perm : ∀ l, readdir_order l ≡ₚ l.

Context (folder : string) (T : path) (es : gmap string node).
Hypothesis folder_resolves : resolve cwd folder = Some T.
Hypothesis folder_absolute : startswith "/" folder = true.
Hypothesis folder_dotless : split_once "." folder = None.
Hypothesis flat :
  ∀ fn, fn ∈ names readdir_order es →
        endswith ".jpg" fn = true ∧ startswith "." fn = false.

Lemma flat_name (fn : string) :
  fn ∈ names readdir_order es →
  valid_name fn = true ∧ is_Some (es !! fn)
  ∧ ∃ c rest, split_once "." fn = Some (c, rest) ∧ class_of fn = Some c
              ∧ valid_name c = true ∧ split_once "." c = None ∧ fn ≠ c.
Proof.
  intros Hfn. destruct (flat fn Hfn) as [Hjpg Hhidden].
  apply (elem_of_names _ readdir_order_perm) in Hfn as [Hv Hsome].
  split; [done|]. split; [done|].
  destruct (endswith_jpg_has_dot fn Hjpg) as [[c rest] Hsplit].
  assert (class_of fn = Some c) as Hc by (unfold class_of; by rewrite Hsplit).
  pose proof (class_of_dotless _ _ Hc) as Hdot.
  exists c, rest. repeat split; try done.
  - by eapply class_of_valid.
  - intros ->. by rewrite Hsplit in Hdot.
Qed.

(** A class name is not an entry of the flat folder. *)
Lemma class_not_listed (c : string) :
  valid_name c = true → split_once "." c = None → es !! c = None.
Proof.
  intros Hv Hdot. destruct (es !! c) as [nd|] eqn:Hc; [|done].
  assert (c ∈ names readdir_order es) as Hin.
  { apply (elem_of_names _ readdir_order_perm). by split; [|eexists]. }
  apply flat in Hin as [Hjpg%endswith_jpg_has_dot _]. rewrite Hdot in Hjpg.
  by destruct Hjpg.
Qed.

(** One turn of the loop of [rearrange_folders] on a flat folder: the
    image goes to the folder of its class. *)
Lemma rearrange_one_flat (fn : string) (done : list string) (w : world)
    (now : gmap string node) :
  node_at T (root w) = Some (Dir now) →
  rearranged es done now →
  fn ∈ names readdir_order es →
  fn ∉ done →
  (∀ x, x ∈ done → x ∈ names readdir_order es) →
  ∃ w' now',
    rearrange_one cwd folder (join folder fn) w = Ok () w'
    ∧ node_at T (root w') = Some (Dir now')
    ∧ rearranged es (fn :: done) now'
    ∧ ∀ R, diverge R T = true → node_at R (root w') = node_at R (root w).
Proof.
  intros HT (Hgone & Hclass & Hrest) Hfn Hnew Hdone.
  destruct (flat_name fn Hfn)
    as (Hv & [nd Hnd] & c & rest & Hsplit & Hc & Hvc & Hdotc & Hfnc).
  assert (∀ x k, x ∈ names readdir_order es → class_of x = Some k → x ≠ k ∧ k ∉ done)
    as Hclasses.
  { intros x k Hx Hk. pose proof (class_of_dotless _ _ Hk) as Hdk. split.
    - intros ->. apply flat_name in Hx as (_ & _ & c' & r' & Hs' & _).
      by rewrite Hs' in Hdk.
    - intros Hkd%Hdone. apply flat_name in Hkd as (_ & _ & c' & r' & Hs' & _).
      by rewrite Hs' in Hdk. }
  assert (c ∉ done) as Hcd by (by eapply Hclasses).
  assert (Some fn ∉ class_of <$> done) as Hfncls.
  { intros (x & Hx & Hxd)%list_elem_of_fmap. symmetry in Hx.
    apply class_of_dotless in Hx. by rewrite Hsplit in Hx. }
  assert (now !! fn = Some nd) as Hnowfn by (by rewrite Hrest).
  destruct (subfolder_of_dotless_folder folder fn c rest) as [Hsub Hjoin]; try done.
  assert (resolve cwd (join folder fn) = Some (T ++ [fn])) as Hsrc.
  { rewrite resolve_join_valid by done. by rewrite (join_base_resolve _ _ _ folder_resolves). }
  assert (resolve cwd (join folder c) = Some (T ++ [c])) as Hdst.
  { rewrite resolve_join_valid by done. by rewrite (join_base_resolve _ _ _ folder_resolves). }
  unfold rearrange_one. rewrite Hsub, Hjoin.
  (* the class folder, after the optional mkdir *)
  assert (∃ w1 now1 m1,
            (exists_ cwd (join folder c) ≫= λ present : bool,
              (if negb present then mkdir cwd (join folder c) else mret ()) ;;
              move cwd (join folder fn) (join folder c)) w
            = move cwd (join folder fn) (join folder c) w1
            ∧ node_at T (root w1) = Some (Dir now1)
            ∧ now1 !! c = Some (Dir m1)
            ∧ holds_moved es done c m1
            ∧ (∀ k, k ≠ c → now1 !! k = now !! k)
            ∧ ∀ R, diverge R T = true → node_at R (root w1) = node_at R (root w))
    as (w1 & now1 & m1 & -> & HT1 & Hc1 & Hm1 & Hother & Hframe1).
  { unfold mbind at 1, M_bind at 1, exists_.
    rewrite (stat_dir _ _ _ _ Hdst), (node_at_snoc _ _ _ _ HT).
    destruct (decide (Some c ∈ class_of <$> done)) as [Hin|Hnotin].
    - destruct (Hclass c Hcd Hin) as (m & Hm & Hspec).
      rewrite Hm. rewrite bool_decide_eq_true_2 by done. cbn [negb].
      exists w, now, m. unfold mbind, M_bind, mret, M_ret. done.
    - assert (now !! c = None) as Hnone.
      { rewrite Hrest by done. by apply class_not_listed. }
      rewrite Hnone. rewrite bool_decide_eq_false_2 by (by intros [? ?]).
      cbn [negb].
      destruct (mkdir_entry cwd _ T c w now Hdst HT Hnone) as (t1 & Hmk & HT1 & Hfr).
      unfold mbind, M_bind. rewrite Hmk.
      exists (World t1 (log w ++ [Mkdir (T ++ [c])])), (<[c := Dir ∅]> now), ∅.
      split; [done|]. split; [done|]. split; [by rewrite lookup_insert_eq|].
      split; [|split].
      + intros f. split; [|done]. intros Hf Hfc. destruct Hnotin.
        apply list_elem_of_fmap. by exists f.
      + intros k Hk. by rewrite lookup_insert_ne.
      + intros R HR. cbn [root]. apply Hfr. by apply diverge_app_r. }
  assert (m1 !! fn = None) as Hfree.
  { apply Hm1. by intros [? _]. }
  rewrite (move_into_dir cwd _ _ T (T ++ [c]) fn w1 Hsrc); try done.
  2:{ by apply basename_join_valid. }
  2:{ by rewrite (node_at_snoc _ _ _ _ HT1), Hc1. }
  2:{ intros Heq%app_inv_head. by injection Heq. }
  2:{ assert (node_at (T ++ [c]) (root w1) = Some (Dir m1)) as HTc
        by (by rewrite (node_at_snoc _ _ _ _ HT1)).
      by rewrite (node_at_snoc _ _ _ _ HTc). }
  destruct (rename_at_into_child T fn c (root w1) now1 m1 nd HT1)
    as (t' & -> & HT' & Hframe'); try done.
  { by rewrite Hother. }
  eexists _, _. split; [done|]. cbn [root]. split; [exact HT'|]. split.
  - split; [|split].
    + intros k [->|Hk]%elem_of_cons.
      * rewrite lookup_insert_ne by done. apply lookup_delete_eq.
      * assert (k ≠ c) by (by intros ->).
        assert (k ≠ fn) by (by intros ->).
        rewrite lookup_insert_ne, lookup_delete_ne, Hother by done. by apply Hgone.
    + intros k Hk Hin. apply not_elem_of_cons in Hk as [Hkfn Hkd].
      rewrite fmap_cons, Hc in Hin.
      destruct (decide (k = c)) as [->|Hkc].
      * rewrite lookup_insert_eq. eexists. split; [done|].
        intros f. destruct (Hm1 f) as [Hin1 Hout1]. split.
        -- intros [->|Hf]%elem_of_cons Hfc.
           ++ by rewrite lookup_insert_eq.
           ++ assert (f ≠ fn) by (by intros ->).
              rewrite lookup_insert_ne by done. by apply Hin1.
        -- intros Hnot. destruct (decide (f = fn)) as [->|Hf].
           ++ destruct Hnot. split; [by left|done].
           ++ rewrite lookup_insert_ne by done. apply Hout1.
              intros [? ?]. destruct Hnot. split; [by right|done].
      * apply elem_of_cons in Hin as [[= ->]|Hin]; [done|].
        destruct (Hclass k Hkd Hin) as (m & Hm & Hspec).
        exists m. rewrite lookup_insert_ne, lookup_delete_ne, Hother by done.
        split; [done|]. intros f. destruct (Hspec f) as [Hin1 Hout1]. split.
        -- intros [->|Hf]%elem_of_cons Hfc; [congruence|by apply Hin1].
        -- intros Hnot. apply Hout1. intros [? ?]. destruct Hnot.
           split; [by right|done].
    + intros k Hk Hnotin. apply not_elem_of_cons in Hk as [Hkfn Hkd].
      rewrite fmap_cons, Hc in Hnotin. apply not_elem_of_cons in Hnotin as [Hkc Hnotin].
      assert (k ≠ c) by congruence.
      rewrite lookup_insert_ne, lookup_delete_ne, Hother by done. by apply Hrest.
  - intros R HR. rewrite Hframe' by done. by apply Hframe1.
Qed.

End FlatStep.

Section FlatFolder.

Import OS Organizer.

Context (cwd : path) (readdir_order : list string → list string).
Hypothesis readdir_order_perm : ∀ l, readdir_order l ≡ₚ l.

Context (folder : string) (T : path) (es : gmap string node).
Hypothesis folder_resolves : resolve cwd folder = Some T.
Hypothesis folder_absolute : startswith "/" folder = true.
Hypothesis folder_dotless : split_once "." folder = None.
Hypothesis flat :
  ∀ fn, fn ∈ names readdir_order es →
        endswith ".jpg" fn = true ∧ startswith "." fn = false.

Lemma rearrange_loop_flat (fns : list string) :
  ∀ (done : list string) (w : world) (now : gmap string node),
  NoDup fns →
  (∀ x, x ∈ fns → x ∈ names readdir_order es ∧ x ∉ done) →
  (∀ x, x ∈ done → x ∈ names readdir_order es) →
  node_at T (root w) = Some (Dir now) →
  rearranged es done now →
  ∃ w' now',
    for_each (join folder <$> fns) (rearrange_one cwd folder) w = Ok () w'
    ∧ node_at T (root w') = Some (Dir now')
    ∧ rearranged es (reverse fns ++ done) now'
    ∧ ∀ R, diverge R T = true → node_at R (root w') = node_at R (root w).
Proof.
  induction fns as [|fn fns IH]; intros done w now Hnd Hfns Hdone HT Hinv.
  - exists w, now. done.
  - apply NoDup_cons in Hnd as [Hfn Hnd].
    destruct (Hfns fn) as [Hin Hnew]; [by left|].
    destruct (rearrange_one_flat cwd readdir_order readdir_order_perm folder T es
                folder_resolves folder_absolute folder_dotless flat
                fn done w now HT Hinv Hin Hnew Hdone)
      as (w1 & now1 & Hone & HT1 & Hinv1 & Hframe1).
    destruct (IH (fn :: done) w1 now1 Hnd) as (w' & now' & Hrest & HT' & Hinv' & Hframe');
      try done.
    { intros x Hx. destruct (Hfns x) as [? ?]; [by right|]. split; [done|].
      intros [->|?]%elem_of_cons; done. }
    { intros x [->|?]%elem_of_cons; [done|by apply Hdone]. }
    exists w', now'. rewrite fmap_cons. cbn [for_each].
    unfold mbind at 1, M_bind at 1. rewrite Hone. split; [done|]. split; [done|].
    split.
    + by rewrite reverse_cons, <- app_assoc.
    + intros R HR. rewrite Hframe' by done. by apply Hframe1.
Qed.

Lemma filter_all {A} (P : A → Prop) `{∀ x, Decision (P x)} (l : list A) :
  Forall P l → filter P l = l.
Proof.
  induction 1 as [|x l Hx _ IH]; [done|].
  by rewrite filter_cons_True, IH.
Qed.

(** [rearrange_folders] on a flat folder of images: every image goes to
    the folder of its class, and nothing off the folder changes. *)
Lemma rearrange_folders_flat (w : world) :
  node_at T (root w) = Some (Dir es) →
  ∃ w' now',
    rearrange_folders cwd readdir_order folder w = Ok () w'
    ∧ node_at T (root w') = Some (Dir now')
    ∧ rearranged es (reverse (names readdir_order es)) now'
    ∧ ∀ R, diverge R T = true → node_at R (root w') = node_at R (root w).
Proof.
  intros HT.
  assert (∀ w0, node_at T (root w0) = Some (Dir es) →
            ∃ w' now',
              for_each (join folder <$> names readdir_order es)
                (rearrange_one cwd folder) w0 = Ok () w'
              ∧ node_at T (root w') = Some (Dir now')
              ∧ rearranged es (reverse (names readdir_order es)) now'
              ∧ ∀ R, diverge R T = true → node_at R (root w') = node_at R (root w0))
    as Hloop.
  { intros w0 HT0.
    destruct (rearrange_loop_flat (names readdir_order es) [] w0 es)
      as (w' & now' & Hloop & HT' & Hinv & Hframe).
    - apply (NoDup_names _ readdir_order_perm).
    - intros x Hx. split; [done|]. apply not_elem_of_nil.
    - intros x Hx. by apply elem_of_nil in Hx.
    - done.
    - split; [|split].
      + intros k Hk. by apply elem_of_nil in Hk.
      + intros k _ Hk. by apply elem_of_nil in Hk.
      + done.
    - rewrite app_nil_r in Hinv. by exists w', now'. }
  unfold rearrange_folders. unfold mbind at 1, M_bind at 1.
  rewrite (listdir_dir _ _ _ T w es folder_resolves HT).
  rewrite (filter_all _ (names readdir_order es)).
  2:{ apply Forall_forall. intros fn Hfn. by apply flat. }
  destruct (decide (length (join folder <$> names readdir_order es) = 0)) as [Hz|Hnz].
  - destruct (Hloop w HT) as (w' & now' & Hrun & HT' & Hinv & Hframe).
    rewrite length_fmap in Hz. apply nil_length_inv in Hz.
    rewrite Hz in *. injection Hrun as <-. by exists w, now'.
  - unfold mbind at 1, M_bind at 1. unfold print.
    set (w0 := World (root w) _).
    destruct (Hloop w0 HT) as (w' & now' & Hrun & HT' & Hinv & Hframe).
    by exists w', now'.
Qed.

(** After the rearrangement the folder of a class that has images lists
    the images of that class. *)
Lemma class_folder_listing (now : gmap string node) (c : string) :
  rearranged es (reverse (names readdir_order es)) now →
  valid_name c = true →
  (∃ fn, fn ∈ names readdir_order es ∧ class_of fn = Some c) →
  ∃ m, now !! c = Some (Dir m)
       ∧ names readdir_order m
         ≡ₚ filter (λ fn, class_of fn = Some c) (names readdir_order es)
       ∧ ∀ x, x ∈ names readdir_order m → m !! x = es !! x.
Proof.
  intros (_ & Hclass & _) Hvc (fn & Hfn & Hfnc).
  pose proof (class_of_dotless _ _ Hfnc) as Hdot.
  destruct (Hclass c) as (m & Hm & Hspec).
  { rewrite elem_of_reverse. intros Hc.
    apply (flat_name readdir_order readdir_order_perm es flat) in Hc
      as (_ & _ & c' & r' & Hs' & _).
    by rewrite Hs' in Hdot. }
  { apply list_elem_of_fmap. exists fn. split; [done|]. by apply elem_of_reverse. }
  exists m. split; [done|].
  assert (∀ x, x ∈ names readdir_order m ↔
               x ∈ names readdir_order es ∧ class_of x = Some c) as Hiff.
  { intros x. rewrite !(elem_of_names _ readdir_order_perm).
    destruct (Hspec x) as [Hin Hout]. split.
    - intros [Hv Hsome].
      destruct (decide (x ∈ reverse (names readdir_order es) ∧ class_of x = Some c))
        as [[Hx Hxc]|Hnot].
      + rewrite Hin in Hsome by done. done.
      + rewrite Hout in Hsome by done. by destruct Hsome.
    - intros [[Hv Hsome] Hxc]. split; [done|]. rewrite Hin; [done| |done].
      apply elem_of_reverse, (elem_of_names _ readdir_order_perm). done. }
  split.
  - apply NoDup_Permutation.
    + apply (NoDup_names _ readdir_order_perm).
    + apply NoDup_filter, (NoDup_names _ readdir_order_perm).
    + intros x. rewrite Hiff, list_elem_of_filter. tauto.
  - intros x [Hx Hxc]%Hiff. apply Hspec; [|done]. by apply elem_of_reverse.
Qed.

End FlatFolder.

Section SplitFacts.

Import OS Organizer.

Context (cwd : path) (readdir_order : list string → list string).
Hypothesis readdir_order_perm : ∀ l, readdir_order l ≡ₚ l.

Lemma sorted_of_perm (l1 l2 : list string) : l1 ≡ₚ l2 → sorted l1 = sorted l2.
Proof.
  intros Hp. unfold sorted. apply (StronglySorted_unique String.le).
  - apply StronglySorted_merge_sort; apply _.
  - apply StronglySorted_merge_sort; apply _.
  - by rewrite !merge_sort_Permutation.
Qed.

Lemma split_once_app_none (a b : string) :
  split_once "." a = None → split_once "." b = None →
  split_once "." (a +:+ b) = None.
Proof.
  intros Ha Hb. induction a as [|c a IH]; [done|].
  rewrite string_app_cons. cbn [split_once] in *.
  destruct (Ascii.eqb c "."); [done|].
  destruct (split_once "." a) as [[? ?]|]; [done|].
  by rewrite IH.
Qed.

Lemma join_dotless (a b : string) :
  startswith "/" b = false →
  split_once "." a = None → split_once "." b = None →
  split_once "." (join a b) = None.
Proof.
  intros Hb Ha Hdb. unfold join. rewrite Hb.
  destruct (bool_decide (a = "")); cbn [orb].
  { by apply split_once_app_none. }
  destruct (endswith "/" a).
  - by apply split_once_app_none.
  - rewrite <- string_app_assoc. apply split_once_app_none; [|done].
    by apply split_once_slash_dotless.
Qed.

(** One class after the validation cell, from the entries of its two
    directories to their listings. *)
Lemma class_after_split (data_folder c : string) (D : path) (w' : world)
    (es es' eV : gmap string node) (before : list string) :
  let train_folder := join data_folder "train" in
  let validation_folder := join data_folder "validation" in
  let L := last_n n_validation (sorted (names readdir_order es)) in
  join_base cwd data_folder = Some D →
  valid_name c = true →
  names readdir_order es ≡ₚ before →
  n_validation ≤ length before →
  node_at (D ++ ["train"; c]) (root w') = Some (Dir es') →
  node_at (D ++ ["validation"; c]) (root w') = Some (Dir eV) →
  (∀ k, es' !! k = if decide (k ∈ L) then None else es !! k) →
  (∀ k, eV !! k = if decide (k ∈ L) then es !! k else None) →
  ∃ validation train,
    listdir cwd readdir_order (join validation_folder c) w' = Ok validation w'
    ∧ listdir cwd readdir_order (join train_folder c) w' = Ok train w'
    ∧ validation ≡ₚ last_n n_validation (sorted before)
    ∧ length validation = n_validation
    ∧ (∀ x, x ∈ validation → x ∉ train)
    ∧ train ++ validation ≡ₚ before
    ∧ (∀ x y, x ∈ train → y ∈ validation → String.le x y ∧ x ≠ y)
    ∧ (∀ x, x ∈ validation →
         x ∈ names readdir_order es
         ∧ stat cwd (join (join validation_folder c) x) (root w') = es !! x
         ∧ stat cwd (join (join train_folder c) x) (root w') = None).
Proof.
  intros train_folder validation_folder L HD Hc Hbefore Hlen HT' HV' Hes' HeV.
  assert (n_validation ≤ length (names readdir_order es)) as Hlen'.
  { by rewrite Hbefore. }
  destruct (class_listings readdir_order readdir_order_perm es es' eV Hlen' Hes' HeV)
    as (H1 & H2 & H3 & H4 & H5).
  exists (names readdir_order eV), (names readdir_order es').
  split; [|split; [|split; [|split; [done|split; [done|split; [|split; [done|]]]]]]].
  - apply (listdir_dir _ _ _ (D ++ ["validation"; c])); [|done].
    subst validation_folder. rewrite resolve_join2 by done. by rewrite HD.
  - apply (listdir_dir _ _ _ (D ++ ["train"; c])); [|done].
    subst train_folder. rewrite resolve_join2 by done. by rewrite HD.
  - rewrite H1. by rewrite (sorted_of_perm _ _ Hbefore).
  - by rewrite H4.
  - intros x Hx.
    pose proof Hx as Hx'.
    apply (elem_of_names _ readdir_order_perm) in Hx' as [Hvx [nd Hnd']].
    rewrite H1 in Hx.
    assert (x ∈ names readdir_order es) as Hxes.
    { apply elem_of_last_n in Hx. by rewrite sorted_perm in Hx. }
    split; [done|].
    subst train_folder validation_folder.
    unfold stat. rewrite !resolve_join3 by done. rewrite HD. simpl.
    replace (D ++ ["validation"; c; x]) with ((D ++ ["validation"; c]) ++ [x])
      by (by rewrite <- app_assoc).
    replace (D ++ ["train"; c; x]) with ((D ++ ["train"; c]) ++ [x])
      by (by rewrite <- app_assoc).
    rewrite (node_at_snoc _ _ _ _ HV'), (node_at_snoc _ _ _ _ HT').
    rewrite Hes', HeV. by rewrite !decide_True by done.
Qed.

End SplitFacts.

Section TwoLayouts.

Import OS Organizer.

Context (cwd : path) (readdir_order : list string → list string).
Context (unzip : string → option (list (string * string))).
Hypothesis readdir_order_perm : ∀ l, readdir_order l ≡ₚ l.

Lemma filter_inhabited {A} (P : A → Prop) `{∀ x, Decision (P x)} (l : list A) :
  0 < length (filter P l) → ∃ x, x ∈ l ∧ P x.
Proof.
  destruct (filter P l) as [|x r] eqn:Hf; [simpl; lia|]. intros _.
  assert (x ∈ filter P l) as [? ?]%list_elem_of_filter by (rewrite Hf; by left).
  by exists x.
Qed.

(** The first two cells in either layout: they end with the images of
    the two classes in the class folders, and every image is the entry
    it was at its path before. *)
Lemma cells_before_validation (l : layout) (data_folder : string) (w : world)
    (listing dogs cats : list string) :
  let train_folder := join data_folder "train" in
  let validation_folder := join data_folder "validation" in
  exists_ cwd validation_folder w = Ok false w →
  listdir cwd readdir_order train_folder w = Ok listing w →
  in_layout l data_folder listing →
  images_of cwd readdir_order l train_folder "dog" w = Ok dogs w →
  images_of cwd readdir_order l train_folder "cat" w = Ok cats w →
  0 < length dogs →
  0 < length cats →
  ∃ D w1 es_dog es_cat,
    join_base cwd data_folder = Some D
    ∧ extract_train cwd unzip data_folder w = Ok () w
    ∧ rearrange_folders cwd readdir_order train_folder w = Ok () w1
    ∧ node_at (D ++ ["validation"]) (root w1) = None
    ∧ node_at (D ++ ["train"; "dog"]) (root w1) = Some (Dir es_dog)
    ∧ node_at (D ++ ["train"; "cat"]) (root w1) = Some (Dir es_cat)
    ∧ names readdir_order es_dog ≡ₚ dogs
    ∧ names readdir_order es_cat ≡ₚ cats
    ∧ ∀ c es, (c, es) ∈ [("dog", es_dog); ("cat", es_cat)] →
        ∀ x, x ∈ names readdir_order es →
          es !! x = stat cwd (image_path l train_folder c x) (root w).
Proof.
  intros train_folder validation_folder Hval Hlist Hlay Hdogs Hcats Hnd Hnc.
  pose proof Hlist as Hlist'.
  apply listdir_inv in Hlist' as (_ & pt & es_t & Hpt & Ht & Hnames).
  subst train_folder validation_folder.
  pose proof Hpt as Hpt'. rewrite resolve_join_valid in Hpt' by done.
  destruct (join_base cwd data_folder) as [D|] eqn:HD; [|done].
  injection Hpt' as <-.
  assert (resolve cwd (join data_folder "validation") = Some (D ++ ["validation"])) as HVs.
  { rewrite resolve_join_valid by done. by rewrite HD. }
  assert (node_at (D ++ ["validation"]) (root w) = None) as HV.
  { unfold exists_ in Hval. rewrite (stat_dir _ _ _ _ HVs) in Hval.
    injection Hval as Hval. apply bool_decide_eq_false in Hval.
    destruct (node_at _ _); [|done]. by destruct Hval. }
  assert (extract_train cwd unzip data_folder w = Ok () w) as Hextract.
  { unfold extract_train. unfold mbind, M_bind.
    unfold exists_ at 1. rewrite (stat_dir _ _ _ _ Hpt), Ht.
    by rewrite bool_decide_eq_true_2. }
  exists D. destruct l; cbn [in_layout images_of image_path] in *.
  - (* flat *)
    destruct Hlay as (Habs & Hdot & Hflat).
    unfold mbind, M_bind in Hdogs, Hcats. rewrite Hlist in Hdogs, Hcats.
    injection Hdogs as <-. injection Hcats as <-. subst listing.
    assert (data_folder ≠ "") as Hne by (by intros ->).
    assert (startswith "/" (join data_folder "train") = true) as Habs'.
    { by rewrite startswith_join. }
    assert (split_once "." (join data_folder "train") = None) as Hdot'.
    { by apply join_dotless. }
    assert (∀ fn, fn ∈ names readdir_order es_t →
                  endswith ".jpg" fn = true ∧ startswith "." fn = false) as Hflat'.
    { by apply Forall_forall. }
    destruct (rearrange_folders_flat cwd readdir_order readdir_order_perm
                _ _ es_t Hpt Habs' Hdot' Hflat' w Ht)
      as (w1 & now & Hrun & Hnow & Hre & Hframe).
    apply filter_inhabited in Hnd, Hnc.
    destruct (class_folder_listing readdir_order readdir_order_perm
                es_t Hflat' now "dog" Hre eq_refl Hnd)
      as (m_dog & Hmd & Hpd & Hsd).
    destruct (class_folder_listing readdir_order readdir_order_perm
                es_t Hflat' now "cat" Hre eq_refl Hnc)
      as (m_cat & Hmc & Hpc & Hsc).
    exists w1, m_dog, m_cat.
    split; [done|]. split; [done|]. split; [done|]. split.
    { rewrite Hframe; [done|]. by rewrite diverge_app. }
    split.
    { replace (D ++ ["train"; "dog"]) with ((D ++ ["train"]) ++ ["dog"])
        by (by rewrite <- app_assoc).
      by rewrite (node_at_snoc _ _ _ _ Hnow). }
    split.
    { replace (D ++ ["train"; "cat"]) with ((D ++ ["train"]) ++ ["cat"])
        by (by rewrite <- app_assoc).
      by rewrite (node_at_snoc _ _ _ _ Hnow). }
    split; [done|]. split; [done|].
    intros c es Hin x Hx.
    assert (valid_name x = true) as Hvx.
    { by apply (elem_of_names _ readdir_order_perm) in Hx as [? _]. }
    unfold stat. rewrite resolve_join2 by done. rewrite HD. simpl.
    replace (D ++ ["train"; x]) with ((D ++ ["train"]) ++ [x])
      by (by rewrite <- app_assoc).
    rewrite (node_at_snoc _ _ _ _ Ht).
    apply elem_of_cons in Hin as [[= -> ->]|Hin]; [by apply Hsd|].
    apply elem_of_cons in Hin as [[= -> ->]|Hin%elem_of_nil]; [by apply Hsc|done].
  - (* arranged *)
    apply listdir_inv in Hdogs as (_ & pd & es_dog & Hpd & Hdog & ->).
    apply listdir_inv in Hcats as (_ & pc & es_cat & Hpc & Hcat & ->).
    rewrite resolve_join2 in Hpd, Hpc by done. rewrite HD in Hpd, Hpc.
    injection Hpd as <-. injection Hpc as <-.
    exists w, es_dog, es_cat.
    split; [done|]. split; [done|]. split.
    { unfold rearrange_folders. unfold mbind, M_bind. rewrite Hlist.
      rewrite (filter_none _ listing).
      2:{ eapply Forall_impl; [exact Hlay|]. intros x Hx. by rewrite Hx. }
      cbn [fmap list_fmap length]. by rewrite decide_True. }
    do 5 (split; [done|]).
    intros c es Hin x Hx.
    assert (valid_name x = true) as Hvx.
    { by apply (elem_of_names _ readdir_order_perm) in Hx as [? _]. }
    assert (valid_name c = true ∧ node_at (D ++ ["train"; c]) (root w) = Some (Dir es))
      as [Hc Hes].
    { apply elem_of_cons in Hin as [[= -> ->]|Hin]; [done|].
      apply elem_of_cons in Hin as [[= -> ->]|Hin%elem_of_nil]; done. }
    unfold stat. rewrite resolve_join3 by done. rewrite HD. simpl.
    replace (D ++ ["train"; c; x]) with ((D ++ ["train"; c]) ++ [x])
      by (by rewrite <- app_assoc).
    by rewrite (node_at_snoc _ _ _ _ Hes).
Qed.

End TwoLayouts.

(** C2, as the code has it: on a data directory that has no validation
    directory yet, whose train directory holds at least 500 images of each
    of [dog] and [cat] in one of the two layouts (flat files
    [class.N.jpg] below an absolute data directory without a dot in its
    name, or arranged in class folders with no [.jpg] name left in the train
    directory), the organizer runs without error, and afterwards, for each
    of the two classes, the validation directory lists exactly 500 names,
    the last 500 of the class in sorted order; none of them is listed in
    the train directory of the class any more, the two listings together
    are the names the class had, every name left in train sorts before
    every name in validation, and each moved entry is the entry that was
    at the path of that image before the run. *)
Theorem validation_split (cwd : OS.path)
    (readdir_order : list string → list string)
    (unzip : string → option (list (string * string)))
    (l : Organizer.layout)
    (data_folder : string) (w : OS.world) (listing dogs cats : list string) :
  let train_folder := OS.join data_folder "train" in
  let validation_folder := OS.join data_folder "validation" in
  (∀ l, readdir_order l ≡ₚ l) →
  OS.exists_ cwd validation_folder w = OS.Ok false w →
  OS.listdir cwd readdir_order train_folder w = OS.Ok listing w →
  Organizer.in_layout l data_folder listing →
  Organizer.images_of cwd readdir_order l train_folder "dog" w = OS.Ok dogs w →
  Organizer.images_of cwd readdir_order l train_folder "cat" w = OS.Ok cats w →
  Organizer.n_validation ≤ length dogs →
  Organizer.n_validation ≤ length cats →
  ∃ w', Organizer.organize cwd readdir_order unzip data_folder w = OS.Ok () w'
    ∧ ∀ class_name before, (class_name, before) ∈ [("dog", dogs); ("cat", cats)] →
        ∃ validation train,
          OS.listdir cwd readdir_order (OS.join validation_folder class_name) w'
            = OS.Ok validation w'
          ∧ OS.listdir cwd readdir_order (OS.join train_folder class_name) w'
            = OS.Ok train w'
          ∧ validation ≡ₚ Organizer.last_n Organizer.n_validation (Organizer.sorted before)
          ∧ length validation = 500
          ∧ (∀ x, x ∈ validation → x ∉ train)
          ∧ train ++ validation ≡ₚ before
          ∧ (∀ x y, x ∈ train → y ∈ validation → String.le x y ∧ x ≠ y)
          ∧ (∀ x, x ∈ validation →
               is_Some (OS.stat cwd (OS.join (OS.join validation_folder class_name) x) (OS.root w'))
               ∧ OS.stat cwd (OS.join (OS.join validation_folder class_name) x) (OS.root w')
                 = OS.stat cwd (Organizer.image_path l train_folder class_name x) (OS.root w)
               ∧ OS.stat cwd (OS.join (OS.join train_folder class_name) x) (OS.root w') = None).
Proof.
  intros train_folder validation_folder Hperm Hval Hlist Hlay Hdogs Hcats Hnd Hnc.
  destruct (cells_before_validation cwd readdir_order unzip Hperm l data_folder w
              listing dogs cats Hval Hlist Hlay Hdogs Hcats)
    as (D & w1 & es_dog & es_cat & HD & Hextract & Hrearrange & HV & Hdog & Hcat
        & Hpd & Hpc & Hsame).
  { unfold Organizer.n_validation in Hnd. lia. }
  { unfold Organizer.n_validation in Hnc. lia. }
  destruct (build_validation_fresh cwd readdir_order Hperm data_folder D w1
              es_dog es_cat HD HV Hdog Hcat) as (w' & Hbuild & Hclasses).
  exists w'. split.
  - unfold Organizer.organize. unfold mbind, OS.M_bind.
    rewrite Hextract. subst train_folder. by rewrite Hrearrange.
  - intros c before Hin.
    assert (∃ es, (c, es) ∈ [("dog", es_dog); ("cat", es_cat)]
                  ∧ OS.names readdir_order es ≡ₚ before
                  ∧ OS.valid_name c = true
                  ∧ Organizer.n_validation ≤ length before) as (es & Hes & Hp & Hc & Hlen).
    { apply elem_of_cons in Hin as [[= -> ->]|Hin].
      - exists es_dog. split; [by left|done].
      - apply elem_of_cons in Hin as [[= -> ->]|Hin%elem_of_nil]; [|done].
        exists es_cat. split; [right; by left|done]. }
    destruct (Hclasses c es Hes) as (es' & eV & HT' & HV' & Hes' & HeV).
    destruct (class_after_split cwd readdir_order Hperm data_folder c D w' es es' eV
                before HD Hc Hp Hlen HT' HV' Hes' HeV)
      as (validation & train & H1 & H2 & H3 & H4 & H5 & H6 & H7 & H8).
    exists validation, train. do 7 (split; [done|]).
    intros x Hx. destruct (H8 x Hx) as (Hxes & Hv & Ht).
    subst train_folder validation_folder.
    rewrite Hv, Ht, <- (Hsame c es Hes x Hxes).
    split; [|done].
    by apply (elem_of_names _ Hperm) in Hxes as [_ ?].
Qed.
Lemma validation_split_witness :
  ∃ w', Organizer.organize [] in_stored_order no_archive "/data" extracted_world
        = OS.Ok () w'
    ∧ ∃ validation,
        OS.listdir [] in_stored_order "/data/validation/dog" w' = OS.Ok validation w'
        ∧ length validation = 500.
Proof.
  pose (listing := OS.names in_stored_order extracted_images).
  destruct (validation_split [] in_stored_order no_archive Organizer.Flat
              "/data" extracted_world listing
              (filter (λ fn, Organizer.class_of fn = Some "dog") listing)
              (filter (λ fn, Organizer.class_of fn = Some "cat") listing))
    as (w' & Hrun & Hclasses).
  - intros l. reflexivity.
  - reflexivity.
  - reflexivity.
  - split; [reflexivity|]. split; [reflexivity|].
    apply (bool_decide_unpack _). vm_compute. exact I.
  - reflexivity.
  - reflexivity.
  - vm_compute. lia.
  - vm_compute. lia.
  - exists w'. split; [exact Hrun|].
    destruct (Hclasses "dog" _ ltac:(left; reflexivity))
      as (validation & train & Hv & _ & _ & Hlen & _).
    exists validation. split; [exact Hv|exact Hlen].
Defined.


(** C2, as stated, fails when a validation directory exists before the
    run: with 502 dog and 501 cat images in the train folders and an empty
    validation directory, the organizer skips the validation cell, and
    afterwards the validation directory lists nothing. *)
Lemma validation_split_skipped :
  (∃ dogs cats,
     OS.listdir [] in_stored_order "/data/train/dog" with_empty_validation
       = OS.Ok dogs with_empty_validation
     ∧ OS.listdir [] in_stored_order "/data/train/cat" with_empty_validation
       = OS.Ok cats with_empty_validation
     ∧ Organizer.n_validation ≤ length dogs
     ∧ Organizer.n_validation ≤ length cats)
  ∧ Organizer.organize [] in_stored_order no_archive "/data" with_empty_validation
    = OS.Ok () with_empty_validation
  ∧ OS.listdir [] in_stored_order "/data/validation" with_empty_validation
    = OS.Ok [] with_empty_validation
  ∧ ¬ ∃ validation,
        OS.listdir [] in_stored_order "/data/validation/dog" with_empty_validation
          = OS.Ok validation with_empty_validation
        ∧ length validation = 500.
Proof.
  split; [|split; [|split]].
  - eexists _, _. split; [reflexivity|]. split; [reflexivity|].
    split; vm_compute; lia.
  - apply organize_organized. split; [reflexivity|]. split; [|reflexivity].
    eexists. split; [reflexivity|]. vm_compute. repeat constructor.
  - reflexivity.
  - intros (validation & Hv & _). discriminate Hv.
Qed.

Lemma organize_idempotent_witness :
  ∃ w', Organizer.organize [] in_stored_order no_archive
          "/home/u/data/dogs-vs-cats" (home_with "u") = OS.Ok () w'
    ∧ Organizer.organize [] in_stored_order no_archive
          "/home/u/data/dogs-vs-cats" w' = OS.Ok () w'.
Proof.
  eexists. split.
  - vm_compute. reflexivity.
  - eapply (proj2 (organize_idempotent [] in_stored_order no_archive
                     "/home/u/data/dogs-vs-cats" (home_with "u") _ _ _)).
    Unshelve.
    + intros l. reflexivity.
    + vm_compute. reflexivity.
Defined.

(** * Part III: further properties of the embedded code *)

(** ** The validation loop *)

Section EvaluatorOutcomes.

Import Evaluator.

Context {Image : Type} (predict : Image → Q).



Lemma whole_batches_length (dir : list (sample Image)) (B : nat) :
  B ≠ 0 →
  length (take (length dir `div` B * B) dir) = length dir `div` B * B
  ∧ length (drop (length dir `div` B * B) dir) = length dir `mod` B.
Proof.
  intros HB. rewrite length_take, length_drop.
  pose proof (Nat.div_mod_eq (length dir) B). lia.
Qed.

End EvaluatorOutcomes.

(** The loop scores the whole batches and nothing else: the reported
    value is the mean over the first [n // batch_size] batches, the last
    [n % batch_size] files are never predicted, and replacing them by any
    other files changes nothing of the result. *)
Theorem validation_accuracy_skips_partial_batch {Image : Type} (predict : Image → Q)
    (dir : list (Evaluator.sample Image)) (B : nat) :
  B ≠ 0 →
  let whole := take (length dir `div` B * B) dir in
  let rest := drop (length dir `div` B * B) dir in
  dir = whole ++ rest
  ∧ length rest = length dir `mod` B
  ∧ Evaluator.validation_accuracy predict dir B
    = Evaluator.np_mean (Evaluator.is_correct predict <$> whole)
  ∧ ∀ rest', length rest' = length rest →
      Evaluator.validation_accuracy predict (whole ++ rest') B
      = Evaluator.validation_accuracy predict dir B.
Proof.
  intros HB whole rest.
  destruct (whole_batches_length dir B HB) as [Hw Hr].
  split; [symmetry; apply take_drop|]. split; [done|]. split.
  - by apply validation_accuracy_whole_batches.
  - intros rest' Hlen.
    rewrite !validation_accuracy_whole_batches by done.
    assert (length (whole ++ rest') = length dir) as ->.
    { rewrite length_app, Hlen. fold rest in Hr. subst whole. rewrite Hw, Hr.
      pose proof (Nat.div_mod_eq (length dir) B). lia. }
    fold whole. do 2 f_equal.
    rewrite take_app_le by (subst whole; lia).
    apply take_ge. subst whole. lia.
Qed.

Lemma validation_accuracy_skips_partial_batch_witness :
  Evaluator.validation_accuracy five_predictions five_images 2
  = Evaluator.np_mean (Evaluator.is_correct five_predictions <$> take 4 five_images).
Proof.
  destruct (validation_accuracy_skips_partial_batch five_predictions five_images 2)
    as (_ & _ & H & _).
  - lia.
  - exact H.
Defined.

(** When the batch size divides the number of files (as 50 divides 1000
    in the notebook), the loop runs over the whole directory: [all_correct]
    ends as the list of the correctness indicators of every file, one per
    file and in the order of the directory, and the value reported is
    [np.mean] of that list. *)
Theorem validation_accuracy_full_split {Image : Type} (predict : Image → Q)
    (dir : list (Evaluator.sample Image)) (B : nat) :
  B ≠ 0 →
  length dir `mod` B = 0 →
  Evaluator.loop predict (length dir `div` B) (Evaluator.flow_from_directory dir B) []
  = Some (Evaluator.is_correct predict <$> dir)
  ∧ Evaluator.validation_accuracy predict dir B
    = Evaluator.np_mean (Evaluator.is_correct predict <$> dir).
Proof.
  intros HB Hdiv. split; [|by apply validation_accuracy_divisible].
  assert (length dir `div` B * B = length dir) as Hall.
  { pose proof (Nat.div_mod_eq (length dir) B). lia. }
  rewrite (loop_batches predict _ _ 0 []).
  - cbn [Evaluator.flow_batch_size Evaluator.samples Evaluator.flow_from_directory].
    rewrite Hall. simpl. by rewrite firstn_all.
  - done.
  - simpl. lia.
  - unfold Evaluator.n. simpl. lia.
Qed.

Lemma validation_accuracy_full_split_witness :
  Evaluator.loop five_predictions 1 (Evaluator.flow_from_directory five_images 5) []
  = Some [true; true; true; true; false]
  ∧ Evaluator.validation_accuracy five_predictions five_images 5
    = Evaluator.np_mean [true; true; true; true; false].
Proof.
  apply (validation_accuracy_full_split five_predictions five_images 5).
  - lia.
  - reflexivity.
Defined.


(** ** [preprocess_function] on arrays of any rank *)

(** Whatever the rank of [x], the normalization is never handed a
    3-dimensional array, and it sees the elements of [x] as they are; an
    array that does not have exactly 3 dimensions (a 2-dimensional
    grayscale image, for instance) gets no batch axis and is passed on
    unchanged; the reshaping applied twice is the reshaping applied
    once. *)
Theorem preprocess_function_any_rank
    (preprocess_input : Preprocessing.ndarray → Preprocessing.ndarray)
    (x : Preprocessing.ndarray) :
  Preprocessing.preprocess_function preprocess_input x
    = preprocess_input (Preprocessing.x_at_return x)
  ∧ Preprocessing.ndim (Preprocessing.x_at_return x) ≠ 3
  ∧ Preprocessing.data (Preprocessing.x_at_return x) = Preprocessing.data x
  ∧ Preprocessing.x_at_return (Preprocessing.x_at_return x) = Preprocessing.x_at_return x
  ∧ (Preprocessing.ndim x ≠ 3 →
       Preprocessing.preprocess_function preprocess_input x = preprocess_input x).
Proof.
  unfold Preprocessing.preprocess_function, Preprocessing.x_at_return.
  destruct (decide (Preprocessing.ndim x = 3)) as [H3|H3].
  - assert (Preprocessing.ndim (Preprocessing.newaxis x) = 4) as H4.
    { unfold Preprocessing.ndim in *. simpl. by rewrite H3. }
    rewrite H4. repeat split; try done.
    all: try (by rewrite decide_False by (rewrite ?H4; lia)).
  - repeat split; try done.
    all: try (by rewrite decide_False).
Qed.

(** ** The list of residual blocks and the freezing loop *)

Section FineTunerFacts.

Import FineTuner.

Local Abbreviation is_block :=
  (λ il : nat * layer,
     if decide (class il.2 = Add) then Some (il.1, output_shape il.2) else None).

Lemma residual_blocks_from (k : nat) (layers : list layer) :
  ∀ i s, (i, s) ∈ omap is_block (imap (λ j l, (k + j, l)) layers) ↔
         ∃ j l, i = k + j ∧ layers !! j = Some l ∧ class l = Add ∧ output_shape l = s.
Proof.
  intros i s. rewrite list_elem_of_omap. split.
  - intros ([i' l] & Hin & Hb). apply elem_of_lookup_imap in Hin as (j & l' & [= -> ->] & Hl).
    cbn [fst snd] in Hb.
    destruct (decide (class l' = Add)) as [Hc|]; [|done]. injection Hb as <- <-.
    by exists j, l'.
  - intros (j & l & -> & Hl & Hc & <-). exists (k + j, l). split.
    + apply elem_of_lookup_imap. by exists j, l.
    + cbn [fst snd]. by rewrite decide_True.
Qed.

Lemma residual_blocks_sorted_from (layers : list layer) :
  ∀ k, StronglySorted lt (fst <$> omap is_block (imap (λ j l, (k + j, l)) layers))
       ∧ Forall (λ i, k ≤ i) (fst <$> omap is_block (imap (λ j l, (k + j, l)) layers)).
Proof.
  induction layers as [|l layers IH]; intros k.
  - split; constructor.
  - cbn [imap]. destruct (IH (S k)) as [Hs Hf].
    assert (imap ((λ j l0, (k + j, l0)) ∘ S) layers = imap (λ j l0, (S k + j, l0)) layers)
      as Heq.
    { apply imap_ext. intros j x _. simpl. f_equal. lia. }
    rewrite Heq. cbn [omap list_omap fst snd].
    destruct (decide (class l = Add)).
    + rewrite !fmap_cons. cbn [fst]. rewrite Nat.add_0_r. split.
      * constructor; [done|]. eapply Forall_impl; [exact Hf|]. intros; simpl in *; lia.
      * constructor; [done|]. eapply Forall_impl; [exact Hf|]. intros; simpl in *; lia.
    + split; [done|]. eapply Forall_impl; [exact Hf|]. intros; simpl in *; lia.
Qed.

Lemma imap_imap {A B C} (f : nat → B → C) (g : nat → A → B) (l : list A) :
  imap f (imap g l) = imap (λ i x, f i (g i x)) l.
Proof.
  revert f g. induction l as [|x l IH]; intros f g; [done|].
  cbn [imap]. f_equal. apply IH.
Qed.

Lemma omap_imap_ext {A B C} (f g : nat → A → B) (h : B → option C) (l : list A) :
  (∀ i x, h (f i x) = h (g i x)) → omap h (imap f l) = omap h (imap g l).
Proof.
  revert f g. induction l as [|x l IH]; intros f g Hfg; [done|].
  cbn [imap omap list_omap]. rewrite Hfg.
  rewrite (IH (f ∘ S) (g ∘ S)) by (intros; apply Hfg). done.
Qed.

Lemma imap_from_zero (layers : list layer) :
  imap pair layers = imap (λ j l, (0 + j, l)) layers.
Proof. by apply imap_ext. Qed.

Lemma count_trainable_from (layers : list layer) :
  ∀ k, length (filter (λ l, trainable l = true)
                 (imap (λ i l, Layer (class l) (output_shape l) (weights l)
                                 (bool_decide (151 ≤ k + i))) layers))
       = length layers - (151 - k).
Proof.
  induction layers as [|l layers IH]; intros k; [done|].
  cbn [imap].
  assert (imap ((λ i l0, Layer (class l0) (output_shape l0) (weights l0)
                          (bool_decide (151 ≤ k + i))) ∘ S) layers
          = imap (λ i l0, Layer (class l0) (output_shape l0) (weights l0)
                            (bool_decide (151 ≤ S k + i))) layers) as Heq.
  { apply imap_ext. intros j x _. simpl. do 2 f_equal. apply bool_decide_ext. lia. }
  rewrite Heq. rewrite Nat.add_0_r.
  destruct (decide (151 ≤ k)) as [Hk|Hk].
  - rewrite filter_cons_True by (simpl; by apply bool_decide_eq_true).
    cbn [length]. rewrite IH. lia.
  - rewrite filter_cons_False.
    2:{ simpl. rewrite bool_decide_eq_false_2 by done. done. }
    cbn [length]. rewrite IH. lia.
Qed.

End FineTunerFacts.

(** The listing of the residual blocks names exactly the positions of the
    [Add] layers, each with the output shape of its layer, in ascending
    order of position; and it is the same before and after the freezing
    loop. *)
Theorem residual_blocks_positions (layers : list FineTuner.layer) :
  (∀ i s, (i, s) ∈ FineTuner.residual_blocks layers ↔
          ∃ l, layers !! i = Some l
               ∧ FineTuner.class l = FineTuner.Add
               ∧ FineTuner.output_shape l = s)
  ∧ StronglySorted lt (fst <$> FineTuner.residual_blocks layers)
  ∧ FineTuner.residual_blocks (FineTuner.set_trainable layers)
    = FineTuner.residual_blocks layers.
Proof.
  unfold FineTuner.residual_blocks. split; [|split].
  - intros i s. rewrite imap_from_zero, residual_blocks_from. split.
    + intros (j & l & -> & ?). by exists l.
    + intros (l & ?). by exists i, l.
  - rewrite imap_from_zero. apply residual_blocks_sorted_from.
  - unfold FineTuner.set_trainable. rewrite imap_imap.
    by apply omap_imap_ext.
Qed.

(** The freezing loop as a whole: the flags it leaves do not depend on
    the flags the layers had, so running it again changes nothing; the
    number of layers left trainable is the number of layers from position
    151 on, and a model of at most 151 layers ends with every layer
    frozen. *)
Theorem set_trainable_overrides_flags (layers : list FineTuner.layer) :
  (∀ flags : nat → bool,
     FineTuner.set_trainable
       (imap (λ i l, FineTuner.Layer (FineTuner.class l) (FineTuner.output_shape l)
                       (FineTuner.weights l) (flags i)) layers)
     = FineTuner.set_trainable layers)
  ∧ FineTuner.set_trainable (FineTuner.set_trainable layers)
    = FineTuner.set_trainable layers
  ∧ length (filter (λ l, FineTuner.trainable l = true) (FineTuner.set_trainable layers))
    = length layers - 151
  ∧ (length layers ≤ 151 →
     Forall (λ l, FineTuner.trainable l = false) (FineTuner.set_trainable layers)).
Proof.
  split; [|split; [|split]].
  - intros flags. unfold FineTuner.set_trainable. by rewrite imap_imap.
  - unfold FineTuner.set_trainable. by rewrite imap_imap.
  - unfold FineTuner.set_trainable.
    rewrite <- (count_trainable_from layers 0) at 1. done.
  - intros Hlen. apply Forall_lookup. intros i l Hl.
    unfold FineTuner.set_trainable in Hl. rewrite list_lookup_imap in Hl.
    destruct (layers !! i) as [l0|] eqn:Hi; [|done]. injection Hl as <-.
    apply lookup_lt_Some in Hi. simpl. apply bool_decide_eq_false. lia.
Qed.

(** ** [rearrange_folders]: the exceptions it can raise *)

Section OnlyOSError.

Import OS Organizer.

Context (cwd : path) (readdir_order : list string → list string).

(** A statement that can only raise [OSError]. *)
Local Abbreviation raises_only_OSError m :=
  (∀ (w : world) (e : exception) (w' : world), m w = Raise e w' → e = OSError).

Lemma bind_raises_only_OSError {A B} (m : M A) (f : A → M B) :
  raises_only_OSError m → (∀ a, raises_only_OSError (f a)) →
  raises_only_OSError (m ≫= f).
Proof.
  intros Hm Hf w e w'. unfold mbind, M_bind.
  destruct (m w) as [a w1|e1 w1] eqn:Hmw.
  - apply Hf.
  - intros [= <- <-]. by eapply Hm.
Qed.

Lemma for_each_raises_only_OSError {A} (l : list A) (body : A → M unit) :
  (∀ x, x ∈ l → raises_only_OSError (body x)) →
  raises_only_OSError (for_each l body).
Proof.
  induction l as [|x l IH]; intros Hbody; [done|].
  cbn [for_each]. apply bind_raises_only_OSError.
  - apply Hbody. by left.
  - intros _. apply IH. intros y Hy. apply Hbody. by right.
Qed.

Lemma syscall_raises_only_OSError (ev : event) (change : node → option node) :
  raises_only_OSError (syscall ev change).
Proof.
  intros w e w'. unfold syscall. destruct (change (root w)); [done|]. by intros [= <- _].
Qed.

Lemma mkdir_raises_only_OSError (s : string) : raises_only_OSError (mkdir cwd s).
Proof.
  intros w e w'. unfold mkdir. destruct (resolve cwd s).
  - apply syscall_raises_only_OSError.
  - by intros [= <- _].
Qed.

Lemma rename_raises_only_OSError (a b : string) : raises_only_OSError (rename cwd a b).
Proof.
  intros w e w'. unfold rename.
  destruct (resolve cwd a); [destruct (resolve cwd b)|].
  - apply syscall_raises_only_OSError.
  - by intros [= <- _].
  - by intros [= <- _].
Qed.

Lemma move_raises_only_OSError (src dst : string) :
  raises_only_OSError (move cwd src dst).
Proof.
  unfold move. apply bind_raises_only_OSError; [done|]. intros [|].
  - apply bind_raises_only_OSError; [done|]. intros [|].
    + apply rename_raises_only_OSError.
    + apply bind_raises_only_OSError; [done|]. intros [|].
      * by intros w e w' [= <- _].
      * apply rename_raises_only_OSError.
  - apply rename_raises_only_OSError.
Qed.

Lemma endswith_join (suffix folder fn : string) :
  endswith suffix fn = true → endswith suffix (join folder fn) = true.
Proof.
  intros [front ->]%endswith_spec. apply endswith_spec. unfold join.
  destruct (startswith "/" (front +:+ suffix)); [by exists front|].
  destruct (bool_decide (folder = "") || endswith "/" folder).
  - exists (folder +:+ front). by rewrite string_app_assoc.
  - exists (folder +:+ "/" +:+ front). by rewrite !string_app_assoc.
Qed.

Lemma rearrange_one_raises_only_OSError (folder fn : string) :
  endswith ".jpg" fn = true →
  raises_only_OSError (rearrange_one cwd folder (join folder fn)).
Proof.
  intros Hjpg. unfold rearrange_one.
  destruct (endswith_jpg_has_dot _ (endswith_join ".jpg" folder fn Hjpg))
    as [[subfolder rest] ->].
  apply bind_raises_only_OSError; [done|]. intros present.
  apply bind_raises_only_OSError.
  - destruct present; cbn [negb]; [done|]. apply mkdir_raises_only_OSError.
  - intros _. apply move_raises_only_OSError.
Qed.

End OnlyOSError.

(** Once [os.listdir(folder)] has answered, the only exception
    [rearrange_folders] raises is an [OSError] of a file operation
    ([mkdir], [shutil.move]): the unpacking of [split('.', 1)] into two
    names never fails, since every path the loop splits ends in [.jpg]. *)
Theorem rearrange_folders_raises_only_OSError (cwd : OS.path)
    (readdir_order : list string → list string) (folder : string)
    (w : OS.world) (listing : list string) (e : OS.exception) (w' : OS.world) :
  OS.listdir cwd readdir_order folder w = OS.Ok listing w →
  Organizer.rearrange_folders cwd readdir_order folder w = OS.Raise e w' →
  e = OS.OSError.
Proof.
  intros Hlist. unfold Organizer.rearrange_folders.
  unfold mbind at 1, OS.M_bind at 1. rewrite Hlist.
  destruct (decide _); [done|].
  clear Hlist. revert w e w'.
  apply bind_raises_only_OSError; [done|]. intros _.
  apply for_each_raises_only_OSError. intros x Hx.
  apply list_elem_of_fmap in Hx as (fn & -> & Hfn).
  apply list_elem_of_filter in Hfn as [Hjpg _].
  by apply rearrange_one_raises_only_OSError.
Qed.

(** A train folder whose image is a hidden file: the listing is answered,
    the loop starts (its message is printed), and the move raises. *)
Lemma rearrange_folders_raises_only_OSError_witness :
  OS.listdir [] in_stored_order "/data/train" with_hidden_image
  = OS.Ok [".dog.0.jpg"] with_hidden_image
  ∧ ∃ e w',
      Organizer.rearrange_folders [] in_stored_order "/data/train" with_hidden_image
      = OS.Raise e w'
      ∧ length (OS.log w') = 1
      ∧ e = OS.OSError.
Proof.
  split; [reflexivity|].
  eexists _, _. split; [vm_compute; reflexivity|].
  match goal with
  | |- length (OS.log ?stopped) = 1 ∧ _ =>
      split; [reflexivity|];
      apply (rearrange_folders_raises_only_OSError [] in_stored_order "/data/train"
               with_hidden_image [".dog.0.jpg"] _ stopped eq_refl);
      vm_compute; reflexivity
  end.
Defined.

(** ** [rearrange_folders]: folders without images, and folders it cannot
    handle *)

Section NoImages.

Import OS Organizer.

Context (cwd : path) (readdir_order : list string → list string).

Lemma rearrange_folders_no_images (folder : string) (w : world) (listing : list string) :
  listdir cwd readdir_order folder w = Ok listing w →
  Forall (λ fn, endswith ".jpg" fn = false) listing →
  rearrange_folders cwd readdir_order folder w = Ok () w.
Proof.
  intros Hlist Hjpg. unfold rearrange_folders.
  unfold mbind, M_bind. rewrite Hlist.
  rewrite (filter_none _ listing).
  2:{ eapply Forall_impl; [exact Hjpg|]. intros x Hx. by rewrite Hx. }
  cbn [fmap list_fmap length]. by rewrite decide_True.
Qed.

End NoImages.

Section DottedFolder.

Import OS Organizer.

Lemma split_once_app_some (front rest head tail : string) :
  split_once "." front = Some (head, tail) →
  split_once "." (front +:+ rest) = Some (head, tail +:+ rest).
Proof.
  revert head. induction front as [|a front IH]; intros head; [done|].
  rewrite string_app_cons. cbn [split_once].
  destruct (Ascii.eqb a "."); [by intros [= <- <-]|].
  destruct (split_once "." front) as [[h t]|]; [|done].
  intros [= <- <-]. by rewrite (IH h eq_refl).
Qed.

End DottedFolder.

(** With a dot anywhere in the path of an absolute folder, the subfolder
    computed for an image is the text of the folder's path before its first
    dot, whatever the name of the image: every image of every class is
    moved to that one directory. *)
Theorem subfolder_of_dotted_folder (cwd : OS.path) (folder head tail fn : string) :
  OS.startswith "/" folder = true →
  OS.split_once "." folder = Some (head, tail) →
  OS.startswith "/" fn = false →
  (∃ rest, OS.split_once "." (OS.join folder fn) = Some (head, rest))
  ∧ OS.join folder head = head
  ∧ ∀ w, Organizer.rearrange_one cwd folder (OS.join folder fn) w
         = (OS.exists_ cwd head ≫= λ present : bool,
            (if negb present then OS.mkdir cwd head else mret ()) ;;
            OS.move cwd (OS.join folder fn) head) w.
Proof.
  intros Habs Hsplit Hfn.
  assert (folder ≠ "") as Hne by (by intros ->).
  assert (∃ rest, OS.split_once "." (OS.join folder fn) = Some (head, rest))
    as [rest Hrest].
  { unfold OS.join. rewrite Hfn. rewrite bool_decide_eq_false_2 by done. cbn [orb].
    destruct (OS.endswith "/" folder); eexists; by apply split_once_app_some. }
  assert (OS.join folder head = head) as Hhead.
  { apply join_absolute.
    apply split_once_head in Hsplit as [_ ->].
    destruct head as [|a head]; [by vm_compute in Habs|].
    by rewrite string_app_cons, !startswith_slash_cons in *. }
  split; [by exists rest|]. split; [done|].
  intros w. unfold Organizer.rearrange_one. by rewrite Hrest, Hhead.
Qed.

Lemma subfolder_of_dotted_folder_witness :
  ∃ rest,
    OS.split_once "." (OS.join "/home/john.doe/data/dogs-vs-cats/train" "dog.7.jpg")
    = Some ("/home/john", rest).
Proof.
  destruct (subfolder_of_dotted_folder [] "/home/john.doe/data/dogs-vs-cats/train"
              "/home/john" "doe/data/dogs-vs-cats/train" "dog.7.jpg")
    as (H & _); [reflexivity..|exact H].
Defined.

Section AwkwardNames.

Import OS Organizer.

Context (cwd : path) (readdir_order : list string → list string).
Hypothesis readdir_order_perm : ∀ l, readdir_order l ≡ₚ l.

Lemma update_entry_missing_parent (d : path) (name : string) f (t : node) :
  node_at d t = None → update_entry (d ++ [name]) f t = None.
Proof.
  revert t. induction d as [|c d IH]; intros t; [done|].
  destruct t as [|es]; [by destruct (d ++ [name])|].
  cbn [node_at]. intros Hd.
  assert (∃ c' q, d ++ [name] = c' :: q) as (c' & q & Heq).
  { destruct d; simpl; eauto. }
  cbn [app]. rewrite Heq, update_entry_cons.
  destruct (es !! c) as [m|]; [|done]. cbn [mbind option_bind] in *.
  by rewrite <- Heq, IH.
Qed.

Lemma rearrange_folders_first_raises (folder : string) (w : world)
    (listing : list string) (fn : string) (rest : list string) :
  listdir cwd readdir_order folder w = Ok listing w →
  filter (λ fn, endswith ".jpg" fn = true) listing = fn :: rest →
  (∀ w0, root w0 = root w →
         rearrange_one cwd folder (join folder fn) w0 = Raise OSError w0) →
  ∃ line, rearrange_folders cwd readdir_order folder w
          = Raise OSError (World (root w) (log w ++ [Print line])).
Proof.
  intros Hlist Hfilter Hone. unfold rearrange_folders.
  unfold mbind at 1, M_bind at 1. rewrite Hlist, Hfilter.
  rewrite fmap_cons. cbn [length]. rewrite decide_False by done.
  eexists. unfold mbind at 1, M_bind at 1. unfold print.
  cbn [for_each]. unfold mbind at 1, M_bind at 1.
  by rewrite Hone.
Qed.

(** The path of a hidden image splits at the dot that starts its name:
    the subfolder is the folder itself. *)
Lemma subfolder_of_hidden_image (folder fn : string) :
  startswith "/" folder = true →
  split_once "." folder = None →
  valid_name fn = true →
  startswith "." fn = true →
  ∃ h r, split_once "." (join folder fn) = Some (h, r)
         ∧ join folder h = h
         ∧ resolve cwd h = resolve cwd folder
         ∧ join h fn = join folder fn.
Proof.
  intros Habs Hdot Hv Hhidden.
  assert (folder ≠ "") as Hne by (by intros ->).
  pose proof (valid_name_relative fn Hv) as Hrel.
  destruct fn as [|a r]; [done|].
  assert (a = "."%char) as ->.
  { cbn [startswith] in Hhidden. apply andb_true_iff in Hhidden as [Ha _].
    symmetry. by apply Ascii.eqb_eq. }
  assert (split_once "." (String "." r) = Some ("", r)) as Hsplit by done.
  unfold join at 1. rewrite Hrel. rewrite bool_decide_eq_false_2 by done. cbn [orb].
  destruct (endswith "/" folder) eqn:Hslash.
  - exists folder, r. split.
    { rewrite (split_once_app_dotless folder _ "" r Hdot Hsplit).
      by rewrite string_app_nil_r. }
    split; [by apply join_absolute|]. done.
  - exists (folder +:+ "/"), r. split.
    { rewrite <- string_app_assoc.
      rewrite (split_once_app_dotless (folder +:+ "/") _ "" r
                 (split_once_slash_dotless _ Hdot) Hsplit).
      by rewrite string_app_nil_r. }
    assert (startswith "/" (folder +:+ "/") = true) as Habs'.
    { by rewrite startswith_slash_app. }
    split; [by apply join_absolute|]. split.
    + unfold resolve.
      rewrite (bool_decide_eq_false_2 (folder +:+ "/" = "")) by (by destruct folder).
      rewrite (bool_decide_eq_false_2 (folder = "")) by done.
      change (folder +:+ "/") with (folder +:+ "/" +:+ "").
      rewrite components_app_sep. change (components "") with (@nil string).
      rewrite app_nil_r. change (folder +:+ "/" +:+ "") with (folder +:+ "/").
      by rewrite Habs', Habs.
    + unfold join. rewrite Hrel.
      rewrite (bool_decide_eq_false_2 (folder +:+ "/" = "")) by (by destruct folder).
      rewrite (bool_decide_eq_false_2 (folder = "")) by done. cbn [orb].
      rewrite Hslash.
      assert (endswith "/" (folder +:+ "/") = true) as ->.
      { apply endswith_spec. by exists folder. }
      by rewrite string_app_assoc.
Qed.

Lemma rearrange_one_hidden (folder fn : string) (T : path) (w : world)
    (es : gmap string node) :
  startswith "/" folder = true →
  split_once "." folder = None →
  resolve cwd folder = Some T →
  node_at T (root w) = Some (Dir es) →
  valid_name fn = true →
  is_Some (es !! fn) →
  startswith "." fn = true →
  rearrange_one cwd folder (join folder fn) w = Raise OSError w.
Proof.
  intros Habs Hdot HT Hes Hv Hfn Hhidden.
  destruct (subfolder_of_hidden_image folder fn Habs Hdot Hv Hhidden)
    as (h & r & Hsplit & Hh & Hres & Hjoin).
  assert (resolve cwd (join folder fn) = Some (T ++ [fn])) as Hsrc.
  { rewrite resolve_join_valid by done. by rewrite (join_base_resolve _ _ _ HT). }
  assert (stat cwd h (root w) = Some (Dir es)) as Hstat_h.
  { unfold stat. rewrite Hres, HT. done. }
  assert (is_Some (stat cwd (join folder fn) (root w))) as Hstat_src.
  { unfold stat. rewrite Hsrc. cbn [mbind option_bind].
    by rewrite (node_at_snoc _ _ _ _ Hes). }
  unfold rearrange_one. rewrite Hsplit, Hh.
  unfold mbind at 1, M_bind at 1. unfold exists_ at 1. rewrite Hstat_h.
  rewrite bool_decide_eq_true_2 by done. cbn [negb].
  unfold mbind at 1, M_bind at 1. unfold mret at 1, M_ret at 1.
  unfold move, isdir, samefile, exists_, raise, mbind, M_bind.
  rewrite Hstat_h. cbn [is_dir].
  rewrite bool_decide_eq_false_2.
  2:{ rewrite Hres, HT, Hsrc. intros (_ & _ & [= Heq]). apply (f_equal length) in Heq.
      rewrite length_app in Heq. simpl in Heq. lia. }
  rewrite (basename_join_valid folder fn Hv), Hjoin.
  by rewrite bool_decide_eq_true_2.
Qed.

End AwkwardNames.

(** A [.jpg] file whose name starts with a dot stops the rearrangement:
    its path splits at that dot, the subfolder is the folder itself, and
    [shutil.move] refuses to move the file onto itself.  When it is the first
    image the loop meets, [rearrange_folders] raises having printed its
    message and moved nothing. *)
Theorem rearrange_folders_hidden_image (cwd : OS.path)
    (readdir_order : list string → list string) (folder : string) (w : OS.world)
    (listing : list string) (fn : string) (rest : list string) :
  (∀ l, readdir_order l ≡ₚ l) →
  OS.startswith "/" folder = true →
  OS.split_once "." folder = None →
  OS.listdir cwd readdir_order folder w = OS.Ok listing w →
  filter (λ fn, OS.endswith ".jpg" fn = true) listing = fn :: rest →
  OS.startswith "." fn = true →
  Organizer.rearrange_one cwd folder (OS.join folder fn) w = OS.Raise OS.OSError w
  ∧ ∃ line, Organizer.rearrange_folders cwd readdir_order folder w
            = OS.Raise OS.OSError (OS.World (OS.root w) (OS.log w ++ [OS.Print line])).
Proof.
  intros Hperm Habs Hdot Hlist Hfilter Hhidden.
  pose proof Hlist as Hlist'.
  apply listdir_inv in Hlist' as (_ & T & es & HT & Hes & ->).
  assert (fn ∈ OS.names readdir_order es) as Hin.
  { assert (fn ∈ fn :: rest) as Hfn by (by left).
    rewrite <- Hfilter in Hfn. by apply list_elem_of_filter in Hfn as [_ ?]. }
  apply (elem_of_names _ Hperm) in Hin as [Hv Hsome].
  assert (∀ w0, OS.root w0 = OS.root w →
            Organizer.rearrange_one cwd folder (OS.join folder fn) w0
            = OS.Raise OS.OSError w0) as Hone.
  { intros w0 Hroot. apply (rearrange_one_hidden cwd folder fn T w0 es); try done.
    by rewrite Hroot. }
  split; [by apply Hone|].
  by eapply rearrange_folders_first_raises.
Qed.

Lemma rearrange_folders_hidden_image_witness :
  ∃ line, Organizer.rearrange_folders [] in_stored_order "/data/train" with_hidden_image
          = OS.Raise OS.OSError (OS.World (OS.root with_hidden_image) [OS.Print line]).
Proof.
  destruct (rearrange_folders_hidden_image [] in_stored_order "/data/train"
              with_hidden_image [".dog.0.jpg"] ".dog.0.jpg" [])
    as (_ & H); [by intros l|reflexivity..|exact H].
Defined.

Section RelativeFolder.

Import OS Organizer.

Context (cwd : path) (readdir_order : list string → list string).
Hypothesis readdir_order_perm : ∀ l, readdir_order l ≡ₚ l.

Lemma subfolder_of_dotless (folder fn c r : string) :
  folder ≠ "" →
  split_once "." folder = None →
  valid_name fn = true →
  split_once "." fn = Some (c, r) →
  split_once "." (join folder fn) = Some (join folder c, r)
  ∧ startswith "/" c = false.
Proof.
  intros Hne Hdot Hfn Hsplit.
  assert (startswith "/" c = false) as Hrel.
  { pose proof (valid_name_relative fn Hfn) as Hr.
    destruct fn as [|a fn]; [done|].
    cbn [split_once] in Hsplit. destruct (Ascii.eqb a ".") eqn:Ha.
    - by injection Hsplit as <- <-.
    - destruct (split_once "." fn) as [[h t]|]; [|done].
      injection Hsplit as <- <-. by rewrite startswith_slash_cons in *. }
  split; [|done].
  unfold join. rewrite (valid_name_relative fn Hfn), Hrel.
  rewrite bool_decide_eq_false_2 by done. cbn [orb].
  destruct (endswith "/" folder).
  - by apply split_once_app_dotless.
  - rewrite <- !string_app_assoc.
    apply split_once_app_dotless; [|done]. by apply split_once_slash_dotless.
Qed.

(** Joined to itself, a relative folder names the folder of that path
    inside the folder. *)
Lemma resolve_nested (folder c : string) (T : path) :
  startswith "/" folder = false →
  resolve cwd folder = Some T →
  valid_name c = true →
  resolve cwd (join folder folder) = Some (T ++ components folder)
  ∧ resolve cwd (join folder (join folder c)) = Some ((T ++ components folder) ++ [c]).
Proof.
  intros Hrel HT Hc.
  pose proof (resolve_nonempty _ _ _ HT) as Hne.
  pose proof (valid_name_relative c Hc) as Hcrel.
  destruct (valid_name_spec c Hc) as (_ & _ & Hdd & _).
  unfold resolve in HT. rewrite bool_decide_eq_false_2 in HT by done.
  destruct (bool_decide_reflect (".." ∈ components folder)) as [|Hno]; [done|].
  rewrite Hrel in HT. injection HT as <-.
  assert (startswith "/" (join folder c) = false) as Hrel1.
  { by rewrite startswith_join. }
  split.
  - unfold resolve.
    rewrite bool_decide_eq_false_2 by (by apply join_nonempty).
    rewrite components_join, startswith_join, Hrel by done.
    rewrite bool_decide_eq_false_2 by (by intros [?|?]%elem_of_app).
    by rewrite app_assoc.
  - unfold resolve.
    rewrite bool_decide_eq_false_2 by (by apply join_nonempty).
    rewrite !components_join, startswith_join, Hrel by done.
    rewrite (valid_name_components c Hc).
    rewrite bool_decide_eq_false_2.
    2:{ intros [?|[?|Heq%list_elem_of_singleton]%elem_of_app]%elem_of_app; congruence. }
    by rewrite !app_assoc.
Qed.

Lemma rearrange_one_relative (folder fn : string) (T : path) (w : world) :
  startswith "/" folder = false →
  split_once "." folder = None →
  resolve cwd folder = Some T →
  stat cwd (join folder folder) (root w) = None →
  valid_name fn = true →
  endswith ".jpg" fn = true →
  startswith "." fn = false →
  ∃ c r, split_once "." fn = Some (c, r)
    ∧ split_once "." (join folder fn) = Some (join folder c, r)
    ∧ rearrange_one cwd folder (join folder fn) w = Raise OSError w.
Proof.
  intros Hrel Hdot HT Hnested Hv Hjpg Hhidden.
  pose proof (resolve_nonempty _ _ _ HT) as Hne.
  destruct (endswith_jpg_has_dot fn Hjpg) as [[c r] Hsplit].
  assert (valid_name c = true) as Hc.
  { apply (class_of_valid fn c); try done. unfold class_of. by rewrite Hsplit. }
  destruct (subfolder_of_dotless folder fn c r Hne Hdot Hv Hsplit) as [Hsub _].
  destruct (resolve_nested folder c T Hrel HT Hc) as [Hff Hffc].
  assert (node_at (T ++ components folder) (root w) = None) as Hmissing.
  { unfold stat in Hnested. by rewrite Hff in Hnested. }
  assert (stat cwd (join folder (join folder c)) (root w) = None) as Hstat.
  { unfold stat. rewrite Hffc. cbn [mbind option_bind].
    by rewrite node_at_app, Hmissing. }
  exists c, r. split; [done|]. split; [done|].
  unfold rearrange_one. rewrite Hsub.
  unfold mbind at 1, M_bind at 1. unfold exists_ at 1. rewrite Hstat.
  rewrite bool_decide_eq_false_2 by (by intros [? ?]). cbn [negb].
  unfold mbind at 1, M_bind at 1. unfold mkdir, syscall. rewrite Hffc.
  unfold mkdir_at. by rewrite update_entry_missing_parent.
Qed.

End RelativeFolder.

(** Given a relative path, [rearrange_folders] looks for the class
    folders at the folder's path repeated inside the folder
    ([data/train/data/train/dog] for [data/train]): the relative subfolder
    that the split returns is joined to the folder once more.  Unless such
    a directory exists the first image makes [os.mkdir] fail, and the
    function raises having printed its message and moved nothing. *)
Theorem rearrange_folders_relative_folder (cwd : OS.path)
    (readdir_order : list string → list string) (folder : string) (w : OS.world)
    (listing : list string) (fn : string) (rest : list string) :
  (∀ l, readdir_order l ≡ₚ l) →
  OS.startswith "/" folder = false →
  OS.split_once "." folder = None →
  OS.listdir cwd readdir_order folder w = OS.Ok listing w →
  filter (λ fn, OS.endswith ".jpg" fn = true) listing = fn :: rest →
  OS.startswith "." fn = false →
  OS.stat cwd (OS.join folder folder) (OS.root w) = None →
  (∃ class_name r,
     OS.split_once "." fn = Some (class_name, r)
     ∧ OS.split_once "." (OS.join folder fn) = Some (OS.join folder class_name, r)
     ∧ OS.resolve cwd (OS.join folder (OS.join folder class_name))
       = (λ T, (T ++ OS.components folder) ++ [class_name]) <$> OS.resolve cwd folder)
  ∧ ∃ line, Organizer.rearrange_folders cwd readdir_order folder w
            = OS.Raise OS.OSError (OS.World (OS.root w) (OS.log w ++ [OS.Print line])).
Proof.
  intros Hperm Hrel Hdot Hlist Hfilter Hhidden Hnested.
  pose proof Hlist as Hlist'.
  apply listdir_inv in Hlist' as (_ & T & es & HT & Hes & ->).
  assert (fn ∈ filter (λ fn, OS.endswith ".jpg" fn = true) (OS.names readdir_order es))
    as [Hjpg Hin]%list_elem_of_filter.
  { rewrite Hfilter. by left. }
  apply (elem_of_names _ Hperm) in Hin as [Hv Hsome].
  split.
  - destruct (rearrange_one_relative cwd folder fn T w Hrel Hdot HT Hnested Hv Hjpg Hhidden)
      as (c & r & Hsplit & Hsub & _).
    exists c, r. split; [done|]. split; [done|].
    assert (OS.valid_name c = true) as Hc.
    { apply (class_of_valid fn c); try done. unfold Organizer.class_of. by rewrite Hsplit. }
    destruct (resolve_nested cwd folder c T Hrel HT Hc) as [_ ->]. by rewrite HT.
  - eapply rearrange_folders_first_raises; [done..|].
    intros w0 Hroot.
    destruct (rearrange_one_relative cwd folder fn T w0 Hrel Hdot HT) as (_ & _ & _ & _ & H);
      try done.
    by rewrite Hroot.
Qed.

Lemma rearrange_folders_relative_folder_witness :
  ∃ line, Organizer.rearrange_folders ["home"; "u"] in_stored_order "data/train" relative_home
          = OS.Raise OS.OSError (OS.World (OS.root relative_home) [OS.Print line]).
Proof.
  destruct (rearrange_folders_relative_folder ["home"; "u"] in_stored_order "data/train"
              relative_home ["cat.0.jpg"; "dog.0.jpg"] "cat.0.jpg" ["dog.0.jpg"])
    as (_ & H); [by intros l|reflexivity..|exact H].
Defined.

(** ** [rearrange_folders] on a flat folder of images *)

Section FlatResult.

Import OS Organizer.

Context (cwd : path) (readdir_order : list string → list string).
Hypothesis readdir_order_perm : ∀ l, readdir_order l ≡ₚ l.

(** After the rearrangement the folder lists the classes of its images
    and nothing else. *)
Lemma rearranged_listing (es now : gmap string node) :
  (∀ fn, fn ∈ names readdir_order es →
         endswith ".jpg" fn = true ∧ startswith "." fn = false) →
  rearranged es (reverse (names readdir_order es)) now →
  ∀ c, c ∈ names readdir_order now ↔
       ∃ fn, fn ∈ names readdir_order es ∧ class_of fn = Some c.
Proof.
  intros Hflat (Hgone & Hclass & Hother) c.
  rewrite (elem_of_names _ readdir_order_perm). split.
  - intros [Hv Hsome].
    destruct (decide (c ∈ reverse (names readdir_order es))) as [Hin|Hout].
    { rewrite (Hgone c Hin) in Hsome. by destruct Hsome. }
    destruct (decide (Some c ∈ class_of <$> reverse (names readdir_order es)))
      as [Hc|Hc].
    + apply list_elem_of_fmap in Hc as (fn & Hfn & Hin). rewrite elem_of_reverse in Hin.
      exists fn. split; [done|]. by symmetry.
    + rewrite (Hother c Hout Hc) in Hsome. destruct Hout.
      apply elem_of_reverse, (elem_of_names _ readdir_order_perm). done.
  - intros (fn & Hfn & Hc).
    destruct (flat_name readdir_order readdir_order_perm es Hflat fn Hfn)
      as (_ & _ & c' & r & _ & Hc' & Hv & Hdot & _).
    assert (c' = c) as -> by congruence.
    split; [done|].
    destruct (Hclass c) as (m & -> & _); [| |done].
    + rewrite elem_of_reverse. intros Hin.
      apply Hflat in Hin as [Hjpg%endswith_jpg_has_dot _].
      rewrite Hdot in Hjpg. by destruct Hjpg.
    + apply list_elem_of_fmap. exists fn. split; [done|]. by apply elem_of_reverse.
Qed.

End FlatResult.

(** On an absolute folder without a dot in its path that holds nothing
    but image files [class.N.jpg], none of them hidden, [rearrange_folders]
    runs without error; every image is then in the subfolder named by the
    text before the first dot of its name, under its own name and as the
    entry it was; the folder lists exactly the classes of its images; and
    nothing outside the folder has changed. *)
Theorem rearrange_folders_flat_images (cwd : OS.path)
    (readdir_order : list string → list string) (folder : string) (w : OS.world)
    (listing : list string) :
  (∀ l, readdir_order l ≡ₚ l) →
  OS.startswith "/" folder = true →
  OS.split_once "." folder = None →
  OS.listdir cwd readdir_order folder w = OS.Ok listing w →
  Forall (λ fn, OS.endswith ".jpg" fn = true ∧ OS.startswith "." fn = false) listing →
  ∃ w', Organizer.rearrange_folders cwd readdir_order folder w = OS.Ok () w'
    ∧ (∀ fn, fn ∈ listing →
         ∃ class_name, Organizer.class_of fn = Some class_name
           ∧ is_Some (OS.stat cwd (OS.join folder fn) (OS.root w))
           ∧ OS.stat cwd (OS.join (OS.join folder class_name) fn) (OS.root w')
             = OS.stat cwd (OS.join folder fn) (OS.root w)
           ∧ OS.stat cwd (OS.join folder fn) (OS.root w') = None)
    ∧ (∃ listing', OS.listdir cwd readdir_order folder w' = OS.Ok listing' w'
         ∧ ∀ c, c ∈ listing' ↔ ∃ fn, fn ∈ listing ∧ Organizer.class_of fn = Some c)
    ∧ (∀ T p, OS.resolve cwd folder = Some T → OS.diverge p T = true →
              OS.node_at p (OS.root w') = OS.node_at p (OS.root w)).
Proof.
  intros Hperm Habs Hdot Hlist Hflat.
  apply listdir_inv in Hlist as (_ & T & es & HT & Hes & ->).
  assert (∀ fn, fn ∈ OS.names readdir_order es →
                OS.endswith ".jpg" fn = true ∧ OS.startswith "." fn = false) as Hflat'.
  { by apply Forall_forall. }
  destruct (rearrange_folders_flat cwd readdir_order Hperm folder T es HT Habs Hdot
              Hflat' w Hes) as (w' & now & Hrun & Hnow & Hre & Hframe).
  pose proof (join_base_resolve _ _ _ HT) as HD.
  exists w'. split; [done|]. split; [|split].
  - intros fn Hfn.
    destruct (flat_name readdir_order Hperm es Hflat' fn Hfn)
      as (Hv & Hsome & c & r & _ & Hc & Hvc & _ & _).
    destruct (class_folder_listing readdir_order Hperm es Hflat' now c Hre Hvc)
      as (m & Hm & Hnames & Hsame); [by exists fn|].
    assert (fn ∈ OS.names readdir_order m) as Hfnm.
    { rewrite Hnames. by apply list_elem_of_filter. }
    exists c. split; [done|].
    unfold OS.stat. rewrite resolve_join2, !resolve_join_valid by done.
    rewrite HD. cbn [fmap option_fmap option_map mbind option_bind].
    rewrite (node_at_snoc _ _ _ _ Hes), (node_at_snoc _ _ _ _ Hnow).
    split; [done|]. split.
    + replace (T ++ [c; fn]) with ((T ++ [c]) ++ [fn]) by (by rewrite <- app_assoc).
      assert (OS.node_at (T ++ [c]) (OS.root w') = Some (OS.Dir m)) as Hcdir.
      { by rewrite (node_at_snoc _ _ _ _ Hnow). }
      rewrite (node_at_snoc _ _ _ _ Hcdir). by apply Hsame.
    + destruct Hre as (Hgone & _). apply Hgone. by apply elem_of_reverse.
  - exists (OS.names readdir_order now). split.
    + by apply (listdir_dir _ _ _ T).
    + by apply rearranged_listing.
  - intros T' p HT' Hp. rewrite HT in HT'. injection HT' as <-. by apply Hframe.
Qed.

Lemma rearrange_folders_flat_images_witness :
  ∃ w', Organizer.rearrange_folders [] in_stored_order "/home/u/data/dogs-vs-cats/train"
          (home_with "u") = OS.Ok () w'
    ∧ OS.stat [] "/home/u/data/dogs-vs-cats/train/dog/dog.0.jpg" (OS.root w')
      = Some (OS.File "d0").
Proof.
  destruct (rearrange_folders_flat_images [] in_stored_order
              "/home/u/data/dogs-vs-cats/train" (home_with "u")
              ["cat.0.jpg"; "dog.0.jpg"])
    as (w' & Hrun & Himages & _).
  - by intros l.
  - reflexivity.
  - reflexivity.
  - reflexivity.
  - repeat constructor.
  - exists w'. split; [exact Hrun|].
    destruct (Himages "dog.0.jpg") as (c & Hc & _ & Hmoved & _).
    + right. left.
    + injection Hc as <-. exact Hmoved.
Defined.

(** After such a run a second call finds no image left and does
    nothing: it returns with the disk and the log as they are. *)
Theorem rearrange_folders_twice (cwd : OS.path)
    (readdir_order : list string → list string) (folder : string) (w : OS.world)
    (listing : list string) :
  (∀ l, readdir_order l ≡ₚ l) →
  OS.startswith "/" folder = true →
  OS.split_once "." folder = None →
  OS.listdir cwd readdir_order folder w = OS.Ok listing w →
  Forall (λ fn, OS.endswith ".jpg" fn = true ∧ OS.startswith "." fn = false) listing →
  ∃ w', Organizer.rearrange_folders cwd readdir_order folder w = OS.Ok () w'
    ∧ Organizer.rearrange_folders cwd readdir_order folder w' = OS.Ok () w'.
Proof.
  intros Hperm Habs Hdot Hlist Hflat.
  apply listdir_inv in Hlist as (_ & T & es & HT & Hes & ->).
  assert (∀ fn, fn ∈ OS.names readdir_order es →
                OS.endswith ".jpg" fn = true ∧ OS.startswith "." fn = false) as Hflat'.
  { by apply Forall_forall. }
  destruct (rearrange_folders_flat cwd readdir_order Hperm folder T es HT Habs Hdot
              Hflat' w Hes) as (w' & now & Hrun & Hnow & Hre & _).
  exists w'. split; [done|].
  unfold Organizer.rearrange_folders. unfold mbind, OS.M_bind.
  rewrite (listdir_dir _ _ _ T w' now HT Hnow).
  rewrite (filter_none _ (OS.names readdir_order now)).
  { cbn [fmap list_fmap length]. by rewrite decide_True. }
  apply Forall_forall. intros c Hc Hjpg%endswith_jpg_has_dot.
  apply (rearranged_listing readdir_order Hperm es now Hflat' Hre) in Hc
    as (fn & _ & Hclass).
  rewrite (class_of_dotless _ _ Hclass) in Hjpg. by destruct Hjpg.
Qed.

Lemma rearrange_folders_twice_witness :
  ∃ w', Organizer.rearrange_folders [] in_stored_order "/home/u/data/dogs-vs-cats/train"
          (home_with "u") = OS.Ok () w'
    ∧ Organizer.rearrange_folders [] in_stored_order "/home/u/data/dogs-vs-cats/train" w'
      = OS.Ok () w'.
Proof.
  apply (rearrange_folders_twice [] in_stored_order "/home/u/data/dogs-vs-cats/train"
           (home_with "u") ["cat.0.jpg"; "dog.0.jpg"]).
  - by intros l.
  - reflexivity.
  - reflexivity.
  - reflexivity.
  - repeat constructor.
Defined.

(** ** The validation cell: small classes, missing classes, and what it
    leaves alone *)

(** The validation cell for any number of images per class: with no
    validation directory yet and the two class folders in place it runs
    without error whatever they hold, and moves the last 500 names of each
    class in sorted order, or all of them when the class has no more than
    500: such a class is left with an empty train folder. *)
Theorem build_validation_any_count (cwd : OS.path)
    (readdir_order : list string → list string)
    (data_folder : string) (w : OS.world) (dogs cats : list string) :
  let train_folder := OS.join data_folder "train" in
  let validation_folder := OS.join data_folder "validation" in
  (∀ l, readdir_order l ≡ₚ l) →
  OS.exists_ cwd validation_folder w = OS.Ok false w →
  OS.listdir cwd readdir_order (OS.join train_folder "dog") w = OS.Ok dogs w →
  OS.listdir cwd readdir_order (OS.join train_folder "cat") w = OS.Ok cats w →
  ∃ w', Organizer.build_validation cwd readdir_order data_folder w = OS.Ok () w'
    ∧ ∀ class_name before, (class_name, before) ∈ [("dog", dogs); ("cat", cats)] →
        ∃ validation train,
          OS.listdir cwd readdir_order (OS.join validation_folder class_name) w'
            = OS.Ok validation w'
          ∧ OS.listdir cwd readdir_order (OS.join train_folder class_name) w'
            = OS.Ok train w'
          ∧ validation ≡ₚ Organizer.last_n Organizer.n_validation (Organizer.sorted before)
          ∧ length validation = 500 `min` length before
          ∧ train ++ validation ≡ₚ before
          ∧ (length before ≤ 500 → train = [] ∧ validation ≡ₚ before).
Proof.
  intros train_folder validation_folder Hperm Hval Hdogs Hcats.
  apply listdir_inv in Hdogs as (_ & pd & es_dog & Hpd & Hdog & ->).
  apply listdir_inv in Hcats as (_ & pc & es_cat & Hpc & Hcat & ->).
  subst train_folder validation_folder.
  rewrite resolve_join2 in Hpd, Hpc by done.
  destruct (OS.join_base cwd data_folder) as [D|] eqn:HD; [|done].
  injection Hpd as <-. injection Hpc as <-.
  assert (OS.resolve cwd (OS.join data_folder "validation") = Some (D ++ ["validation"])) as HVs.
  { rewrite resolve_join_valid by done. by rewrite HD. }
  assert (OS.node_at (D ++ ["validation"]) (OS.root w) = None) as HV.
  { unfold OS.exists_ in Hval. rewrite (stat_dir _ _ _ _ HVs) in Hval.
    injection Hval as Hval. apply bool_decide_eq_false in Hval.
    destruct (OS.node_at _ _); [|done]. by destruct Hval. }
  destruct (build_validation_fresh cwd readdir_order Hperm data_folder D w
              es_dog es_cat HD HV Hdog Hcat) as (w' & Hbuild & Hclasses).
  exists w'. split; [done|].
  intros c before Hin.
  assert (∃ es, (c, es) ∈ [("dog", es_dog); ("cat", es_cat)]
                ∧ before = OS.names readdir_order es
                ∧ OS.valid_name c = true) as (es & Hes & -> & Hc).
  { apply elem_of_cons in Hin as [[= -> ->]|Hin].
    - exists es_dog. split; [by left|done].
    - apply elem_of_cons in Hin as [[= -> ->]|Hin%elem_of_nil]; [|done].
      exists es_cat. split; [right; by left|done]. }
  destruct (Hclasses c es Hes) as (es' & eV & HT' & HV' & Hes' & HeV).
  destruct (class_listings_any readdir_order Hperm es es' eV Hes' HeV)
    as (H1 & H2 & _ & H4 & _).
  exists (OS.names readdir_order eV), (OS.names readdir_order es').
  split; [|split; [|split; [done|split; [done|split; [done|]]]]].
  - apply (listdir_dir _ _ _ (D ++ ["validation"; c])); [|done].
    rewrite resolve_join2 by done. by rewrite HD.
  - apply (listdir_dir _ _ _ (D ++ ["train"; c])); [|done].
    rewrite resolve_join2 by done. by rewrite HD.
  - intros Hsmall.
    assert (OS.names readdir_order es' = []) as Hempty.
    { apply nil_length_inv. apply Permutation_length in H4.
      rewrite length_app, H2 in H4. unfold Organizer.n_validation in H4. lia. }
    split; [done|]. by rewrite Hempty in H4.
Qed.

Lemma build_validation_any_count_witness :
  ∃ w', Organizer.build_validation [] in_stored_order "/data" few_images = OS.Ok () w'
    ∧ OS.listdir [] in_stored_order "/data/train/dog" w' = OS.Ok [] w'
    ∧ ∃ validation,
        OS.listdir [] in_stored_order "/data/validation/dog" w' = OS.Ok validation w'
        ∧ length validation = 3.
Proof.
  destruct (build_validation_any_count [] in_stored_order "/data" few_images
              (OS.names in_stored_order
                 (list_to_map ((λ name, (name, OS.File name)) <$> image_names "dog" 3)))
              (OS.names in_stored_order
                 (list_to_map ((λ name, (name, OS.File name)) <$> image_names "cat" 2))))
    as (w' & Hrun & Hclasses).
  - by intros l.
  - reflexivity.
  - reflexivity.
  - reflexivity.
  - exists w'. split; [exact Hrun|].
    destruct (Hclasses "dog" _ ltac:(left; reflexivity))
      as (validation & train & Hv & Ht & _ & Hlen & _ & Hsmall).
    destruct Hsmall as [-> _]; [vm_compute; lia|].
    split; [exact Ht|]. exists validation. split; [exact Hv|exact Hlen].
Defined.

(** The validation cell changes nothing outside the validation directory
    and the train folders of the two classes: any other entry of the disk,
    the folder of a third class in train included, is what it was. *)
Theorem build_validation_frame (cwd : OS.path)
    (readdir_order : list string → list string)
    (data_folder : string) (w : OS.world) (dogs cats : list string) (D : OS.path) :
  let train_folder := OS.join data_folder "train" in
  let validation_folder := OS.join data_folder "validation" in
  (∀ l, readdir_order l ≡ₚ l) →
  OS.join_base cwd data_folder = Some D →
  OS.exists_ cwd validation_folder w = OS.Ok false w →
  OS.listdir cwd readdir_order (OS.join train_folder "dog") w = OS.Ok dogs w →
  OS.listdir cwd readdir_order (OS.join train_folder "cat") w = OS.Ok cats w →
  ∃ w', Organizer.build_validation cwd readdir_order data_folder w = OS.Ok () w'
    ∧ (∀ p, OS.diverge p (D ++ ["validation"]) = true →
            OS.diverge p (D ++ ["train"; "dog"]) = true →
            OS.diverge p (D ++ ["train"; "cat"]) = true →
            OS.node_at p (OS.root w') = OS.node_at p (OS.root w))
    ∧ (∀ class_name, OS.valid_name class_name = true →
         class_name ≠ "dog" → class_name ≠ "cat" →
         OS.stat cwd (OS.join train_folder class_name) (OS.root w')
         = OS.stat cwd (OS.join train_folder class_name) (OS.root w)).
Proof.
  intros train_folder validation_folder Hperm HD Hval Hdogs Hcats.
  apply listdir_inv in Hdogs as (_ & pd & es_dog & Hpd & Hdog & ->).
  apply listdir_inv in Hcats as (_ & pc & es_cat & Hpc & Hcat & ->).
  subst train_folder validation_folder.
  rewrite resolve_join2 in Hpd, Hpc by done. rewrite HD in Hpd, Hpc.
  injection Hpd as <-. injection Hpc as <-.
  assert (OS.resolve cwd (OS.join data_folder "validation") = Some (D ++ ["validation"])) as HVs.
  { rewrite resolve_join_valid by done. by rewrite HD. }
  assert (OS.node_at (D ++ ["validation"]) (OS.root w) = None) as HV.
  { unfold OS.exists_ in Hval. rewrite (stat_dir _ _ _ _ HVs) in Hval.
    injection Hval as Hval. apply bool_decide_eq_false in Hval.
    destruct (OS.node_at _ _); [|done]. by destruct Hval. }
  destruct (build_validation_fresh_frame cwd readdir_order Hperm data_folder D w
              es_dog es_cat HD HV Hdog Hcat) as (w' & Hbuild & _ & Hframe).
  exists w'. split; [done|]. split; [done|].
  intros c Hc Hnd Hnc. unfold OS.stat. rewrite resolve_join2 by done.
  rewrite HD. cbn [fmap option_fmap option_map mbind option_bind].
  apply Hframe.
  - rewrite diverge_app. reflexivity.
  - rewrite diverge_app. cbn [OS.diverge].
    rewrite decide_True by done. by rewrite decide_False.
  - rewrite diverge_app. cbn [OS.diverge].
    rewrite decide_True by done. by rewrite decide_False.
Qed.

Lemma build_validation_frame_witness :
  ∃ w', Organizer.build_validation [] in_stored_order "/data" three_classes = OS.Ok () w'
    ∧ OS.node_at ["data"; "train"; "bird"] (OS.root w') = Some (class_folder "bird" 1)
    ∧ OS.node_at ["data"; "notes.txt"] (OS.root w') = Some (OS.File "todo")
    ∧ OS.stat [] "/data/train/bird/bird.0.jpg" (OS.root w') = Some (OS.File "bird.0.jpg").
Proof.
  destruct (build_validation_frame [] in_stored_order "/data" three_classes
              (OS.names in_stored_order
                 (list_to_map ((λ name, (name, OS.File name)) <$> image_names "dog" 3)))
              (OS.names in_stored_order
                 (list_to_map ((λ name, (name, OS.File name)) <$> image_names "cat" 2)))
              ["data"])
    as (w' & Hrun & Hframe & _).
  - by intros l.
  - reflexivity.
  - reflexivity.
  - reflexivity.
  - reflexivity.
  - exists w'. split; [exact Hrun|]. split; [|split].
    + transitivity (OS.node_at ["data"; "train"; "bird"] (OS.root three_classes));
        [apply Hframe; reflexivity|reflexivity].
    + transitivity (OS.node_at ["data"; "notes.txt"] (OS.root three_classes));
        [apply Hframe; reflexivity|reflexivity].
    + transitivity (OS.node_at ["data"; "train"; "bird"; "bird.0.jpg"] (OS.root three_classes));
        [apply Hframe; reflexivity|reflexivity].
Defined.

Section MissingClass.

Import OS Organizer.

Context (cwd : path) (readdir_order : list string → list string).

Lemma is_dir_resolves (s : string) (t : node) :
  is_dir (stat cwd s t) = true →
  ∃ p es, resolve cwd s = Some p ∧ node_at p t = Some (Dir es).
Proof.
  unfold stat. destruct (resolve cwd s) as [p|]; [|done]. cbn [mbind option_bind].
  destruct (node_at p t) as [[|es]|] eqn:Hp; try done. by exists p, es.
Qed.

End MissingClass.

(** A class folder that is missing from train makes the validation cell
    fail half way: the validation directory and the directory of the
    first class have been created when [os.listdir] raises.  The guard of
    the cell then finds the validation directory, so a second run does
    nothing: the failed split is not retried. *)
Theorem build_validation_missing_class (cwd : OS.path)
    (readdir_order : list string → list string) (data_folder : string) (w : OS.world) :
  let train_folder := OS.join data_folder "train" in
  let validation_folder := OS.join data_folder "validation" in
  OS.is_dir (OS.stat cwd data_folder (OS.root w)) = true →
  OS.exists_ cwd validation_folder w = OS.Ok false w →
  OS.is_dir (OS.stat cwd (OS.join train_folder "dog") (OS.root w)) = false →
  ∃ w', Organizer.build_validation cwd readdir_order data_folder w = OS.Raise OS.OSError w'
    ∧ OS.stat cwd (OS.join validation_folder "dog") (OS.root w') = Some (OS.Dir ∅)
    ∧ OS.stat cwd (OS.join validation_folder "cat") (OS.root w') = None
    ∧ OS.stat cwd train_folder (OS.root w') = OS.stat cwd train_folder (OS.root w)
    ∧ Organizer.build_validation cwd readdir_order data_folder w' = OS.Ok () w'.
Proof.
  intros train_folder validation_folder Hdata Hval Hdog.
  subst train_folder validation_folder.
  apply is_dir_resolves in Hdata as (D & eD & HDs & HD0).
  pose proof (join_base_resolve _ _ _ HDs) as HD.
  assert (OS.resolve cwd (OS.join data_folder "validation") = Some (D ++ ["validation"])) as HVs.
  { rewrite resolve_join_valid by done. by rewrite HD. }
  assert (OS.resolve cwd (OS.join data_folder "train") = Some (D ++ ["train"])) as HTs.
  { rewrite resolve_join_valid by done. by rewrite HD. }
  assert (OS.node_at (D ++ ["validation"]) (OS.root w) = None) as HV.
  { unfold OS.exists_ in Hval. rewrite (stat_dir _ _ _ _ HVs) in Hval.
    injection Hval as Hval. apply bool_decide_eq_false in Hval.
    destruct (OS.node_at (D ++ ["validation"]) (OS.root w)); [|done]. by destruct Hval. }
  assert (eD !! "validation" = None) as HeD.
  { rewrite (node_at_snoc _ _ _ _ HD0) in HV. done. }
  destruct (mkdir_entry cwd _ D "validation" w eD HVs HD0 HeD)
    as (t1 & Hmk1 & HD1 & Hframe1).
  set (w1 := OS.World t1 (OS.log w ++ [OS.Mkdir (D ++ ["validation"])])) in *.
  assert (OS.node_at (D ++ ["validation"]) (OS.root w1) = Some (OS.Dir ∅)) as HV1.
  { subst w1. cbn [OS.root]. rewrite (node_at_snoc _ _ _ _ HD1).
    by rewrite lookup_insert_eq. }
  assert (OS.resolve cwd (OS.join (OS.join data_folder "validation") "dog")
          = Some ((D ++ ["validation"]) ++ ["dog"])) as HVdog.
  { rewrite resolve_join2 by done. rewrite HD. by rewrite <- app_assoc. }
  assert (OS.resolve cwd (OS.join (OS.join data_folder "validation") "cat")
          = Some ((D ++ ["validation"]) ++ ["cat"])) as HVcat.
  { rewrite resolve_join2 by done. rewrite HD. by rewrite <- app_assoc. }
  assert (OS.resolve cwd (OS.join (OS.join data_folder "train") "dog")
          = Some (D ++ ["train"; "dog"])) as HTdog.
  { rewrite resolve_join2 by done. by rewrite HD. }
  set (w1p := OS.World (OS.root w1)
                (OS.log w1 ++ [OS.Print ("Populating "
                   +:+ OS.join (OS.join data_folder "validation") "dog" +:+ "...")])).
  destruct (mkdir_entry cwd _ (D ++ ["validation"]) "dog" w1p ∅ HVdog HV1)
    as (t2 & Hmk2 & HV2 & Hframe2); [done|].
  set (w2 := OS.World t2 (OS.log w1p ++ [OS.Mkdir ((D ++ ["validation"]) ++ ["dog"])])) in *.
  assert (∀ R, OS.diverge R (D ++ ["validation"]) = true →
               OS.node_at R (OS.root w2) = OS.node_at R (OS.root w)) as Hframe.
  { intros R HR. subst w2. cbn [OS.root]. rewrite Hframe2 by (by apply diverge_app_r).
    subst w1p w1. cbn [OS.root]. by apply Hframe1. }
  assert (OS.stat cwd (OS.join (OS.join data_folder "train") "dog") (OS.root w2)
          = OS.stat cwd (OS.join (OS.join data_folder "train") "dog") (OS.root w)) as Hsame.
  { unfold OS.stat. rewrite HTdog. cbn [mbind option_bind].
    apply Hframe. rewrite diverge_app. reflexivity. }
  exists w2. split; [|split; [|split; [|split]]].
  - unfold Organizer.build_validation. unfold mbind at 1, OS.M_bind at 1.
    rewrite Hval. cbn [negb].
    unfold mbind at 1, OS.M_bind at 1. rewrite Hmk1. fold w1.
    cbn [OS.for_each]. unfold mbind at 1, OS.M_bind at 1.
    unfold Organizer.populate.
    unfold mbind at 1, OS.M_bind at 1. unfold OS.print at 1. fold w1p.
    unfold mbind at 1, OS.M_bind at 1. rewrite Hmk2. fold w2.
    unfold mbind at 1, OS.M_bind at 1. unfold OS.listdir at 1.
    rewrite Hsame.
    by destruct (OS.stat cwd (OS.join (OS.join data_folder "train") "dog") (OS.root w))
      as [[|es]|].
  - unfold OS.stat. rewrite HVdog. cbn [mbind option_bind].
    subst w2. cbn [OS.root]. rewrite (node_at_snoc _ _ _ _ HV2).
    by rewrite lookup_insert_eq.
  - unfold OS.stat. rewrite HVcat. cbn [mbind option_bind].
    subst w2. cbn [OS.root]. rewrite (node_at_snoc _ _ _ _ HV2).
    by rewrite lookup_insert_ne.
  - unfold OS.stat. rewrite HTs. cbn [mbind option_bind].
    apply Hframe. rewrite diverge_app. reflexivity.
  - unfold Organizer.build_validation. unfold mbind, OS.M_bind.
    unfold OS.exists_ at 1. rewrite (stat_dir _ _ _ _ HVs).
    assert (OS.node_at (D ++ ["validation"]) (OS.root w2)
            = Some (OS.Dir (<["dog" := OS.Dir ∅]> ∅))) as -> by done.
    by rewrite bool_decide_eq_true_2.
Qed.

Lemma build_validation_missing_class_witness :
  ∃ w', Organizer.build_validation [] in_stored_order "/data" empty_train
        = OS.Raise OS.OSError w'
    ∧ Organizer.build_validation [] in_stored_order "/data" w' = OS.Ok () w'.
Proof.
  destruct (build_validation_missing_class [] in_stored_order "/data" empty_train)
    as (w' & Hraise & _ & _ & _ & Hagain); [reflexivity..|].
  exists w'. split; [exact Hraise|exact Hagain].
Defined.

(** ** The organizer and the rest of the disk *)

(** From either layout of the train directory, with no validation
    directory yet, the three cells together change nothing outside the
    train and the validation directory of the data folder. *)
Theorem organize_frame (cwd : OS.path)
    (readdir_order : list string → list string)
    (unzip : string → option (list (string * string)))
    (l : Organizer.layout)
    (data_folder : string) (w : OS.world) (listing dogs cats : list string)
    (D : OS.path) :
  let train_folder := OS.join data_folder "train" in
  let validation_folder := OS.join data_folder "validation" in
  (∀ l, readdir_order l ≡ₚ l) →
  OS.join_base cwd data_folder = Some D →
  OS.exists_ cwd validation_folder w = OS.Ok false w →
  OS.listdir cwd readdir_order train_folder w = OS.Ok listing w →
  Organizer.in_layout l data_folder listing →
  Organizer.images_of cwd readdir_order l train_folder "dog" w = OS.Ok dogs w →
  Organizer.images_of cwd readdir_order l train_folder "cat" w = OS.Ok cats w →
  0 < length dogs →
  0 < length cats →
  ∃ w', Organizer.organize cwd readdir_order unzip data_folder w = OS.Ok () w'
    ∧ ∀ p, OS.diverge p (D ++ ["train"]) = true →
           OS.diverge p (D ++ ["validation"]) = true →
           OS.node_at p (OS.root w') = OS.node_at p (OS.root w).
Proof.
  intros train_folder validation_folder Hperm HD Hval Hlist Hlay Hdogs Hcats Hnd Hnc.
  destruct (cells_before_validation cwd readdir_order unzip Hperm l data_folder w
              listing dogs cats Hval Hlist Hlay Hdogs Hcats Hnd Hnc)
    as (D' & w1 & es_dog & es_cat & HD' & Hextract & Hrearrange & HV & Hdog & Hcat & _).
  rewrite HD in HD'. injection HD' as <-.
  subst train_folder validation_folder.
  assert (∀ p, OS.diverge p (D ++ ["train"]) = true →
               OS.node_at p (OS.root w1) = OS.node_at p (OS.root w)) as Hframe1.
  { destruct l; cbn [Organizer.in_layout] in Hlay.
    - destruct Hlay as (Habs & Hdot & Hflat).
      pose proof Hlist as Hlist'.
      apply listdir_inv in Hlist' as (_ & T & es & HT & Hes & ->).
      assert (T = D ++ ["train"]) as ->.
      { rewrite resolve_join_valid in HT by done. rewrite HD in HT. by injection HT. }
      assert (data_folder ≠ "") as Hne by (by intros ->).
      destruct (rearrange_folders_flat cwd readdir_order Hperm _ _ es HT) with (w := w)
        as (w1' & now & Hrun & _ & _ & Hframe); try done.
      + by rewrite startswith_join.
      + by apply join_dotless.
      + by apply Forall_forall.
      + rewrite Hrun in Hrearrange. by injection Hrearrange as <-.
    - rewrite (rearrange_folders_no_images cwd readdir_order _ w listing Hlist Hlay)
        in Hrearrange.
      by injection Hrearrange as <-. }
  destruct (build_validation_fresh_frame cwd readdir_order Hperm data_folder D w1
              es_dog es_cat HD HV Hdog Hcat) as (w' & Hbuild & _ & Hframe2).
  exists w'. split.
  - unfold Organizer.organize. unfold mbind, OS.M_bind.
    by rewrite Hextract, Hrearrange.
  - intros p Hpt Hpv. rewrite Hframe2; [by apply Hframe1|done|..].
    + rewrite (cons_middle "train"), app_assoc. by apply diverge_app_r.
    + rewrite (cons_middle "train"), app_assoc. by apply diverge_app_r.
Qed.

Lemma organize_frame_witness :
  ∃ w', Organizer.organize [] in_stored_order no_archive "/home/u/data/dogs-vs-cats"
          home_with_notes = OS.Ok () w'
    ∧ OS.node_at ["home"; "u"; "notes.txt"] (OS.root w') = Some (OS.File "todo")
    ∧ OS.node_at ["home"; "u"; "data"; "dogs-vs-cats"; "README"] (OS.root w')
      = Some (OS.File "kaggle").
Proof.
  destruct (organize_frame [] in_stored_order no_archive Organizer.Flat
              "/home/u/data/dogs-vs-cats" home_with_notes
              ["cat.0.jpg"; "dog.0.jpg"] ["dog.0.jpg"] ["cat.0.jpg"]
              ["home"; "u"; "data"; "dogs-vs-cats"])
    as (w' & Hrun & Hframe).
  - by intros l.
  - reflexivity.
  - reflexivity.
  - reflexivity.
  - split; [reflexivity|]. split; [reflexivity|]. repeat constructor.
  - reflexivity.
  - reflexivity.
  - simpl; lia.
  - simpl; lia.
  - exists w'. split; [exact Hrun|]. split.
    + transitivity (OS.node_at ["home"; "u"; "notes.txt"] (OS.root home_with_notes));
        [apply Hframe; reflexivity|reflexivity].
    + transitivity (OS.node_at ["home"; "u"; "data"; "dogs-vs-cats"; "README"]
                      (OS.root home_with_notes));
        [apply Hframe; reflexivity|reflexivity].
Defined.

(** ** The extraction cell *)

Section ExtractionFrame.

Import OS Organizer.

Context (cwd : path).
Context (unzip : string → option (list (string * string))).


(** [os.makedirs] changes nothing but the directories it creates. *)
Lemma makedirs_at_frame (p : path) :
  ∀ (t t' : node) (R : path),
  makedirs_at p t = Some t' → ¬ R `prefix_of` p → node_at R t' = node_at R t.
Proof.
  induction p as [|c p IH]; intros t t' R Hmk HR.
  - destruct t; [done|]. by injection Hmk as <-.
  - destruct t as [|es]; [done|]. cbn [makedirs_at] in Hmk.
    destruct (makedirs_at p (default (Dir ∅) (es !! c))) as [m'|] eqn:Hm; [|done].
    injection Hmk as <-.
    destruct R as [|a R]; [destruct HR; apply prefix_nil|].
    cbn [node_at]. destruct (decide (a = c)) as [->|Hne].
    + rewrite lookup_insert_eq. cbn [mbind option_bind].
      assert (¬ R `prefix_of` p) as HR'.
      { intros Hp. apply HR. by apply prefix_cons. }
      rewrite (IH _ _ R Hm HR').
      destruct (es !! c) as [m|]; [done|]. cbn [default mbind option_bind].
      destruct R as [|x R]; [destruct HR'; apply prefix_nil|].
      cbn [node_at]. by rewrite lookup_empty.
    + by rewrite lookup_insert_ne.
Qed.



End ExtractionFrame.



(** In a data folder that exists but has no train directory the first
    cell needs the archive: when [train.zip] is missing (or is a
    directory) the organizer stops there with an [OSError], when its
    content is not a zip archive with a [BadZipFile]; in both cases it has
    printed its message, changed nothing on disk, and the later cells
    have not run. *)
Theorem organize_without_archive (cwd : OS.path)
    (readdir_order : list string → list string)
    (unzip : string → option (list (string * string)))
    (data_folder : string) (w : OS.world) :
  let train_zip := OS.join data_folder "train.zip" in
  let stopped := OS.World (OS.root w)
                   (OS.log w ++ [OS.Print ("Extracting " +:+ train_zip +:+ "...")]) in
  OS.is_dir (OS.stat cwd data_folder (OS.root w)) = true →
  OS.exists_ cwd (OS.join data_folder "train") w = OS.Ok false w →
  ((∀ data, OS.stat cwd train_zip (OS.root w) ≠ Some (OS.File data)) →
     Organizer.organize cwd readdir_order unzip data_folder w
     = OS.Raise OS.OSError stopped)
  ∧ (∀ data, OS.stat cwd train_zip (OS.root w) = Some (OS.File data) →
       unzip data = None →
       Organizer.organize cwd readdir_order unzip data_folder w
       = OS.Raise OS.BadZipFile stopped).
Proof.
  intros train_zip stopped _ Htrain.
  unfold Organizer.organize, Organizer.extract_train. unfold mbind, OS.M_bind.
  rewrite Htrain. cbn [negb]. unfold OS.print, OS.extractall. cbn [OS.root].
  fold train_zip. split.
  - intros Hmissing.
    destruct (OS.stat cwd train_zip (OS.root w)) as [[data|es]|] eqn:Hzip; try done.
    by destruct (Hmissing data).
  - intros data -> ->. done.
Qed.

(** An empty data folder, and a data folder whose [train.zip] is not a
    zip archive. *)
Lemma organize_without_archive_witness :
  (∃ line, Organizer.organize [] in_stored_order no_archive "/data"
             (OS.World (OS.Dir {[ "data" := OS.Dir ∅ ]}) [])
           = OS.Raise OS.OSError (OS.World (OS.Dir {[ "data" := OS.Dir ∅ ]}) [OS.Print line]))
  ∧ ∃ line, Organizer.organize [] in_stored_order no_archive "/data" fresh_world
            = OS.Raise OS.BadZipFile (OS.World (OS.root fresh_world) [OS.Print line]).
Proof.
  split.
  - destruct (organize_without_archive [] in_stored_order no_archive "/data"
                (OS.World (OS.Dir {[ "data" := OS.Dir ∅ ]}) []))
      as [H _]; [reflexivity|reflexivity|].
    eexists. apply H. intros data. vm_compute. discriminate.
  - destruct (organize_without_archive [] in_stored_order no_archive "/data" fresh_world)
      as [_ H]; [reflexivity|reflexivity|].
    eexists. apply (H "PK"); reflexivity.
Defined.

(** ** The first run: from the archive to the validation split *)

Section FreshExtraction.

Import OS Organizer.

Context (cwd : path).
Context (unzip : string → option (list (string * string))).

(** The archive member of an image. *)
Local Abbreviation member_of :=
  (λ image : string * string, ("train/" +:+ image.1, image.2)).

Lemma makedirs_at_cons (c : string) (p : path) (es : gmap string node) :
  makedirs_at (c :: p) (Dir es)
  = makedirs_at p (default (Dir ∅) (es !! c)) ≫= λ m', Some (Dir (<[c := m']> es)).
Proof. reflexivity. Qed.

Lemma makedirs_at_new (D : path) (name : string) :
  ∀ (t : node) (eD : gmap string node),
  node_at D t = Some (Dir eD) →
  eD !! name = None →
  ∃ t', makedirs_at (D ++ [name]) t = Some t'
        ∧ node_at D t' = Some (Dir (<[name := Dir ∅]> eD)).
Proof.
  induction D as [|c D IH]; intros t eD HD Hname.
  - injection HD as ->. cbn [app]. rewrite makedirs_at_cons, Hname.
    cbn [default makedirs_at mbind option_bind]. by eexists.
  - destruct t as [|es0]; [done|]. cbn [node_at] in HD.
    destruct (es0 !! c) as [m|] eqn:Hc; [|done]. cbn [mbind option_bind] in HD.
    destruct (IH m eD HD Hname) as (m' & Hm' & HD').
    cbn [app]. rewrite makedirs_at_cons, Hc. cbn [default id]. rewrite Hm'.
    cbn [mbind option_bind]. eexists. split; [done|].
    cbn [node_at]. rewrite lookup_insert_eq. done.
Qed.

Lemma valid_name_no_slash (fn : string) :
  valid_name fn = true → endswith "/" fn = false.
Proof.
  intros (Hne & _ & _ & Hsplit)%valid_name_spec.
  destruct (endswith "/" fn) eqn:He; [|done].
  apply endswith_spec in He as [front ->].
  change (front +:+ "/") with (front +:+ String "/" "") in Hsplit.
  rewrite split_app_sep in Hsplit. cbn [split] in Hsplit.
  apply (f_equal length) in Hsplit. rewrite length_app in Hsplit. simpl in Hsplit.
  pose proof (split_nonempty "/" front). destruct (split "/" front); [done|].
  simpl in Hsplit. lia.
Qed.

Lemma endswith_slash_app (a b : string) :
  b ≠ "" → endswith "/" (a +:+ b) = endswith "/" b.
Proof.
  intros Hb. induction a as [|x a IH]; [done|].
  rewrite string_app_cons. cbn [endswith].
  destruct (String.eqb_spec (String x (a +:+ b)) "/") as [Heq|_]; [|done].
  injection Heq as _ Heq. destruct a; [done|discriminate Heq].
Qed.

(** Where the member of an image is extracted. *)
Lemma member_target (fn : string) :
  valid_name fn = true →
  filter (λ c, c ∉ [""; "."; ".."]) (split "/" ("train/" +:+ fn)) = ["train"; fn]
  ∧ endswith "/" ("train/" +:+ fn) = false.
Proof.
  intros Hv. destruct (valid_name_spec fn Hv) as (H1 & H2 & H3 & Hsplit). split.
  - change ("train/" +:+ fn) with ("train" +:+ String "/" fn).
    rewrite split_app_sep, Hsplit. change (split "/" "train") with ["train"].
    cbn [app]. rewrite filter_cons_True.
    2:{ intros Hin. repeat (apply elem_of_cons in Hin as [Hin|Hin]; [done|]).
        by apply elem_of_nil in Hin. }
    rewrite filter_cons_True; [done|].
    intros Hin. repeat (apply elem_of_cons in Hin as [Hin|Hin]; [done|]).
    by apply elem_of_nil in Hin.
  - rewrite endswith_slash_app by done. by apply valid_name_no_slash.
Qed.

(** Extracting the member of one image into a train directory that
    exists and holds no directory of that name. *)
Lemma extract_image (into : string) (D : path) (image : string * string)
    (w : world) (es : gmap string node) :
  join_base cwd into = Some D →
  valid_name image.1 = true →
  node_at (D ++ ["train"]) (root w) = Some (Dir es) →
  is_dir (es !! image.1) = false →
  ∃ w', extract_member cwd into (member_of image) w = Ok () w'
    ∧ node_at (D ++ ["train"]) (root w') = Some (Dir (<[image.1 := File image.2]> es))
    ∧ ∀ R, diverge R (D ++ ["train"]) = true → node_at R (root w') = node_at R (root w).
Proof.
  intros HD Hv HT Hfile. unfold extract_member. rewrite HD. cbn [fst snd].
  destruct (member_target image.1 Hv) as [-> ->].
  replace (D ++ ["train"; image.1]) with ((D ++ ["train"]) ++ [image.1])
    by (by rewrite <- app_assoc).
  rewrite removelast_last. unfold syscall.
  rewrite bool_decide_eq_true_2 by (by rewrite HT). cbn [mbind option_bind].
  destruct (update_entry_dir (D ++ ["train"]) image.1
              (λ present, match present with
                          | Some (Dir _) => None
                          | _ => Some (Some (File image.2))
                          end)
              (root w) es (Some (File image.2)) HT) as (t' & Ht' & HT').
  { by destruct (es !! image.1) as [[|?]|]. }
  unfold write_at. rewrite Ht'. eexists. split; [done|]. cbn [root].
  split; [done|]. intros R HR.
  eapply update_entry_diverge; [|exact Ht']. by apply diverge_app_r.
Qed.

(** The first image of an archive, extracted into a data folder that has
    no train directory yet. *)
Lemma extract_first_image (into : string) (D : path) (image : string * string)
    (w : world) (eD : gmap string node) :
  join_base cwd into = Some D →
  valid_name image.1 = true →
  node_at D (root w) = Some (Dir eD) →
  eD !! "train" = None →
  ∃ w', extract_member cwd into (member_of image) w = Ok () w'
    ∧ node_at (D ++ ["train"]) (root w') = Some (Dir (<[image.1 := File image.2]> ∅))
    ∧ ∀ R, diverge R (D ++ ["train"]) = true → node_at R (root w') = node_at R (root w).
Proof.
  intros HD Hv HD0 Htrain. unfold extract_member. rewrite HD. cbn [fst snd].
  destruct (member_target image.1 Hv) as [-> ->].
  replace (D ++ ["train"; image.1]) with ((D ++ ["train"]) ++ [image.1])
    by (by rewrite <- app_assoc).
  rewrite removelast_last. unfold syscall.
  assert (node_at (D ++ ["train"]) (root w) = None) as Hmissing.
  { by rewrite (node_at_snoc _ _ _ _ HD0). }
  rewrite bool_decide_eq_false_2 by (rewrite Hmissing; by intros [? ?]).
  destruct (makedirs_at_new D "train" (root w) eD HD0 Htrain) as (t1 & Ht1 & HD1).
  rewrite Ht1. cbn [mbind option_bind].
  assert (node_at (D ++ ["train"]) t1 = Some (Dir ∅)) as HT1.
  { rewrite (node_at_snoc _ _ _ _ HD1). by rewrite lookup_insert_eq. }
  destruct (update_entry_dir (D ++ ["train"]) image.1
              (λ present, match present with
                          | Some (Dir _) => None
                          | _ => Some (Some (File image.2))
                          end)
              t1 ∅ (Some (File image.2)) HT1) as (t' & Ht' & HT').
  { by rewrite lookup_empty. }
  unfold write_at. rewrite Ht'. eexists. split; [done|]. cbn [root].
  split; [done|]. intros R HR.
  rewrite (update_entry_diverge R _ _ t1 t' (diverge_app_r _ _ _ HR) Ht').
  apply (makedirs_at_frame _ _ _ R Ht1). by apply diverge_not_prefix.
Qed.

(** The images of an archive, one after the other, into the train
    directory: each is a file of its name there. *)
Lemma extract_images (into : string) (D : path) (images : list (string * string)) :
  join_base cwd into = Some D →
  Forall (λ image, valid_name image.1 = true) images →
  NoDup images.*1 →
  ∀ (w : world) (es : gmap string node),
  node_at (D ++ ["train"]) (root w) = Some (Dir es) →
  (∀ k, is_dir (es !! k) = false) →
  ∃ w' es',
    for_each (member_of <$> images) (extract_member cwd into) w = Ok () w'
    ∧ node_at (D ++ ["train"]) (root w') = Some (Dir es')
    ∧ (∀ k, es' !! k = match (list_to_map images : gmap string string) !! k with
                       | Some content => Some (File content)
                       | None => es !! k
                       end)
    ∧ ∀ R, diverge R (D ++ ["train"]) = true → node_at R (root w') = node_at R (root w).
Proof.
  intros HD Hvalid. induction Hvalid as [|image images Hv _ IH]; intros Hnd w es HT Hfiles.
  - exists w, es. done.
  - rewrite fmap_cons in Hnd. apply NoDup_cons in Hnd as [Hnew Hnd].
    destruct (extract_image into D image w es HD Hv HT (Hfiles _))
      as (w1 & Hone & HT1 & Hframe1).
    destruct (IH Hnd w1 _ HT1) as (w' & es' & Hrest & HT' & Hes' & Hframe).
    { intros k. destruct (decide (k = image.1)) as [->|Hne].
      - by rewrite lookup_insert_eq.
      - rewrite lookup_insert_ne by done. apply Hfiles. }
    exists w', es'. split; [|split; [done|split]].
    + rewrite fmap_cons. cbn [for_each]. unfold mbind, M_bind. by rewrite Hone.
    + intros k. rewrite Hes'. cbn [list_to_map foldr]. destruct image as [fn content].
      cbn [fst snd] in *. destruct (decide (k = fn)) as [->|Hne].
      * rewrite lookup_insert_eq.
        rewrite (not_elem_of_list_to_map_1 _ fn Hnew).
        by rewrite lookup_insert_eq.
      * by rewrite !lookup_insert_ne.
    + intros R HR. rewrite Hframe by done. by apply Hframe1.
Qed.

End FreshExtraction.

Section FirstCell.

Import OS Organizer.

Context (cwd : path) (readdir_order : list string → list string).
Context (unzip : string → option (list (string * string))).
Hypothesis readdir_order_perm : ∀ l, readdir_order l ≡ₚ l.

Local Abbreviation member_of :=
  (λ image : string * string, ("train/" +:+ image.1, image.2)).

(** The extraction cell on a data folder that holds the archive and no
    train directory: the train directory holds the images of the archive
    and nothing else. *)
Lemma extract_train_images (data_folder : string) (w : world) (D : path)
    (eD : gmap string node) (data : string) (images : list (string * string)) :
  resolve cwd data_folder = Some D →
  node_at D (root w) = Some (Dir eD) →
  eD !! "train" = None →
  eD !! "train.zip" = Some (File data) →
  unzip data = Some (member_of <$> images) →
  images ≠ [] →
  Forall (λ image, valid_name image.1 = true) images →
  NoDup images.*1 →
  ∃ w' es,
    extract_train cwd unzip data_folder w = Ok () w'
    ∧ node_at (D ++ ["train"]) (root w') = Some (Dir es)
    ∧ (∀ k, es !! k = File <$> (list_to_map images : gmap string string) !! k)
    ∧ names readdir_order es ≡ₚ images.*1
    ∧ ∀ R, diverge R (D ++ ["train"]) = true → node_at R (root w') = node_at R (root w).
Proof.
  intros HDs HD0 Htrain Hzip Hunzip Hne Hvalid Hnd.
  pose proof (join_base_resolve _ _ _ HDs) as HD.
  assert (resolve cwd (join data_folder "train") = Some (D ++ ["train"])) as HTs.
  { rewrite resolve_join_valid by done. by rewrite HD. }
  assert (resolve cwd (join data_folder "train.zip") = Some (D ++ ["train.zip"])) as HZs.
  { rewrite resolve_join_valid by done. by rewrite HD. }
  destruct images as [|image images]; [done|].
  apply Forall_cons in Hvalid as [Hv Hvalid].
  pose proof Hnd as Hnd0.
  rewrite fmap_cons in Hnd. apply NoDup_cons in Hnd as [Hnew Hnd].
  set (w0 := World (root w)
               (log w ++ [Print ("Extracting " +:+ join data_folder "train.zip" +:+ "...")])).
  destruct (extract_first_image cwd data_folder D image w0 eD HD Hv HD0 Htrain)
    as (w1 & Hfirst & HT1 & Hframe1).
  destruct (extract_images cwd data_folder D images HD Hvalid Hnd w1 _ HT1)
    as (w' & es & Hrest & HT' & Hes & Hframe).
  { intros k. destruct (decide (k = image.1)) as [->|Hk].
    - by rewrite lookup_insert_eq.
    - by rewrite lookup_insert_ne, lookup_empty. }
  assert (∀ k, es !! k
               = File <$> (list_to_map (image :: images) : gmap string string) !! k) as Hall.
  { intros k. rewrite Hes. cbn [list_to_map foldr]. destruct image as [fn content].
    cbn [fst snd] in *. destruct (decide (k = fn)) as [->|Hk].
    - rewrite (not_elem_of_list_to_map_1 _ fn Hnew). by rewrite !lookup_insert_eq.
    - rewrite !lookup_insert_ne, lookup_empty by done.
      by destruct (list_to_map images !! k). }
  exists w', es. split; [|split; [done|split; [done|split]]].
  - unfold extract_train. unfold mbind at 1, M_bind at 1. unfold exists_ at 1.
    rewrite (stat_dir _ _ _ _ HTs), (node_at_snoc _ _ _ _ HD0), Htrain.
    rewrite bool_decide_eq_false_2 by (by intros [? ?]). cbn [negb].
    unfold mbind at 1, M_bind at 1. unfold print at 1. fold w0.
    unfold extractall. rewrite (stat_dir _ _ _ _ HZs).
    change (root w0) with (root w). rewrite (node_at_snoc _ _ _ _ HD0), Hzip, Hunzip.
    rewrite fmap_cons. cbn [for_each]. unfold mbind, M_bind. by rewrite Hfirst.
  - apply NoDup_Permutation.
    + apply (NoDup_names _ readdir_order_perm).
    + done.
    + intros k. rewrite (elem_of_names _ readdir_order_perm), Hall. split.
      * intros [_ [nd Hk]].
        destruct (list_to_map (image :: images) !! k) as [content|] eqn:Hl; [|done].
        apply elem_of_list_to_map_2 in Hl.
        apply list_elem_of_fmap. by exists (k, content).
      * intros ([fn content] & -> & Hin)%list_elem_of_fmap. cbn [fst]. split.
        -- assert (Forall (λ image, valid_name image.1 = true) (image :: images)) as Hall_valid.
           { by constructor. }
           by apply (proj1 (Forall_forall _ _) Hall_valid (fn, content)).
        -- rewrite (elem_of_list_to_map_1 _ fn content Hnd0 Hin). by eexists.
  - intros R HR. rewrite Hframe by done. rewrite Hframe1 by done. done.
Qed.

End FirstCell.

(** The extraction cell on a data folder that holds the archive and no
    train directory yet, for an archive of image files [train/<name>]:
    afterwards every image of the archive is a file of the train directory
    with the content it has in the archive, the train directory lists
    exactly the names of the images, the archive is still there, and a
    second run of the cell skips the extraction. *)
Theorem extract_train_fresh (cwd : OS.path)
    (readdir_order : list string → list string)
    (unzip : string → option (list (string * string)))
    (data_folder : string) (w : OS.world) (data : string)
    (images : list (string * string)) :
  let train_folder := OS.join data_folder "train" in
  let train_zip := OS.join data_folder "train.zip" in
  (∀ l, readdir_order l ≡ₚ l) →
  OS.is_dir (OS.stat cwd data_folder (OS.root w)) = true →
  OS.stat cwd train_folder (OS.root w) = None →
  OS.stat cwd train_zip (OS.root w) = Some (OS.File data) →
  unzip data = Some ((λ image : string * string, ("train/" +:+ image.1, image.2)) <$> images) →
  images ≠ [] →
  Forall (λ image : string * string, OS.valid_name image.1 = true) images →
  NoDup images.*1 →
  ∃ w', Organizer.extract_train cwd unzip data_folder w = OS.Ok () w'
    ∧ (∀ fn content, (fn, content) ∈ images →
         OS.stat cwd (OS.join train_folder fn) (OS.root w') = Some (OS.File content))
    ∧ (∃ listing, OS.listdir cwd readdir_order train_folder w' = OS.Ok listing w'
                  ∧ listing ≡ₚ images.*1)
    ∧ OS.stat cwd train_zip (OS.root w') = Some (OS.File data)
    ∧ Organizer.extract_train cwd unzip data_folder w' = OS.Ok () w'.
Proof.
  intros train_folder train_zip Hperm Hdata Htrain Hzip Hunzip Hne Hvalid Hnd.
  subst train_folder train_zip.
  apply is_dir_resolves in Hdata as (D & eD & HDs & HD0).
  pose proof (join_base_resolve _ _ _ HDs) as HD.
  assert (OS.resolve cwd (OS.join data_folder "train") = Some (D ++ ["train"])) as HTs.
  { rewrite resolve_join_valid by done. by rewrite HD. }
  assert (OS.resolve cwd (OS.join data_folder "train.zip") = Some (D ++ ["train.zip"])) as HZs.
  { rewrite resolve_join_valid by done. by rewrite HD. }
  rewrite (stat_dir _ _ _ _ HTs), (node_at_snoc _ _ _ _ HD0) in Htrain.
  pose proof Hzip as Hzip0.
  rewrite (stat_dir _ _ _ _ HZs), (node_at_snoc _ _ _ _ HD0) in Hzip.
  destruct (extract_train_images cwd readdir_order unzip Hperm data_folder w D eD data
              images HDs HD0 Htrain Hzip Hunzip Hne Hvalid Hnd)
    as (w' & es & Hrun & HT & Hall & Hnames & Hframe).
  exists w'. split; [done|]. split; [|split; [|split]].
  - intros fn content Hin.
    assert (OS.valid_name fn = true) as Hv.
    { by apply (proj1 (Forall_forall _ _) Hvalid (fn, content)). }
    unfold OS.stat. rewrite resolve_join2 by done. rewrite HD.
    cbn [fmap option_fmap option_map mbind option_bind].
    replace (D ++ ["train"; fn]) with ((D ++ ["train"]) ++ [fn]) by (by rewrite <- app_assoc).
    rewrite (node_at_snoc _ _ _ _ HT), Hall.
    by rewrite (elem_of_list_to_map_1 _ fn content Hnd Hin).
  - exists (OS.names readdir_order es). split; [|done].
    by apply (listdir_dir _ _ _ (D ++ ["train"])).
  - rewrite <- Hzip0. unfold OS.stat. rewrite HZs. cbn [mbind option_bind].
    apply Hframe. by rewrite diverge_app.
  - unfold Organizer.extract_train. unfold mbind, OS.M_bind. unfold OS.exists_.
    rewrite (stat_dir _ _ _ _ HTs), HT. by rewrite bool_decide_eq_true_2.
Qed.

Lemma extract_train_fresh_witness :
  ∃ w', Organizer.extract_train [] small_archive "/data" fresh_world = OS.Ok () w'
    ∧ OS.stat [] "/data/train/cat.0.jpg" (OS.root w') = Some (OS.File "c0").
Proof.
  destruct (extract_train_fresh [] in_stored_order small_archive "/data" fresh_world
              "PK" three_images)
    as (w' & Hrun & Hfiles & _).
  - by intros l.
  - reflexivity.
  - reflexivity.
  - reflexivity.
  - reflexivity.
  - discriminate.
  - repeat constructor.
  - apply (bool_decide_unpack _). vm_compute. exact I.
  - exists w'. split; [exact Hrun|].
    apply (Hfiles "cat.0.jpg" "c0"). right. right. left.
Defined.

(** The first run of the organizer on a fresh data folder: an absolute
    folder without a dot in its path that holds the archive and neither a
    train nor a validation directory, for an archive of non-hidden image
    files [train/<class>.<...>.jpg] with at least 500 images of each of
    [dog] and [cat].  The three cells run without error; afterwards the
    validation directory of each class lists exactly 500 names, the last
    500 of the class in sorted order, the train directory of the class
    lists the others, and every validation image is a file with the content
    it has in the archive. *)
Theorem organize_first_run (cwd : OS.path)
    (readdir_order : list string → list string)
    (unzip : string → option (list (string * string)))
    (data_folder : string) (w : OS.world) (data : string)
    (images : list (string * string)) :
  let train_folder := OS.join data_folder "train" in
  let validation_folder := OS.join data_folder "validation" in
  let of_class c := filter (λ fn, Organizer.class_of fn = Some c) images.*1 in
  (∀ l, readdir_order l ≡ₚ l) →
  OS.startswith "/" data_folder = true →
  OS.split_once "." data_folder = None →
  OS.is_dir (OS.stat cwd data_folder (OS.root w)) = true →
  OS.stat cwd train_folder (OS.root w) = None →
  OS.stat cwd validation_folder (OS.root w) = None →
  OS.stat cwd (OS.join data_folder "train.zip") (OS.root w) = Some (OS.File data) →
  unzip data = Some ((λ image : string * string, ("train/" +:+ image.1, image.2)) <$> images) →
  Forall (λ fn, OS.valid_name fn = true ∧ OS.endswith ".jpg" fn = true
                ∧ OS.startswith "." fn = false) images.*1 →
  NoDup images.*1 →
  Organizer.n_validation ≤ length (of_class "dog") →
  Organizer.n_validation ≤ length (of_class "cat") →
  ∃ w', Organizer.organize cwd readdir_order unzip data_folder w = OS.Ok () w'
    ∧ ∀ class_name, class_name ∈ ["dog"; "cat"] →
        ∃ validation train,
          OS.listdir cwd readdir_order (OS.join validation_folder class_name) w'
            = OS.Ok validation w'
          ∧ OS.listdir cwd readdir_order (OS.join train_folder class_name) w'
            = OS.Ok train w'
          ∧ validation ≡ₚ Organizer.last_n Organizer.n_validation
                            (Organizer.sorted (of_class class_name))
          ∧ length validation = 500
          ∧ train ++ validation ≡ₚ of_class class_name
          ∧ ∀ x, x ∈ validation →
              ∃ content, (x, content) ∈ images
                ∧ OS.stat cwd (OS.join (OS.join validation_folder class_name) x) (OS.root w')
                  = Some (OS.File content).
Proof.
  intros train_folder validation_folder of_class Hperm Habs Hdot Hdata Htrain Hval Hzip
    Hunzip Hflat Hnd Hdogs Hcats.
  subst train_folder validation_folder.
  apply is_dir_resolves in Hdata as (D & eD & HDs & HD0).
  pose proof (join_base_resolve _ _ _ HDs) as HD.
  assert (data_folder ≠ "") as Hne by (by intros ->).
  assert (OS.resolve cwd (OS.join data_folder "train") = Some (D ++ ["train"])) as HTs.
  { rewrite resolve_join_valid by done. by rewrite HD. }
  assert (OS.resolve cwd (OS.join data_folder "validation") = Some (D ++ ["validation"])) as HVs.
  { rewrite resolve_join_valid by done. by rewrite HD. }
  assert (OS.resolve cwd (OS.join data_folder "train.zip") = Some (D ++ ["train.zip"])) as HZs.
  { rewrite resolve_join_valid by done. by rewrite HD. }
  rewrite (stat_dir _ _ _ _ HTs), (node_at_snoc _ _ _ _ HD0) in Htrain.
  rewrite (stat_dir _ _ _ _ HZs), (node_at_snoc _ _ _ _ HD0) in Hzip.
  rewrite (stat_dir _ _ _ _ HVs) in Hval.
  assert (images ≠ []) as Hsome.
  { intros ->. unfold Organizer.n_validation in Hdogs. simpl in Hdogs. lia. }
  assert (Forall (λ image : string * string, OS.valid_name image.1 = true) images) as Hvalid.
  { apply Forall_fmap in Hflat. eapply Forall_impl; [exact Hflat|]. by intros ? [? _]. }
  (* the extraction *)
  destruct (extract_train_images cwd readdir_order unzip Hperm data_folder w D eD data
              images HDs HD0 Htrain Hzip Hunzip Hsome Hvalid Hnd)
    as (w1 & es & Hextract & HT1 & Hall & Hnames & Hframe1).
  assert (∀ fn, fn ∈ OS.names readdir_order es →
                OS.endswith ".jpg" fn = true ∧ OS.startswith "." fn = false) as Hflat'.
  { intros fn Hfn. rewrite Hnames in Hfn.
    by destruct (proj1 (Forall_forall _ _) Hflat fn Hfn) as (_ & ? & ?). }
  (* the rearrangement *)
  destruct (rearrange_folders_flat cwd readdir_order Hperm _ _ es HTs) with (w := w1)
    as (w2 & now & Hrearrange & Hnow & Hre & Hframe2); try done.
  { by rewrite startswith_join. }
  { by apply join_dotless. }
  assert (∀ c, Organizer.n_validation ≤ length (of_class c) → OS.valid_name c = true →
            ∃ m, OS.node_at (D ++ ["train"; c]) (OS.root w2) = Some (OS.Dir m)
                 ∧ OS.names readdir_order m ≡ₚ of_class c
                 ∧ ∀ x, x ∈ OS.names readdir_order m → m !! x = es !! x) as Hfolder.
  { intros c Hlen Hc.
    destruct (class_folder_listing readdir_order Hperm es Hflat' now c Hre Hc)
      as (m & Hm & Hpm & Hsame).
    { destruct (filter_inhabited (λ fn, Organizer.class_of fn = Some c) images.*1)
        as (fn & Hfn & Hclass).
      - fold (of_class c). unfold Organizer.n_validation in Hlen. lia.
      - exists fn. by rewrite Hnames. }
    exists m. split; [|split; [|done]].
    - replace (D ++ ["train"; c]) with ((D ++ ["train"]) ++ [c]) by (by rewrite <- app_assoc).
      by rewrite (node_at_snoc _ _ _ _ Hnow).
    - rewrite Hpm. subst of_class. cbv beta. by rewrite Hnames. }
  destruct (Hfolder "dog" Hdogs eq_refl) as (m_dog & Hdog & Hpdog & Hsdog).
  destruct (Hfolder "cat" Hcats eq_refl) as (m_cat & Hcat & Hpcat & Hscat).
  (* the validation cell *)
  assert (OS.node_at (D ++ ["validation"]) (OS.root w2) = None) as HV2.
  { rewrite Hframe2 by (by rewrite diverge_app). by rewrite Hframe1 by (by rewrite diverge_app). }
  destruct (build_validation_fresh cwd readdir_order Hperm data_folder D w2
              m_dog m_cat HD HV2 Hdog Hcat) as (w' & Hbuild & Hclasses).
  exists w'. split.
  { unfold Organizer.organize. unfold mbind, OS.M_bind.
    by rewrite Hextract, Hrearrange. }
  intros c Hin.
  assert (∃ m, (c, m) ∈ [("dog", m_dog); ("cat", m_cat)]
               ∧ OS.names readdir_order m ≡ₚ of_class c
               ∧ (∀ x, x ∈ OS.names readdir_order m → m !! x = es !! x)
               ∧ OS.valid_name c = true
               ∧ Organizer.n_validation ≤ length (of_class c))
    as (m & Hm & Hpm & Hsm & Hc & Hlen).
  { apply elem_of_cons in Hin as [->|Hin].
    - exists m_dog. split; [by left|done].
    - apply elem_of_cons in Hin as [->|Hin%elem_of_nil]; [|done].
      exists m_cat. split; [right; by left|done]. }
  destruct (Hclasses c m Hm) as (es' & eV & HT' & HV' & Hes' & HeV).
  destruct (class_after_split cwd readdir_order Hperm data_folder c D w' m es' eV
              (of_class c) HD Hc Hpm Hlen HT' HV' Hes' HeV)
    as (validation & train & H1 & H2 & H3 & H4 & _ & H6 & _ & H8).
  exists validation, train. do 5 (split; [done|]).
  intros x Hx. destruct (H8 x Hx) as (Hxm & Hstat & _).
  rewrite Hstat, (Hsm x Hxm), Hall.
  pose proof Hxm as Hxm'.
  apply (elem_of_names _ Hperm) in Hxm' as [_ Hsome_x].
  rewrite (Hsm x Hxm), Hall in Hsome_x.
  destruct (list_to_map images !! x) as [content|] eqn:Hl; [|by destruct Hsome_x].
  exists content. split; [|done]. by apply elem_of_list_to_map_2 in Hl.
Qed.

Section ArchivedImages.

Lemma string_length_app (a b : string) :
  String.length (a +:+ b) = String.length a + String.length b.
Proof. induction a as [|x a IH]; [done|]. rewrite string_app_cons. simpl. by rewrite IH. Qed.

Lemma string_app_inj_r (s a b : string) : a +:+ s = b +:+ s → a = b.
Proof.
  revert b. induction a as [|x a IH]; intros [|y b] Heq; [done| | |].
  - apply (f_equal String.length) in Heq.
    rewrite !string_length_app in Heq. simpl in Heq. lia.
  - apply (f_equal String.length) in Heq.
    rewrite !string_length_app in Heq. simpl in Heq. lia.
  - rewrite !string_app_cons in Heq. injection Heq as -> Heq. f_equal. by apply IH.
Qed.

Lemma NoDup_image_names (class_name : string) (count : nat) :
  NoDup (image_names class_name count).
Proof.
  unfold image_names. apply NoDup_fmap_2; [|apply NoDup_seq].
  intros i j Heq.
  apply (inj (String.app class_name)) in Heq.
  apply (inj (String.app ".")) in Heq.
  apply string_app_inj_r in Heq. by apply (inj pretty).
Qed.

Lemma archived_images_NoDup : NoDup archived_images.*1.
Proof.
  unfold archived_images. rewrite <- list_fmap_compose.
  assert (∀ l : list string, (fst ∘ (λ name : string, (name, name))) <$> l = l) as ->.
  { intros l. induction l as [|x l IH]; [done|]. rewrite fmap_cons. by rewrite IH. }
  apply NoDup_app. split; [apply NoDup_image_names|].
  split; [|apply NoDup_image_names].
  intros x (i & -> & _)%list_elem_of_fmap (j & Heq & _)%list_elem_of_fmap.
  discriminate Heq.
Qed.

End ArchivedImages.

Lemma organize_first_run_witness :
  ∃ w', Organizer.organize [] in_stored_order image_archive "/data" fresh_world = OS.Ok () w'
    ∧ ∃ validation,
        OS.listdir [] in_stored_order "/data/validation/cat" w' = OS.Ok validation w'
        ∧ length validation = 500.
Proof.
  destruct (organize_first_run [] in_stored_order image_archive "/data" fresh_world
              "PK" archived_images)
    as (w' & Hrun & Hclasses).
  - by intros l.
  - reflexivity.
  - reflexivity.
  - reflexivity.
  - reflexivity.
  - reflexivity.
  - reflexivity.
  - reflexivity.
  - apply (bool_decide_unpack _). vm_compute. exact I.
  - exact archived_images_NoDup.
  - vm_compute. lia.
  - vm_compute. lia.
  - exists w'. split; [exact Hrun|].
    destruct (Hclasses "cat" ltac:(right; left))
      as (validation & train & Hv & _ & _ & Hlen & _).
    exists validation. split; [exact Hv|exact Hlen].
Defined.
